(** * GIGO (Garbage In, Gold Out): a shallow embedding of the extension

  The development follows the TypeScript sources file by file:
  - [Constants]   : constants.ts  (configuration keys, defaults, HistoryEntry)
  - [LlmService]  : llmService.ts (provider clients and the fallback chain)
  - [Extension]   : extension.ts  (history store, commands, performUpscale)

  JavaScript strings are sequences of UTF-16 code units; asynchronous
  functions are run to completion in program order, so an [await] is a
  monadic bind.  Everything the extension obtains from its host (settings,
  language models, HTTP responses, the user's answers, the clock) is an
  oracle of the environment [Env]; everything it can change is a field of
  [State], which also keeps the trace of the host calls it made. *)

From Stdlib Require Import NArith ZArith String Ascii List Bool Lia DecimalString.
From stdpp Require Import base list.

Set Implicit Arguments.
Local Open Scope N_scope.

(* ===================================================================== *)
(** ** JavaScript strings *)
(* ===================================================================== *)

Module JsString.

(** A string is the list of its UTF-16 code units. *)
Definition jsstring := list N.

(** An ASCII literal of the source, as code units. *)
Fixpoint lit (s : string) : jsstring :=
  match s with
  | EmptyString => []
  | String a r => N_of_ascii a :: lit r
  end.

Definition nl : jsstring := [10].      (* "\n" *)
Definition dquote : jsstring := [34].  (* the double quote *)
Definition rarrow : jsstring := [8594]. (* U+2192 *)

(** ECMAScript WhiteSpace and LineTerminator code points, the ones
    [String.prototype.trim] strips.  All of them are in the BMP. *)
Definition isWhiteSpace (c : N) : bool :=
  ((9 <=? c) && (c <=? 13)) || (c =? 32) || (c =? 160) || (c =? 5760)
  || ((8192 <=? c) && (c <=? 8202)) || (c =? 8232) || (c =? 8233)
  || (c =? 8239) || (c =? 8287) || (c =? 12288) || (c =? 65279).

Fixpoint trimStart (s : jsstring) : jsstring :=
  match s with
  | [] => []
  | c :: r => if isWhiteSpace c then trimStart r else s
  end.

Definition trimEnd (s : jsstring) : jsstring := rev (trimStart (rev s)).

(** [s.trim()] *)
Definition trim (s : jsstring) : jsstring := trimEnd (trimStart s).

(** Truthiness of a string: only the empty string is falsy. *)
Definition truthy (s : jsstring) : bool :=
  match s with [] => false | _ => true end.

(** Truthiness of [string | undefined]. *)
Definition truthy_opt (s : option jsstring) : bool :=
  match s with None => false | Some s => truthy s end.

(** [String(n)] for a non-negative integer. *)
Definition ofN (n : N) : jsstring := lit (NilZero.string_of_uint (N.to_uint n)).

(** [hay.includes(needle)], as a proposition. *)
Definition includes (hay needle : jsstring) : Prop :=
  exists pre post, hay = pre ++ needle ++ post.

End JsString.
Export JsString.

#[global] Arguments lit s : simpl never.
#[global] Arguments trim s : simpl never.
#[global] Arguments ofN n : simpl never.

(* ===================================================================== *)
(** ** constants.ts *)
(* ===================================================================== *)

Module Constants.

Inductive ApiProvider := openai | anthropic.

Definition provider_name (p : ApiProvider) : jsstring :=
  match p with openai => lit "openai" | anthropic => lit "anthropic" end.

Definition SYSTEM_PROMPT : jsstring :=
  lit "Rewrite the user's sloppy/lazy request into a clean, clear, well-specified version." ++ nl
  ++ nl
  ++ lit "Rules:" ++ nl
  ++ lit "- Output ONLY the rewritten request. Nothing else." ++ nl
  ++ lit "- Fix typos and grammar." ++ nl
  ++ lit "- Clarify vague intent." ++ nl
  ++ lit "- Keep output length proportional to input complexity. A short input gets a short (but clearer) output." ++ nl
  ++ lit "- For technical/coding requests: add relevant details like edge cases, error handling, or constraints." ++ nl
  ++ lit "- Do NOT write a " ++ dquote ++ lit "system prompt" ++ dquote ++ lit " or "
     ++ dquote ++ lit "persona description" ++ dquote ++ lit " - just rewrite the actual request." ++ nl
  ++ nl
  ++ lit "Examples:" ++ nl
  ++ dquote ++ lit "yo whats up" ++ dquote ++ lit " " ++ rarrow ++ lit " "
     ++ dquote ++ lit "Hello, how are you?" ++ dquote ++ nl
  ++ dquote ++ lit "add auth" ++ dquote ++ lit " " ++ rarrow ++ lit " "
     ++ dquote ++ lit "Implement JWT-based authentication with login/logout endpoints, token validation middleware, password hashing (bcrypt), and proper error responses (401 for invalid/expired tokens)." ++ dquote ++ nl
  ++ dquote ++ lit "make it faster" ++ dquote ++ lit " " ++ rarrow ++ lit " "
     ++ dquote ++ lit "Optimize performance. Profile to identify bottlenecks, consider caching frequently accessed data, reduce unnecessary database queries, and evaluate algorithm complexity." ++ dquote ++ nl
  ++ dquote ++ lit "fix teh bug" ++ dquote ++ lit " " ++ rarrow ++ lit " "
     ++ dquote ++ lit "Debug and fix the issue. Identify the root cause, add appropriate error handling, and include a test to prevent regression." ++ dquote ++ nl
  ++ nl
  ++ lit "Rewrite this:".

(** The settings of section [gigo], as [config.get] returns them
    ([None] is [undefined]).  CONFIG names the keys; here they are the
    fields. *)
Record Config := {
  apiKey : option jsstring;
  apiProvider : option ApiProvider;
  model : option jsstring;
  systemPrompt : option jsstring;
  historySize : option Z
}.

Record HistoryEntry := {
  original : jsstring;
  upscaled : jsstring;
  timestamp : Z
}.

Definition DEFAULT_MODELS (p : ApiProvider) : jsstring :=
  match p with
  | openai => lit "gpt-4o"
  | anthropic => lit "claude-sonnet-4-20250514"
  end.

Definition API_ENDPOINTS (p : ApiProvider) : jsstring :=
  match p with
  | openai => lit "https://api.openai.com/v1/chat/completions"
  | anthropic => lit "https://api.anthropic.com/v1/messages"
  end.

End Constants.
Export Constants.

#[global] Arguments SYSTEM_PROMPT : simpl never.

(* ===================================================================== *)
(** ** The host: VS Code, the network, the user *)
(* ===================================================================== *)

Module Host.

(** A JavaScript computation returns or throws.  A thrown value is kept
    as the text both [catch] blocks of the source reduce it to:
    [err instanceof Error ? err.message : String(err)]. *)
Inductive js_result (A : Type) : Type :=
| Ok (a : A)
| Throw (message : jsstring).
Arguments Throw {A} message.

(** The async iterable [response.text] of a language-model response:
    finitely many chunks, then the end or a fault (for instance the
    cancellation error of a request whose token fired). *)
Inductive LmStream :=
| StreamEnd
| StreamChunk (chunk : jsstring) (rest : LmStream)
| StreamThrow (message : jsstring).

(** [model.sendRequest(messages, {}, token)]: the model sees the one user
    message and whether the token it was given is cancelled. *)
Record ChatModel := {
  sendRequest : jsstring -> bool -> js_result LmStream
}.

(** [vscode.lm]; the selector is [{ family }] or [{}]. *)
Record LmApi := {
  selectChatModels : option jsstring -> js_result (list ChatModel)
}.

(** What a [fetch] call of the source sends, without the constant parts
    of the request shape (method, content type, temperature, max_tokens,
    API version). *)
Record FetchRequest := {
  req_url : jsstring;
  req_key : jsstring;
  req_model : jsstring;
  req_system : jsstring;
  req_user : jsstring
}.

(** A [Response]: [ok], [status], and what [text()] and [json()] settle
    to; [D] is the type the source casts the parsed body to. *)
Record Response (D : Type) := {
  resp_ok : bool;
  resp_status : N;
  resp_text : js_result jsstring;
  resp_json : js_result D
}.

(** [{ choices?: Array<{ message?: { content?: string } }> }] *)
Record OpenAIMessage := { msg_content : option jsstring }.
Record OpenAIChoice := { choice_message : option OpenAIMessage }.
Record OpenAIData := { data_choices : option (list OpenAIChoice) }.

(** [{ content?: Array<{ type: string; text?: string }> }] *)
Record AnthropicBlock := { block_type : jsstring; block_text : option jsstring }.
Record AnthropicData := { data_content : option (list AnthropicBlock) }.

(** The active editor, as far as the extension looks at it: the text of
    its selection ([selection.isEmpty] exactly when that text is empty). *)
Record Editor := { selectedText : jsstring }.

(** The moments at which the user can press Cancel on the progress
    notification: while a host-model request or an HTTP request is
    pending. *)
Inductive Phase := DuringLmRequest | DuringFetch.

(** The buttons of the notifications the extension shows. *)
Inductive Action :=
| OpenSettings | Dismiss | RestoreOriginal | ViewOriginal | ViewBoth | ViewFullText.

(** What the host answers during one command. *)
Record Env := {
  (* the settings of section 'gigo', read afresh at every getConfiguration *)
  config : Config;
  (* vscode.lm, when the API is there *)
  lm : option LmApi;
  (* the two HTTP endpoints *)
  fetch_openai : FetchRequest -> js_result (Response OpenAIData);
  fetch_anthropic : FetchRequest -> js_result (Response AnthropicData);
  (* whether the user presses Cancel in a phase *)
  userCancels : Phase -> bool;
  (* vscode.window.activeTextEditor *)
  activeTextEditor : option Editor;
  (* the text submitted to the input box, None when it is dismissed *)
  inputBoxAnswer : option jsstring;
  (* the index of the quick-pick item chosen, None when it is dismissed *)
  quickPickAnswer : option nat;
  (* the notification button pressed, None when there is none *)
  messageAnswer : option Action;
  (* what the n-th call of Date.now() returns *)
  clock : nat -> Z;
  (* the error globalState.update rejects with, None when it resolves *)
  updateRejects : option jsstring
}.

(** Host calls the extension makes, in program order.  [EvCall] is a
    ghost event: it marks the entry of one of the two provider clients
    of the fallback chain. *)
Inductive Client := HostModelClient | ExternalClient.

Inductive Event :=
| EvCall (c : Client)
| EvSelectChatModels (family : option jsstring)
| EvSendRequest (prompt : jsstring)
| EvFetch (p : ApiProvider) (r : FetchRequest)
| EvShowInputBox
| EvShowQuickPick (items : nat)
| EvShowWarningMessage (m : jsstring)
| EvShowErrorMessage (m : jsstring)
| EvShowInformationMessage (m : jsstring)
| EvClipboardRead
| EvClipboardWrite (t : jsstring)
| EvEditorReplace (t : jsstring)
| EvEditorInsert (t : jsstring)
| EvGlobalStateUpdate (h : list HistoryEntry)
| EvOpenSettings
| EvOpenTextDocument (content : jsstring).

Record State := {
  trace : list Event;
  tokenCancelled : bool;       (* the progress token's isCancellationRequested *)
  clipboard : jsstring;
  globalState : option (list HistoryEntry);  (* key 'gigo.history', as in memory *)
  ticks : nat                  (* number of Date.now() calls so far *)
}.

(** Computations: read the environment, thread the state, return or throw. *)
Definition M (A : Type) : Type := Env -> State -> js_result A * State.

Definition ret {A} (a : A) : M A := fun _ s => (Ok a, s).
Definition throw {A} (message : jsstring) : M A := fun _ s => (Throw message, s).
Definition bind {A B} (m : M A) (k : A -> M B) : M B :=
  fun e s =>
    match m e s with
    | (Ok a, s') => k a e s'
    | (Throw msg, s') => (Throw msg, s')
    end.
(** [try { m } catch (err) { h(message of err) }] *)
Definition try_catch {A} (m : M A) (h : jsstring -> M A) : M A :=
  fun e s =>
    match m e s with
    | (Ok a, s') => (Ok a, s')
    | (Throw msg, s') => h msg e s'
    end.
Definition settle {A} (r : js_result A) : M A := fun _ s => (r, s).
Definition asks {A} (f : Env -> A) : M A := fun e s => (Ok (f e), s).
Definition gets {A} (f : State -> A) : M A := fun _ s => (Ok (f s), s).
Definition modify (f : State -> State) : M unit := fun _ s => (Ok tt, f s).

Definition emit (ev : Event) : M unit :=
  modify (fun s => {| trace := trace s ++ [ev];
                      tokenCancelled := tokenCancelled s;
                      clipboard := clipboard s;
                      globalState := globalState s;
                      ticks := ticks s |}).

(** While the extension awaits in phase [p] the user may press Cancel;
    a token never goes back to not cancelled. *)
Definition pending (p : Phase) : M unit :=
  fun e s => (Ok tt, {| trace := trace s;
                        tokenCancelled := tokenCancelled s || userCancels e p;
                        clipboard := clipboard s;
                        globalState := globalState s;
                        ticks := ticks s |}).

End Host.
Export Host.

Declare Scope js_scope.
Delimit Scope js_scope with js.
Notation "x <- c ;; k" := (bind c (fun x => k))
  (at level 100, c at next level, right associativity) : js_scope.
Notation "c ;;; k" := (bind c (fun _ => k))
  (at level 100, right associativity) : js_scope.
Local Open Scope js_scope.

(* ===================================================================== *)
(** ** llmService.ts *)
(* ===================================================================== *)

Module LlmService.

Inductive Source := vscode_lm | src_openai | src_anthropic.

Definition source_name (s : Source) : jsstring :=
  match s with
  | vscode_lm => lit "vscode.lm"
  | src_openai => lit "openai"
  | src_anthropic => lit "anthropic"
  end.

(** [UpscaleResult] *)
Inductive UpscaleResult :=
| Success (text : jsstring) (source : Source)
| Failure (error : jsstring).

(** The one cancellation token of an invocation, the progress
    notification's; its flag is [tokenCancelled]. *)
Inductive CancellationToken := progressToken.

(** [vscode.workspace.getConfiguration(CONFIG.SECTION)] *)
Definition getConfiguration : M Config := asks config.

Definition getEffectiveSystemPrompt : M jsstring :=
  cfg <- getConfiguration ;;
  let customPrompt := systemPrompt cfg in
  ret (match customPrompt with
       | Some p => if truthy p && truthy (trim p) then trim p else SYSTEM_PROMPT
       | None => SYSTEM_PROMPT
       end).

(** [await vscode.lm.selectChatModels(selector)] *)
Definition lm_selectChatModels (api : LmApi) (family : option jsstring)
  : M (list ChatModel) :=
  emit (EvSelectChatModels family) ;;;
  settle (selectChatModels api family).

(** [await model.sendRequest(messages, {}, cancellationToken ?? fresh)].
    A token made on the spot by [new CancellationTokenSource()] is never
    cancelled. *)
Definition lm_sendRequest (m : ChatModel) (prompt : jsstring)
    (cancellationToken : option CancellationToken) : M LmStream :=
  emit (EvSendRequest prompt) ;;;
  pending DuringLmRequest ;;;
  cancelled <- match cancellationToken with
               | Some progressToken => gets tokenCancelled
               | None => ret false
               end ;;
  settle (sendRequest m prompt cancelled).

(** [for await (const chunk of response.text) result += chunk] *)
Fixpoint collect (stream : LmStream) (result : jsstring) : js_result jsstring :=
  match stream with
  | StreamEnd => Ok result
  | StreamChunk chunk rest => collect rest (result ++ chunk)
  | StreamThrow message => Throw message
  end.

Definition lm_prompt (systemPrompt input : jsstring) : jsstring :=
  systemPrompt ++ nl ++ nl ++ lit "---" ++ nl ++ nl
  ++ lit "User's prompt to upscale:" ++ nl ++ input.

Definition tryVscodeLm (input systemPrompt : jsstring)
    (cancellationToken : option CancellationToken) : M UpscaleResult :=
  emit (EvCall HostModelClient) ;;;
  try_catch
    (api <- asks lm ;;
     match api with
     | None => ret (Failure (lit "vscode.lm API not available"))
     | Some api =>
       models <- lm_selectChatModels api (Some (lit "gpt-4o")) ;;
       models <- (if (length models =? 0)%nat
                  then lm_selectChatModels api None
                  else ret models) ;;
       match models with
       | [] => ret (Failure (lit "No language models available via vscode.lm"))
       | model :: _ =>
         response <- lm_sendRequest model (lm_prompt systemPrompt input)
                                    cancellationToken ;;
         result <- settle (collect response []) ;;
         if negb (truthy (trim result))
         then ret (Failure (lit "Empty response from vscode.lm"))
         else ret (Success (trim result) vscode_lm)
       end
     end)
    (fun message => ret (Failure (lit "vscode.lm error: " ++ message))).

(** [await fetch(API_ENDPOINTS.openai, ...)] and the Anthropic one. *)
Definition fetchOpenAI (r : FetchRequest) : M (Response OpenAIData) :=
  emit (EvFetch openai r) ;;;
  pending DuringFetch ;;;
  f <- asks fetch_openai ;;
  settle (f r).

Definition fetchAnthropic (r : FetchRequest) : M (Response AnthropicData) :=
  emit (EvFetch anthropic r) ;;;
  pending DuringFetch ;;;
  f <- asks fetch_anthropic ;;
  settle (f r).

Definition http_error {D} (response : Response D) (errorText : jsstring) : jsstring :=
  lit "HTTP " ++ ofN (resp_status response) ++ lit ": " ++ errorText.

(** [data.choices?.[0]?.message?.content] *)
Definition openai_content (data : OpenAIData) : option jsstring :=
  match data_choices data with
  | None => None
  | Some choices =>
    match choices !! 0%nat with
    | None => None
    | Some choice =>
      match choice_message choice with
      | None => None
      | Some message => msg_content message
      end
    end
  end.

Definition callOpenAI (apiKey model input systemPrompt : jsstring)
  : M UpscaleResult :=
  response <- fetchOpenAI {| req_url := API_ENDPOINTS openai;
                             req_key := apiKey;
                             req_model := model;
                             req_system := systemPrompt;
                             req_user := input |} ;;
  if negb (resp_ok response) then
    errorText <- settle (resp_text response) ;;
    throw (http_error response errorText)
  else
    data <- settle (resp_json response) ;;
    match openai_content data with
    | Some content =>
      if negb (truthy content)
      then throw (lit "No content in OpenAI response")
      else ret (Success (trim content) src_openai)
    | None => throw (lit "No content in OpenAI response")
    end.

(** [data.content?.find((block) => block.type === 'text')] *)
Definition anthropic_textBlock (data : AnthropicData) : option AnthropicBlock :=
  match data_content data with
  | None => None
  | Some blocks =>
    List.find (fun block => bool_decide (block_type block = lit "text")) blocks
  end.

Definition callAnthropic (apiKey model input systemPrompt : jsstring)
  : M UpscaleResult :=
  response <- fetchAnthropic {| req_url := API_ENDPOINTS anthropic;
                                req_key := apiKey;
                                req_model := model;
                                req_system := systemPrompt;
                                req_user := input |} ;;
  if negb (resp_ok response) then
    errorText <- settle (resp_text response) ;;
    throw (http_error response errorText)
  else
    data <- settle (resp_json response) ;;
    match anthropic_textBlock data with
    | Some textBlock =>
      match block_text textBlock with
      | Some text =>
        if negb (truthy text)
        then throw (lit "No text content in Anthropic response")
        else ret (Success (trim text) src_anthropic)
      | None => throw (lit "No text content in Anthropic response")
      end
    | None => throw (lit "No text content in Anthropic response")
    end.

Definition tryExternalApi (input systemPrompt : jsstring) : M UpscaleResult :=
  emit (EvCall ExternalClient) ;;;
  cfg <- getConfiguration ;;
  let apiKey := apiKey cfg in
  let provider := match apiProvider cfg with Some p => p | None => openai end in
  let customModel := model cfg in
  let model := match customModel with
               | Some m => if truthy m then m else DEFAULT_MODELS provider
               | None => DEFAULT_MODELS provider
               end in
  match apiKey with
  | Some apiKey =>
    if negb (truthy apiKey)
    then ret (Failure (lit "No API key configured. Set gigo.apiKey in settings."))
    else
      try_catch
        (match provider with
         | openai => callOpenAI apiKey model input systemPrompt
         | anthropic => callAnthropic apiKey model input systemPrompt
         end)
        (fun message =>
           ret (Failure (provider_name provider ++ lit " API error: " ++ message)))
  | None => ret (Failure (lit "No API key configured. Set gigo.apiKey in settings."))
  end.

(** Priority: vscode.lm API > External API (OpenAI/Anthropic). *)
Definition upscalePrompt (input : jsstring)
    (cancellationToken : option CancellationToken) : M UpscaleResult :=
  systemPrompt <- getEffectiveSystemPrompt ;;
  vscodeLmResult <- tryVscodeLm input systemPrompt cancellationToken ;;
  match vscodeLmResult with
  | Success _ _ => ret vscodeLmResult
  | Failure vscodeLmError =>
    externalResult <- tryExternalApi input systemPrompt ;;
    match externalResult with
    | Success _ _ => ret externalResult
    | Failure externalError =>
      ret (Failure (lit "vscode.lm: " ++ vscodeLmError ++ nl
                    ++ lit "External API: " ++ externalError))
    end
  end.

(** [openSettings()] *)
Definition openSettings : M unit := emit EvOpenSettings.

End LlmService.
Export LlmService.

(* ===================================================================== *)
(** ** extension.ts *)
(* ===================================================================== *)

Module Extension.

(** *** Host calls of the extension *)

(** [Date.now()]: the clock is read, and has moved on at the next read. *)
Definition dateNow : M Z :=
  fun e s => (Ok (clock e (ticks s)),
              {| trace := trace s;
                 tokenCancelled := tokenCancelled s;
                 clipboard := clipboard s;
                 globalState := globalState s;
                 ticks := S (ticks s) |}).

(** [await extensionContext.globalState.update(STORAGE_KEYS.HISTORY, h)]:
    the store takes [h] as its value in memory at once; the promise then
    resolves, or rejects when the persistence layer fails, and the value
    in memory stays [h] either way. *)
Definition globalState_update (h : list HistoryEntry) : M unit :=
  emit (EvGlobalStateUpdate h) ;;;
  modify (fun s => {| trace := trace s;
                      tokenCancelled := tokenCancelled s;
                      clipboard := clipboard s;
                      globalState := Some h;
                      ticks := ticks s |}) ;;;
  rejects <- asks updateRejects ;;
  match rejects with
  | Some message => throw message
  | None => ret tt
  end.

(** [await vscode.env.clipboard.readText()] and [writeText(t)] *)
Definition clipboard_readText : M jsstring :=
  emit EvClipboardRead ;;;
  gets clipboard.

Definition clipboard_writeText (t : jsstring) : M unit :=
  emit (EvClipboardWrite t) ;;;
  modify (fun s => {| trace := trace s;
                      tokenCancelled := tokenCancelled s;
                      clipboard := t;
                      globalState := globalState s;
                      ticks := ticks s |}).

Definition action_eqb (a b : Action) : bool :=
  match a, b with
  | OpenSettings, OpenSettings | Dismiss, Dismiss
  | RestoreOriginal, RestoreOriginal | ViewOriginal, ViewOriginal
  | ViewBoth, ViewBoth | ViewFullText, ViewFullText => true
  | _, _ => false
  end.

(** The answer to a notification is one of the buttons it offers, or
    [undefined]. *)
Definition answer (offered : list Action) : M (option Action) :=
  a <- asks messageAnswer ;;
  ret (match a with
       | Some a => if existsb (action_eqb a) offered then Some a else None
       | None => None
       end).

Definition showErrorMessage (m : jsstring) (offered : list Action)
  : M (option Action) :=
  emit (EvShowErrorMessage m) ;;; answer offered.

Definition showInformationMessage (m : jsstring) (offered : list Action)
  : M (option Action) :=
  emit (EvShowInformationMessage m) ;;; answer offered.

Definition showWarningMessage (m : jsstring) : M unit :=
  emit (EvShowWarningMessage m).

(** [await vscode.window.showInputBox(...)] *)
Definition showInputBox : M (option jsstring) :=
  emit EvShowInputBox ;;; asks inputBoxAnswer.

(** [await vscode.window.showQuickPick(items, ...)] followed by
    [items.indexOf(selected)]: the index of the item picked, which is one
    of the [n] items shown, or nothing. *)
Definition showQuickPick (n : nat) : M (option nat) :=
  emit (EvShowQuickPick n) ;;;
  a <- asks quickPickAnswer ;;
  ret (match a with
       | Some i => if (i <? n)%nat then Some i else None
       | None => None
       end).

(** [openTextDocument({ content, language })] then [showTextDocument] *)
Definition openTextDocument (content : jsstring) : M unit :=
  emit (EvOpenTextDocument content).

(** [editor.edit(b => b.replace(selection, t))] and [b.insert(active, t)] *)
Definition editor_replace (t : jsstring) : M unit := emit (EvEditorReplace t).
Definition editor_insert (t : jsstring) : M unit := emit (EvEditorInsert t).

(** *** History management *)

Definition getHistorySize : M Z :=
  cfg <- getConfiguration ;;
  ret (match historySize cfg with Some n => n | None => 5%Z end).

(** [globalState.get(STORAGE_KEYS.HISTORY, [])] hands out the array the
    store holds, the object itself, or a new empty array when it holds
    none. *)
Definition getHistory : M (list HistoryEntry) :=
  h <- gets globalState ;;
  ret (match h with Some h => h | None => [] end).

(** A mutation in place of the array [getHistory] returned, which leaves
    it with the elements [items].  When the store holds a log that array
    is the stored one, so the store shows [items] at once, before any
    [update]; the default array of [get] is not in the store. *)
Definition mutated (items : list HistoryEntry) : M (list HistoryEntry) :=
  modify (fun s => {| trace := trace s;
                      tokenCancelled := tokenCancelled s;
                      clipboard := clipboard s;
                      globalState := match globalState s with
                                     | Some _ => Some items
                                     | None => None
                                     end;
                      ticks := ticks s |}) ;;;
  ret items.

(** [a.length = n], reached in the source only with [n < a.length]: the
    array is cut to its first [n] elements, and a negative [n] is a
    [RangeError].  (The other invalid lengths, [n >= 2^32], cannot be below
    the length of an array.) *)
Definition set_length {A} (a : list A) (n : Z) : js_result (list A) :=
  if (n <? 0)%Z
  then Throw (lit "Invalid array length")
  else Ok (take (Z.to_nat n) a).

Definition addToHistory (original upscaled : jsstring) : M unit :=
  history <- getHistory ;;
  maxSize <- getHistorySize ;;
  now <- dateNow ;;
  let entry := {| original := original; upscaled := upscaled; timestamp := now |} in
  (* Add to front, trim to max size *)
  history <- mutated (entry :: history) ;;            (* history.unshift(entry) *)
  history <- (if (Z.of_nat (length history) >? maxSize)%Z
              then
                cut <- settle (set_length history maxSize) ;;
                mutated cut                           (* history.length = maxSize *)
              else ret history) ;;
  globalState_update history.

(** *** Core upscale logic *)

(** [s && s.trim().length > 0] on [string | undefined] *)
Definition hasText (s : option jsstring) : bool :=
  match s with
  | Some s => truthy s && (0 <? length (trim s))%nat
  | None => false
  end.

Definition both_document (original upscaled : jsstring) : jsstring :=
  lit "# Original Prompt" ++ nl ++ nl ++ original ++ nl ++ nl ++ lit "---"
  ++ nl ++ nl ++ lit "# Upscaled Version" ++ nl ++ nl ++ upscaled.

(** [withProgress] hands the callback a token of its own, not cancelled
    when the callback starts. *)
Definition withProgress_token : M CancellationToken :=
  modify (fun s => {| trace := trace s;
                      tokenCancelled := false;
                      clipboard := clipboard s;
                      globalState := globalState s;
                      ticks := ticks s |}) ;;;
  ret progressToken.

Definition performUpscale (inputText : jsstring) (editorContext : option Editor)
    (isClipboardMode : bool) : M unit :=
  token <- withProgress_token ;;
  result <- upscalePrompt inputText (Some token) ;;
  cancelled <- gets tokenCancelled ;;
  if cancelled then ret tt else
  match result with
  | Failure error =>
    action <- showErrorMessage (lit "GIGO: " ++ error) [OpenSettings; Dismiss] ;;
    match action with
    | Some OpenSettings => openSettings
    | _ => ret tt
    end
  | Success upscaledText source =>
    (* Save to history *)
    addToHistory inputText upscaledText ;;;
    match editorContext with
    | Some _ =>
      (* Replace selection in editor.  The notification is not awaited:
         its 'Restore Original' button starts [executeRestoreOriginal]
         as a later command of its own. *)
      editor_replace upscaledText ;;;
      emit (EvShowInformationMessage
              (lit "GIGO: Prompt upscaled via " ++ source_name source))
    | None =>
      if isClipboardMode then
        (* Clipboard mode: write back to clipboard *)
        clipboard_writeText upscaledText ;;;
        action <- showInformationMessage
                    (lit "GIGO: Upscaled prompt written to clipboard (via "
                     ++ source_name source ++ lit ")")
                    [ViewOriginal; ViewBoth] ;;
        match action with
        | Some ViewOriginal =>
          clipboard_writeText inputText ;;;
          emit (EvShowInformationMessage (lit "GIGO: Original restored to clipboard"))
        | Some ViewBoth => openTextDocument (both_document inputText upscaledText)
        | _ => ret tt
        end
      else
        (* Input box mode: copy to clipboard *)
        clipboard_writeText upscaledText ;;;
        action <- showInformationMessage
                    (lit "GIGO: Upscaled prompt copied to clipboard (via "
                     ++ source_name source ++ lit ")")
                    [ViewFullText] ;;
        match action with
        | Some ViewFullText => openTextDocument upscaledText
        | _ => ret tt
        end
    end
  end.

(** *** Command: Upscale Prompt (selection or input box) *)

Definition executeUpscale : M unit :=
  editor <- asks activeTextEditor ;;
  let selectedText := option_map selectedText editor in
  if hasText selectedText then
    match editor, selectedText with
    | Some editor, Some inputText => performUpscale inputText (Some editor) false
    | _, _ => ret tt
    end
  else
    userInput <- showInputBox ;;
    match userInput with
    | Some inputText =>
      if hasText userInput then performUpscale inputText None false else ret tt
    | None => ret tt
    end.

(** *** Command: Upscale from Clipboard *)

Definition executeUpscaleClipboard : M unit :=
  clipboardText <- clipboard_readText ;;
  if negb (hasText (Some clipboardText)) then
    showWarningMessage (lit "GIGO: Clipboard is empty")
  else
    performUpscale clipboardText None true.

(** *** Command: Restore Original *)

Definition executeRestoreOriginal : M unit :=
  history <- getHistory ;;
  if (length history =? 0)%nat then
    emit (EvShowInformationMessage (lit "GIGO: No history available"))
  else
    selected <- showQuickPick (length history) ;;
    match selected with
    | None => ret tt
    | Some index =>
      match history !! index with
      | None => throw (lit "Cannot read properties of undefined (reading 'original')")
      | Some entry =>
        editor <- asks activeTextEditor ;;
        match editor with
        | Some editor =>
          if truthy (selectedText editor) then
            (* Replace selection with original *)
            editor_replace (original entry) ;;;
            emit (EvShowInformationMessage (lit "GIGO: Original restored"))
          else
            (* No selection but editor is open - insert at cursor *)
            editor_insert (original entry) ;;;
            emit (EvShowInformationMessage (lit "GIGO: Original inserted at cursor"))
        | None =>
          (* No editor - copy to clipboard as fallback *)
          clipboard_writeText (original entry) ;;;
          action <- showInformationMessage
                      (lit "GIGO: Original copied to clipboard (no editor open)")
                      [ViewBoth] ;;
          match action with
          | Some ViewBoth =>
            openTextDocument (both_document (original entry) (upscaled entry))
          | _ => ret tt
          end
        end
      end
    end.

End Extension.
Export Extension.

(* ===================================================================== *)
(** ** Concrete environments *)
(* ===================================================================== *)

Module Scenario.

(** The settings as installed: no API key, provider openai, history 5. *)
Definition defaultConfig : Config :=
  {| apiKey := Some []; apiProvider := Some openai; model := Some [];
     systemPrompt := Some []; historySize := Some 5%Z |}.

Definition withKey (k : jsstring) (c : Config) : Config :=
  {| apiKey := Some k; apiProvider := apiProvider c; model := model c;
     systemPrompt := systemPrompt c; historySize := historySize c |}.

Definition withProvider (p : ApiProvider) (c : Config) : Config :=
  {| apiKey := apiKey c; apiProvider := Some p; model := model c;
     systemPrompt := systemPrompt c; historySize := historySize c |}.

Definition withHistorySize (n : Z) (c : Config) : Config :=
  {| apiKey := apiKey c; apiProvider := apiProvider c; model := model c;
     systemPrompt := systemPrompt c; historySize := Some n |}.

(** A language model that streams [chunks], and honours cancellation by
    failing the request with the host's cancellation error. *)
Fixpoint stream_of (chunks : list jsstring) : LmStream :=
  match chunks with
  | [] => StreamEnd
  | c :: r => StreamChunk c (stream_of r)
  end.

Definition modelStreaming (chunks : list jsstring) : ChatModel :=
  {| sendRequest := fun _ cancelled =>
       if cancelled then Throw (lit "Canceled") else Ok (stream_of chunks) |}.

Definition lmWith (m : ChatModel) : LmApi :=
  {| selectChatModels := fun _ => Ok [m] |}.

(** An OpenAI endpoint answering 200 with one choice of content [c]. *)
Definition openaiAnswers (c : jsstring) (_ : FetchRequest)
  : js_result (Response OpenAIData) :=
  Ok {| resp_ok := true; resp_status := 200; resp_text := Ok [];
        resp_json := Ok {| data_choices :=
          Some [ {| choice_message := Some {| msg_content := Some c |} |} ] |} |}.

(** An Anthropic endpoint answering 200 with one text block [t]. *)
Definition anthropicAnswers (t : jsstring) (_ : FetchRequest)
  : js_result (Response AnthropicData) :=
  Ok {| resp_ok := true; resp_status := 200; resp_text := Ok [];
        resp_json := Ok {| data_content :=
          Some [ {| block_type := lit "text"; block_text := Some t |} ] |} |}.

Definition unreachableOpenAI (_ : FetchRequest) : js_result (Response OpenAIData) :=
  Throw (lit "fetch failed").
Definition unreachableAnthropic (_ : FetchRequest)
  : js_result (Response AnthropicData) :=
  Throw (lit "fetch failed").

(** No host model, no network, no editor, a user who dismisses every
    prompt and never cancels; the bricks the scenarios below change. *)
Definition quietEnv : Env :=
  {| config := defaultConfig;
     lm := None;
     fetch_openai := unreachableOpenAI;
     fetch_anthropic := unreachableAnthropic;
     userCancels := fun _ => false;
     activeTextEditor := None;
     inputBoxAnswer := None;
     quickPickAnswer := None;
     messageAnswer := None;
     clock := fun n => (1700000000000 + Z.of_nat n)%Z;
     updateRejects := None |}.

Definition emptyState : State :=
  {| trace := []; tokenCancelled := false; clipboard := [];
     globalState := None; ticks := 0 |}.

Definition withConfig (c : Config) (e : Env) : Env :=
  {| config := c; lm := lm e; fetch_openai := fetch_openai e;
     fetch_anthropic := fetch_anthropic e; userCancels := userCancels e;
     activeTextEditor := activeTextEditor e; inputBoxAnswer := inputBoxAnswer e;
     quickPickAnswer := quickPickAnswer e; messageAnswer := messageAnswer e;
     clock := clock e; updateRejects := updateRejects e |}.

Definition withLm (m : ChatModel) (e : Env) : Env :=
  {| config := config e; lm := Some (lmWith m); fetch_openai := fetch_openai e;
     fetch_anthropic := fetch_anthropic e; userCancels := userCancels e;
     activeTextEditor := activeTextEditor e; inputBoxAnswer := inputBoxAnswer e;
     quickPickAnswer := quickPickAnswer e; messageAnswer := messageAnswer e;
     clock := clock e; updateRejects := updateRejects e |}.

Definition withOpenAI (f : FetchRequest -> js_result (Response OpenAIData))
    (e : Env) : Env :=
  {| config := config e; lm := lm e; fetch_openai := f;
     fetch_anthropic := fetch_anthropic e; userCancels := userCancels e;
     activeTextEditor := activeTextEditor e; inputBoxAnswer := inputBoxAnswer e;
     quickPickAnswer := quickPickAnswer e; messageAnswer := messageAnswer e;
     clock := clock e; updateRejects := updateRejects e |}.

Definition withAnthropic (f : FetchRequest -> js_result (Response AnthropicData))
    (e : Env) : Env :=
  {| config := config e; lm := lm e; fetch_openai := fetch_openai e;
     fetch_anthropic := f; userCancels := userCancels e;
     activeTextEditor := activeTextEditor e; inputBoxAnswer := inputBoxAnswer e;
     quickPickAnswer := quickPickAnswer e; messageAnswer := messageAnswer e;
     clock := clock e; updateRejects := updateRejects e |}.

(** The user presses Cancel while the host-model request is pending. *)
Definition withCancelDuringLm (e : Env) : Env :=
  {| config := config e; lm := lm e; fetch_openai := fetch_openai e;
     fetch_anthropic := fetch_anthropic e;
     userCancels := fun p => match p with DuringLmRequest => true | DuringFetch => false end;
     activeTextEditor := activeTextEditor e; inputBoxAnswer := inputBoxAnswer e;
     quickPickAnswer := quickPickAnswer e; messageAnswer := messageAnswer e;
     clock := clock e; updateRejects := updateRejects e |}.

Definition withSelection (t : jsstring) (e : Env) : Env :=
  {| config := config e; lm := lm e; fetch_openai := fetch_openai e;
     fetch_anthropic := fetch_anthropic e; userCancels := userCancels e;
     activeTextEditor := Some {| selectedText := t |};
     inputBoxAnswer := inputBoxAnswer e;
     quickPickAnswer := quickPickAnswer e; messageAnswer := messageAnswer e;
     clock := clock e; updateRejects := updateRejects e |}.

Definition withInput (t : jsstring) (e : Env) : Env :=
  {| config := config e; lm := lm e; fetch_openai := fetch_openai e;
     fetch_anthropic := fetch_anthropic e; userCancels := userCancels e;
     activeTextEditor := activeTextEditor e; inputBoxAnswer := Some t;
     quickPickAnswer := quickPickAnswer e; messageAnswer := messageAnswer e;
     clock := clock e; updateRejects := updateRejects e |}.

Definition withPick (i : nat) (e : Env) : Env :=
  {| config := config e; lm := lm e; fetch_openai := fetch_openai e;
     fetch_anthropic := fetch_anthropic e; userCancels := userCancels e;
     activeTextEditor := activeTextEditor e; inputBoxAnswer := inputBoxAnswer e;
     quickPickAnswer := Some i; messageAnswer := messageAnswer e;
     clock := clock e; updateRejects := updateRejects e |}.

Definition withClipboard (t : jsstring) (s : State) : State :=
  {| trace := trace s; tokenCancelled := tokenCancelled s; clipboard := t;
     globalState := globalState s; ticks := ticks s |}.

(** The host model answers; no API key is configured. *)
Definition hostEnv : Env :=
  withLm (modelStreaming [lit " Investigate and resolve "; lit "the reported API issue. "])
         quietEnv.

(** No host model; an OpenAI key is configured and the endpoint answers. *)
Definition fallbackEnv : Env :=
  withOpenAI (openaiAnswers (lit " External gold "))
             (withConfig (withKey (lit "sk-test") defaultConfig) quietEnv).

(** As [fallbackEnv] with a host model, and a user who cancels while the
    host-model request is pending: that request fails with the host's
    cancellation error. *)
Definition cancelledHostEnv : Env :=
  withCancelDuringLm (withLm (modelStreaming [lit "Host gold"]) fallbackEnv).

(** External endpoints that answer 200 with a text of blanks only. *)
Definition blankOpenAIEnv : Env :=
  withOpenAI (openaiAnswers (lit "   "))
             (withConfig (withKey (lit "sk-test") defaultConfig) quietEnv).

Definition blankAnthropicEnv : Env :=
  withAnthropic (anthropicAnswers [32; 10; 32])
    (withConfig (withProvider anthropic (withKey (lit "sk-ant-test") defaultConfig))
                quietEnv).

(** No editor is open, the user types into the input box, the host
    model answers; and a clipboard that holds a prompt. *)
Definition typingEnv : Env := withInput (lit "add tests") hostEnv.

Definition clipboardState : State := withClipboard (lit "refactor this") emptyState.

(** An editor whose selection has blanks around the prompt. *)
Definition selectionEnv : Env := withSelection (lit "  yo fix this api ") hostEnv.

(** An OpenAI endpoint that refuses the key. *)
Definition openaiRefuses (_ : FetchRequest) : js_result (Response OpenAIData) :=
  Ok {| resp_ok := false; resp_status := 401; resp_text := Ok (lit "Unauthorized");
        resp_json := Throw (lit "Unexpected token") |}.

Definition refusedKeyEnv : Env :=
  withOpenAI openaiRefuses
             (withConfig (withKey (lit "sk-wrong") defaultConfig) quietEnv).

(** Settings with [gigo.historySize] at 0, at 2 and at -1. *)
Definition noHistoryEnv : Env :=
  withConfig (withHistorySize 0 defaultConfig) quietEnv.

Definition smallHistoryEnv : Env :=
  withConfig (withHistorySize 2 defaultConfig) quietEnv.

Definition negativeSizeEnv : Env :=
  withConfig (withHistorySize (-1) defaultConfig) quietEnv.

Definition threePrompts : list (jsstring * jsstring) :=
  [ (lit "add auth", lit "Implement authentication.");
    (lit "make it faster", lit "Optimize performance.");
    (lit "fix teh bug", lit "Debug and fix the issue.") ].

(** A host model that streams blanks only. *)
Definition blankHostEnv : Env :=
  withLm (modelStreaming [lit "  "; lit " "]) quietEnv.

End Scenario.

(* ===================================================================== *)
(** ** What is observed of a run *)
(* ===================================================================== *)

Module Observe.

(** The events a computation adds to the trace when run from [s]. *)
Definition emitted {A} (m : M A) (e : Env) (s : State) : list Event :=
  drop (length (trace s)) (trace (snd (m e s))).

(** [s] after the events [evs], with the token's flag at [c]: the only
    changes a provider client makes. *)
Definition advance (s : State) (evs : list Event) (c : bool) : State :=
  {| trace := trace s ++ evs;
     tokenCancelled := c;
     clipboard := clipboard s;
     globalState := globalState s;
     ticks := ticks s |}.

Definition is_call (c : Client) (ev : Event) : bool :=
  match ev, c with
  | EvCall HostModelClient, HostModelClient => true
  | EvCall ExternalClient, ExternalClient => true
  | _, _ => false
  end.

(** How many times client [c] was entered. *)
Definition invocations (c : Client) (evs : list Event) : nat :=
  length (filter (fun ev => is_call c ev = true) evs).

(** Traffic of the host-model client, and of the external one. *)
Definition is_lm_event (ev : Event) : bool :=
  match ev with
  | EvSelectChatModels _ | EvSendRequest _ => true
  | _ => false
  end.

Definition is_fetch_event (ev : Event) : bool :=
  match ev with EvFetch _ _ => true | _ => false end.

Definition is_provider_event (ev : Event) : bool :=
  match ev with
  | EvCall _ | EvSelectChatModels _ | EvSendRequest _ | EvFetch _ _ => true
  | _ => false
  end.

(** A history insertion or a destination write. *)
Definition is_write (ev : Event) : bool :=
  match ev with
  | EvGlobalStateUpdate _ | EvClipboardWrite _
  | EvEditorReplace _ | EvEditorInsert _ => true
  | _ => false
  end.

Definition is_clipboard_read (ev : Event) : bool :=
  match ev with EvClipboardRead => true | _ => false end.

Definition not_clipboard_read (ev : Event) : bool := negb (is_clipboard_read ev).

(** [m] only appends to the trace, and only events that satisfy [P]. *)
Definition traces {A} (P : Event -> bool) (m : M A) : Prop :=
  forall e s, exists evs,
    trace (snd (m e s)) = trace s ++ evs /\ Forall (fun ev => P ev = true) evs.

(** Where [performUpscale] writes the upscaled text: the selection of the
    editor context when there is one, else the clipboard. *)
Definition destinationWrite (editorContext : option Editor) (text : jsstring)
  : Event :=
  match editorContext with
  | Some _ => EvEditorReplace text
  | None => EvClipboardWrite text
  end.

(** Where [executeRestoreOriginal] writes the text it restores: over a
    non-empty selection, at the cursor of an editor without one, else to
    the clipboard. *)
Definition restoreWrite (e : Env) (text : jsstring) : Event :=
  match activeTextEditor e with
  | Some editor =>
    if truthy (selectedText editor) then EvEditorReplace text else EvEditorInsert text
  | None => EvClipboardWrite text
  end.

(** The token of a fresh progress notification. *)
Definition freshToken (s : State) : State :=
  {| trace := trace s; tokenCancelled := false; clipboard := clipboard s;
     globalState := globalState s; ticks := ticks s |}.

(** The two attempts of one [upscalePrompt] invocation, each with the
    system prompt the invocation resolves. *)
Definition hostAttempt (input : jsstring) (tok : option CancellationToken)
  : M UpscaleResult :=
  systemPrompt <- getEffectiveSystemPrompt ;;
  tryVscodeLm input systemPrompt tok.

Definition externalAttempt (input : jsstring) : M UpscaleResult :=
  systemPrompt <- getEffectiveSystemPrompt ;;
  tryExternalApi input systemPrompt.

(** The source tag of the configured external provider. *)
Definition configuredSource (e : Env) : Source :=
  match apiProvider (config e) with
  | Some anthropic => src_anthropic
  | _ => src_openai
  end.

(** [list()]: the persisted log as [getHistory] returns it. *)
Definition list_history (s : State) : list HistoryEntry :=
  match globalState s with Some h => h | None => [] end.

(** The maximum size an insert reads from the settings. *)
Definition configuredSize (e : Env) : Z :=
  match historySize (config e) with Some n => n | None => 5%Z end.

(** The entry an insert builds when the clock has been read [t] times. *)
Definition newEntry (e : Env) (t : nat) (o u : jsstring) : HistoryEntry :=
  {| original := o; upscaled := u; timestamp := clock e t |}.

(** The entries successive inserts build, oldest first. *)
Fixpoint stamped (e : Env) (t : nat) (entries : list (jsstring * jsstring))
  : list HistoryEntry :=
  match entries with
  | [] => []
  | (o, u) :: rest => newEntry e t o u :: stamped e (S t) rest
  end.

(** Successive inserts. *)
Fixpoint inserts (entries : list (jsstring * jsstring)) : M unit :=
  match entries with
  | [] => ret tt
  | (o, u) :: rest => addToHistory o u ;;; inserts rest
  end.

(** The failure [upscalePrompt] returns when both attempts failed. *)
Definition aggregate (hostError externalError : jsstring) : jsstring :=
  lit "vscode.lm: " ++ hostError ++ nl ++ lit "External API: " ++ externalError.

(** The text a provider delivered, before the client trims it. *)
Definition providerText (e : Env) (src : Source) (raw : jsstring) : Prop :=
  match src with
  | vscode_lm =>
    exists api family m rest prompt cancelled stream,
      lm e = Some api /\ selectChatModels api family = Ok (m :: rest)
      /\ sendRequest m prompt cancelled = Ok stream
      /\ collect stream [] = Ok raw
  | src_openai =>
    exists req response data,
      fetch_openai e req = Ok response /\ resp_json response = Ok data
      /\ openai_content data = Some raw
  | src_anthropic =>
    exists req response data block,
      fetch_anthropic e req = Ok response /\ resp_json response = Ok data
      /\ anthropic_textBlock data = Some block /\ block_text block = Some raw
  end.

End Observe.
Export Observe.

(* ===================================================================== *)
(** ** extension.ts: the text shown in the restore picker *)
(* ===================================================================== *)

Module Display.

(** [text.replace(/\s+/g, ' ')]: every maximal run of whitespace becomes
    one space.  [inRun] says that the code unit before was whitespace.
    The class [\s] is the set of [isWhiteSpace]. *)
Fixpoint replaceRuns (inRun : bool) (text : jsstring) : jsstring :=
  match text with
  | [] => []
  | c :: rest =>
    if isWhiteSpace c
    then (if inRun then replaceRuns true rest else 32 :: replaceRuns true rest)
    else c :: replaceRuns false rest
  end.

(** [s.slice(0, end)]: a negative [end] counts from the end of [s]. *)
Definition slice0 (s : jsstring) (finish : Z) : jsstring :=
  let len := Z.of_nat (length s) in
  let k := if (finish <? 0)%Z then Z.max (len + finish) 0 else Z.min finish len in
  take (Z.to_nat k) s.

(** [preview(text, maxLength = 50)] *)
Definition preview (text : jsstring) (maxLength : Z) : jsstring :=
  let oneLine := trim (replaceRuns false text) in
  if (Z.of_nat (length oneLine) <=? maxLength)%Z
  then oneLine
  else slice0 oneLine (maxLength - 3) ++ lit "...".

(** The [label] and the [detail] of the quick-pick item of an entry. *)
Definition itemLabel (entry : HistoryEntry) : jsstring :=
  preview (original entry) 60.

Definition itemDetail (entry : HistoryEntry) : jsstring :=
  lit "Upscaled to: " ++ preview (upscaled entry) 80.

End Display.
Export Display.

(* ===================================================================== *)
(** ** Further observations and environments *)
(* ===================================================================== *)

Module ObserveMore.

(** No whitespace at the front; at the back. *)
Definition startsClean (s : jsstring) : Prop :=
  match s with [] => True | c :: _ => isWhiteSpace c = false end.

Definition endsClean (s : jsstring) : Prop := startsClean (rev s).

(** The prompt [getEffectiveSystemPrompt] resolves under settings [c]. *)
Definition effectivePrompt (c : Config) : jsstring :=
  match systemPrompt c with
  | Some p => if truthy (trim p) then trim p else SYSTEM_PROMPT
  | None => SYSTEM_PROMPT
  end.

(** The provider, the key and the model an external request is made
    with under settings [c]. *)
Definition configuredProvider (c : Config) : ApiProvider :=
  match apiProvider c with Some p => p | None => openai end.

Definition configuredKey (c : Config) : jsstring :=
  match apiKey c with Some k => k | None => [] end.

Definition configuredModel (c : Config) : jsstring :=
  match model c with
  | Some m => if truthy m then m else DEFAULT_MODELS (configuredProvider c)
  | None => DEFAULT_MODELS (configuredProvider c)
  end.

(** The one request [tryExternalApi] sends. *)
Definition externalRequest (c : Config) (input prompt : jsstring) : FetchRequest :=
  {| req_url := API_ENDPOINTS (configuredProvider c);
     req_key := configuredKey c;
     req_model := configuredModel c;
     req_system := prompt;
     req_user := input |}.

(** What the endpoint of provider [p] answers to [req], before the body
    is parsed: a network fault, or [ok], [status] and the body text. *)
Definition responseHead (e : Env) (p : ApiProvider) (req : FetchRequest)
  : js_result (bool * N * js_result jsstring) :=
  match p with
  | openai =>
    match fetch_openai e req with
    | Ok r => Ok (resp_ok r, resp_status r, resp_text r)
    | Throw message => Throw message
    end
  | anthropic =>
    match fetch_anthropic e req with
    | Ok r => Ok (resp_ok r, resp_status r, resp_text r)
    | Throw message => Throw message
    end
  end.

(** The chunks of a stream, and whether it ends without a fault. *)
Fixpoint chunksOf (stream : LmStream) : list jsstring :=
  match stream with
  | StreamChunk chunk rest => chunk :: chunksOf rest
  | _ => []
  end.

Fixpoint endsWell (stream : LmStream) : bool :=
  match stream with
  | StreamEnd => true
  | StreamChunk _ rest => endsWell rest
  | StreamThrow _ => false
  end.

(** What the host model is told about the token: the flag of the progress
    token once the request is pending, or not cancelled when the caller
    passed no token. *)
Definition observedCancel (tok : option CancellationToken) (e : Env) (s : State)
  : bool :=
  match tok with
  | Some _ => tokenCancelled s || userCancels e DuringLmRequest
  | None => false
  end.

(** What [tryVscodeLm] makes of the answer of the model it chose. *)
Definition hostOutcome (answer : js_result LmStream) : UpscaleResult :=
  match answer with
  | Throw message => Failure (lit "vscode.lm error: " ++ message)
  | Ok stream =>
    match collect stream [] with
    | Throw message => Failure (lit "vscode.lm error: " ++ message)
    | Ok result =>
      if truthy (trim result)
      then Success (trim result) vscode_lm
      else Failure (lit "Empty response from vscode.lm")
    end
  end.

Definition is_update (ev : Event) : bool :=
  match ev with EvGlobalStateUpdate _ => true | _ => false end.

Definition is_fetch_or_request (ev : Event) : bool :=
  match ev with EvFetch _ _ | EvSendRequest _ => true | _ => false end.

(** Events of [executeRestoreOriginal] other than its one write. *)
Definition is_restore_ui (ev : Event) : bool :=
  match ev with
  | EvShowQuickPick _ | EvShowInformationMessage _ | EvOpenTextDocument _ => true
  | _ => false
  end.

(** How many events of [evs] satisfy [P]. *)
Definition countEvents (P : Event -> bool) (evs : list Event) : nat :=
  length (List.filter P evs).

End ObserveMore.
Export ObserveMore.

Module MoreScenarios.
Import Scenario.

Definition withSystemPrompt (p : jsstring) (c : Config) : Config :=
  {| apiKey := apiKey c; apiProvider := apiProvider c; model := model c;
     systemPrompt := Some p; historySize := historySize c |}.

Definition withModel (m : jsstring) (c : Config) : Config :=
  {| apiKey := apiKey c; apiProvider := apiProvider c; model := Some m;
     systemPrompt := systemPrompt c; historySize := historySize c |}.

Definition withAnswer (a : Action) (e : Env) : Env :=
  {| config := config e; lm := lm e; fetch_openai := fetch_openai e;
     fetch_anthropic := fetch_anthropic e; userCancels := userCancels e;
     activeTextEditor := activeTextEditor e; inputBoxAnswer := inputBoxAnswer e;
     quickPickAnswer := quickPickAnswer e; messageAnswer := Some a;
     clock := clock e; updateRejects := updateRejects e |}.

Definition withRejectingStore (message : jsstring) (e : Env) : Env :=
  {| config := config e; lm := lm e; fetch_openai := fetch_openai e;
     fetch_anthropic := fetch_anthropic e; userCancels := userCancels e;
     activeTextEditor := activeTextEditor e; inputBoxAnswer := inputBoxAnswer e;
     quickPickAnswer := quickPickAnswer e; messageAnswer := messageAnswer e;
     clock := clock e; updateRejects := Some message |}.

Definition withHistory (h : list HistoryEntry) (s : State) : State :=
  {| trace := trace s; tokenCancelled := tokenCancelled s; clipboard := clipboard s;
     globalState := Some h; ticks := ticks s |}.

(** Anthropic with a model of the user's and a system prompt of the
    user's, blanks around it. *)
Definition anthropicEnv : Env :=
  withAnthropic (anthropicAnswers (lit " Use OAuth. "))
    (withConfig
       (withSystemPrompt (lit "  Be terse. ")
          (withModel (lit "claude-3-haiku")
             (withProvider anthropic (withKey (lit "sk-ant-test") defaultConfig))))
       quietEnv).

(** A language model whose stream breaks after one chunk. *)
Definition brokenStreamEnv : Env :=
  {| config := defaultConfig;
     lm := Some (lmWith {| sendRequest := fun _ _ =>
                             Ok (StreamChunk (lit "Investig")
                                   (StreamThrow (lit "socket hang up"))) |});
     fetch_openai := unreachableOpenAI;
     fetch_anthropic := unreachableAnthropic;
     userCancels := fun _ => false;
     activeTextEditor := None;
     inputBoxAnswer := None;
     quickPickAnswer := None;
     messageAnswer := None;
     clock := fun n => (1700000000000 + Z.of_nat n)%Z;
     updateRejects := None |}.

(** A host that has the API but no model at all. *)
Definition noModelEnv : Env :=
  {| config := defaultConfig;
     lm := Some {| selectChatModels := fun _ => Ok [] |};
     fetch_openai := unreachableOpenAI;
     fetch_anthropic := unreachableAnthropic;
     userCancels := fun _ => false;
     activeTextEditor := None;
     inputBoxAnswer := None;
     quickPickAnswer := None;
     messageAnswer := None;
     clock := fun n => (1700000000000 + Z.of_nat n)%Z;
     updateRejects := None |}.

Definition twoEntries : list HistoryEntry :=
  [ {| original := lit "fix teh bug"; upscaled := lit "Debug and fix the issue.";
       timestamp := 1700000000002 |};
    {| original := lit "add auth"; upscaled := lit "Implement authentication.";
       timestamp := 1700000000001 |} ].

End MoreScenarios.

(* ===================================================================== *)
(** ** The embedding on concrete runs *)
(* ===================================================================== *)

Unset Implicit Arguments.

Example trim_strips_both_ends :
  trim ([32; 9] ++ lit "fix  bug" ++ [160; 10; 8232]) = lit "fix  bug".
Proof. reflexivity. Qed.

Example trim_of_blanks : trim (lit "   ") = [] /\ truthy (lit "   ") = true.
Proof. split; reflexivity. Qed.

(** A selection is upscaled by the host model and replaced in place: the
    host calls the command makes, in order, and the entry it records. *)
Example selection_run :
  executeUpscale Scenario.selectionEnv Scenario.emptyState =
  (Ok tt,
   {| trace :=
        [ EvCall HostModelClient;
          EvSelectChatModels (Some (lit "gpt-4o"));
          EvSendRequest (lm_prompt SYSTEM_PROMPT (lit "  yo fix this api "));
          EvGlobalStateUpdate
            [ {| original := lit "  yo fix this api ";
                 upscaled := lit "Investigate and resolve the reported API issue.";
                 timestamp := 1700000000000 |} ];
          EvEditorReplace (lit "Investigate and resolve the reported API issue.");
          EvShowInformationMessage (lit "GIGO: Prompt upscaled via vscode.lm") ];
      tokenCancelled := false;
      clipboard := [];
      globalState :=
        Some [ {| original := lit "  yo fix this api ";
                  upscaled := lit "Investigate and resolve the reported API issue.";
                  timestamp := 1700000000000 |} ];
      ticks := 1 |}).
Proof. vm_compute. reflexivity. Qed.

(** A refused key: the status and the body are reported, behind the
    provider's name, and aggregated behind the host model's failure. *)
Example refused_key_run :
  fst (upscalePrompt (lit "add auth") None Scenario.refusedKeyEnv Scenario.emptyState)
  = Ok (Failure (lit "vscode.lm: vscode.lm API not available" ++ nl
                 ++ lit "External API: openai API error: HTTP 401: Unauthorized")).
Proof. vm_compute. reflexivity. Qed.

(* ===================================================================== *)
(** ** Runs of the provider clients *)
(* ===================================================================== *)

Lemma emitted_advance {A} (m : M A) e s r evs c :
  m e s = (r, advance s evs c) -> emitted m e s = evs.
Proof.
  intros H. unfold emitted. rewrite H. simpl.
  now rewrite drop_app_length.
Qed.

Lemma advance_advance s evs c evs' c' :
  advance (advance s evs c) evs' c' = advance s (evs ++ evs') c'.
Proof. unfold advance; simpl. now rewrite app_assoc. Qed.

Lemma getEffectiveSystemPrompt_pure e :
  exists sp, forall s, getEffectiveSystemPrompt e s = (Ok sp, s).
Proof.
  unfold getEffectiveSystemPrompt, getConfiguration, bind, asks, ret.
  eexists. intros s. reflexivity.
Qed.

Ltac run_steps :=
  unfold lm_selectChatModels, lm_sendRequest, fetchOpenAI, fetchAnthropic,
         getConfiguration, try_catch, bind, emit, pending, modify, asks, gets,
         settle, ret, throw; simpl.

Ltac close_run :=
  simpl; rewrite <- ?app_assoc; simpl;
  do 3 eexists; split;
  [ unfold advance; simpl; reflexivity
  | split; [ repeat constructor
          | simpl; intros Hc; rewrite ?Hc; simpl; auto ] ].

(** Case analysis along [tryVscodeLm]: [dead] closes the branches that
    end in a failure, [live] the two that reach the emptiness test. *)
Ltac lm_cases dead live :=
  unfold tryVscodeLm; run_steps;
  match goal with |- context [lm ?e] => destruct (lm e) as [api|] eqn:Hlm end;
  [|dead];
  match goal with
  | |- context [selectChatModels ?a (Some ?f)] =>
    destruct (selectChatModels a (Some f)) as [[|m rest]|msg] eqn:Hfamily; simpl;
    [ destruct (selectChatModels a None) as [[|m rest]|msg] eqn:Hany; simpl;
      [ dead | | dead ]
    | | dead ]
  end;
  (match goal with |- context [lm_prompt _ _] => idtac end;
   match goal with
   | |- context [match ?t with Some _ => _ | None => _ end] =>
     destruct t as [[]|]; simpl
   end;
   match goal with
   | |- context [sendRequest ?m ?p ?c] =>
     destruct (sendRequest m p c) as [stream|msg] eqn:Hsend; simpl; [|dead]
   end;
   match goal with
   | |- context [collect ?st []] =>
     destruct (collect st []) as [result|msg] eqn:Hcollect; simpl; [|dead]
   end;
   match goal with
   | |- context [if negb (truthy (trim ?r)) then _ else _] =>
     destruct (truthy (trim r)) eqn:Htruthy; simpl; [live|dead]
   end).

Lemma tryVscodeLm_run input sp tok e s :
  exists r evs c,
    tryVscodeLm input sp tok e s = (Ok r, advance s (EvCall HostModelClient :: evs) c)
    /\ Forall (fun ev => is_lm_event ev = true) evs
    /\ (tokenCancelled s = true -> c = true).
Proof. lm_cases close_run close_run. Qed.

Lemma tryVscodeLm_source input sp tok e s text source s' :
  tryVscodeLm input sp tok e s = (Ok (Success text source), s') ->
  source = vscode_lm.
Proof. lm_cases discriminate congruence. Qed.

(** Case analysis along [tryExternalApi] and the client it dispatches to. *)
Ltac openai_cases dead live :=
  match goal with
  | |- context [fetch_openai ?e ?r] =>
    destruct (fetch_openai e r) as [response|msg] eqn:Hfetch; simpl; [|dead]
  end;
  match goal with
  | |- context [resp_ok ?r] => destruct (resp_ok r) eqn:Hok; simpl
  end;
  [ match goal with
    | |- context [resp_json ?r] =>
      destruct (resp_json r) as [data|msg] eqn:Hjson; simpl; [|dead]
    end;
    match goal with
    | |- context [openai_content ?d] =>
      destruct (openai_content d) as [content|] eqn:Hcontent; simpl; [|dead]
    end;
    match goal with
    | |- context [if negb (truthy ?c) then _ else _] =>
      destruct (truthy c) eqn:Htruthy; simpl; [live|dead]
    end
  | match goal with
    | |- context [resp_text ?r] => destruct (resp_text r); simpl; dead
    end ].

Ltac anthropic_cases dead live :=
  match goal with
  | |- context [fetch_anthropic ?e ?r] =>
    destruct (fetch_anthropic e r) as [response|msg] eqn:Hfetch; simpl; [|dead]
  end;
  match goal with
  | |- context [resp_ok ?r] => destruct (resp_ok r) eqn:Hok; simpl
  end;
  [ match goal with
    | |- context [resp_json ?r] =>
      destruct (resp_json r) as [data|msg] eqn:Hjson; simpl; [|dead]
    end;
    match goal with
    | |- context [anthropic_textBlock ?d] =>
      destruct (anthropic_textBlock d) as [block|] eqn:Hblock; simpl; [|dead]
    end;
    match goal with
    | |- context [block_text ?b] =>
      destruct (block_text b) as [content|] eqn:Hcontent; simpl; [|dead]
    end;
    match goal with
    | |- context [if negb (truthy ?c) then _ else _] =>
      destruct (truthy c) eqn:Htruthy; simpl; [live|dead]
    end
  | match goal with
    | |- context [resp_text ?r] => destruct (resp_text r); simpl; dead
    end ].

Ltac external_cases dead live :=
  unfold tryExternalApi, callOpenAI, callAnthropic; run_steps;
  match goal with
  | |- context [apiKey (config ?e)] =>
    destruct (apiKey (config e)) as [k|]; simpl; [|dead];
    match goal with
    | |- context [if negb (truthy ?k) then _ else _] =>
      destruct (truthy k) eqn:Hkey; simpl; [|dead]
    end;
    destruct (apiProvider (config e)) as [[]|] eqn:Hprovider; simpl;
    [ openai_cases dead live | anthropic_cases dead live | openai_cases dead live ]
  end.

Lemma tryExternalApi_run input sp e s :
  exists r evs c,
    tryExternalApi input sp e s = (Ok r, advance s (EvCall ExternalClient :: evs) c)
    /\ Forall (fun ev => is_fetch_event ev = true) evs
    /\ (tokenCancelled s = true -> c = true).
Proof. external_cases close_run close_run. Qed.

Lemma tryExternalApi_source input sp e s text source s' :
  tryExternalApi input sp e s = (Ok (Success text source), s') ->
  source = configuredSource e.
Proof.
  unfold configuredSource.
  external_cases discriminate ltac:(rewrite ?Hprovider; congruence).
Qed.

(** A success of a client carries the trimmed text of what its provider
    delivered, and the host-model client has checked that it is not empty. *)
Lemma tryVscodeLm_text input sp tok e s text source s' :
  tryVscodeLm input sp tok e s = (Ok (Success text source), s') ->
  exists raw, providerText e vscode_lm raw /\ text = trim raw /\ text <> [].
Proof.
  lm_cases discriminate
    ltac:(intros Heq; injection Heq as <- _ _;
          match goal with
          | H : collect _ [] = Ok ?r |- _ => exists r
          end;
          split; [ simpl; do 7 eexists; eauto
                 | split; [ reflexivity
                          | intros Hnil; rewrite Hnil in Htruthy; discriminate ] ]).
Qed.

Lemma tryExternalApi_text input sp e s text source s' :
  tryExternalApi input sp e s = (Ok (Success text source), s') ->
  exists raw, providerText e source raw /\ text = trim raw /\ raw <> [].
Proof.
  external_cases discriminate
    ltac:(intros Heq; injection Heq as <- <- _;
          match goal with
          | H : _ = Some ?r, H' : truthy ?r = true |- _ => exists r
          end;
          split; [ simpl; repeat eexists; eauto
                 | split; [ reflexivity
                          | intros Hnil; rewrite Hnil in Htruthy; discriminate ] ]).
Qed.

Lemma attempts_eq input tok e :
  exists sp,
    (forall s, getEffectiveSystemPrompt e s = (Ok sp, s))
    /\ (forall s, hostAttempt input tok e s = tryVscodeLm input sp tok e s)
    /\ (forall s, externalAttempt input e s = tryExternalApi input sp e s).
Proof.
  destruct (getEffectiveSystemPrompt_pure e) as [sp Hsp].
  exists sp. unfold hostAttempt, externalAttempt, bind.
  repeat split; intros s; now rewrite Hsp.
Qed.

Lemma hostAttempt_run input tok e s :
  exists r evs c,
    hostAttempt input tok e s = (Ok r, advance s (EvCall HostModelClient :: evs) c)
    /\ Forall (fun ev => is_lm_event ev = true) evs
    /\ (tokenCancelled s = true -> c = true).
Proof.
  destruct (attempts_eq input tok e) as (sp & _ & -> & _).
  apply tryVscodeLm_run.
Qed.

Lemma externalAttempt_run input e s :
  exists r evs c,
    externalAttempt input e s = (Ok r, advance s (EvCall ExternalClient :: evs) c)
    /\ Forall (fun ev => is_fetch_event ev = true) evs
    /\ (tokenCancelled s = true -> c = true).
Proof.
  destruct (attempts_eq input None e) as (sp & _ & _ & ->).
  apply tryExternalApi_run.
Qed.

(** [upscalePrompt] in terms of its two attempts. *)
Lemma upscalePrompt_host_success input tok e s text source s1 :
  hostAttempt input tok e s = (Ok (Success text source), s1) ->
  upscalePrompt input tok e s = (Ok (Success text source), s1).
Proof.
  destruct (attempts_eq input tok e) as (sp & Hsp & -> & _).
  intros H. unfold upscalePrompt, bind. now rewrite Hsp, H.
Qed.

Lemma upscalePrompt_host_failure input tok e s hostError s1 r2 s2 :
  hostAttempt input tok e s = (Ok (Failure hostError), s1) ->
  externalAttempt input e s1 = (Ok r2, s2) ->
  upscalePrompt input tok e s =
    (Ok (match r2 with
         | Success _ _ => r2
         | Failure externalError => Failure (aggregate hostError externalError)
         end), s2).
Proof.
  destruct (attempts_eq input tok e) as (sp & Hsp & -> & ->).
  intros H1 H2. unfold upscalePrompt, bind. rewrite Hsp, H1, H2.
  now destruct r2.
Qed.

Lemma invocations_lm c evs :
  Forall (fun ev => is_lm_event ev = true) evs -> invocations c evs = 0%nat.
Proof.
  unfold invocations. induction 1 as [|ev l Hev _ IH]; [reflexivity|].
  destruct ev; try discriminate; now rewrite filter_cons_False.
Qed.

Lemma invocations_fetch c evs :
  Forall (fun ev => is_fetch_event ev = true) evs -> invocations c evs = 0%nat.
Proof.
  unfold invocations. induction 1 as [|ev l Hev _ IH]; [reflexivity|].
  destruct ev; try discriminate; now rewrite filter_cons_False.
Qed.

Lemma invocations_app c evs evs' :
  invocations c (evs ++ evs') = (invocations c evs + invocations c evs')%nat.
Proof. unfold invocations. now rewrite filter_app, length_app. Qed.

Lemma invocations_cons c ev evs :
  invocations c (ev :: evs) =
  ((if is_call c ev then 1 else 0) + invocations c evs)%nat.
Proof.
  unfold invocations. destruct (is_call c ev) eqn:H.
  - now rewrite filter_cons_True.
  - rewrite filter_cons_False; [reflexivity|]. now rewrite H.
Qed.

(** Every run of [upscalePrompt] returns (it never throws), enters the
    host-model client first and once, enters the external client at most
    once and only after the host-model client failed, and touches nothing
    but the trace and the token. *)
Lemma upscalePrompt_run input tok e s :
  exists r evs c,
    upscalePrompt input tok e s = (Ok r, advance s (EvCall HostModelClient :: evs) c)
    /\ Forall (fun ev => is_provider_event ev = true) evs
    /\ invocations HostModelClient evs = 0%nat
    /\ (tokenCancelled s = true -> c = true).
Proof.
  destruct (hostAttempt_run input tok e s) as (r1 & evs1 & c1 & H1 & Hlm & Hc1).
  assert (Hprov : Forall (fun ev => is_provider_event ev = true) evs1).
  { eapply Forall_impl; [exact Hlm|]. now intros []. }
  assert (Hinv : invocations HostModelClient evs1 = 0%nat)
    by now apply invocations_lm.
  destruct r1 as [text source|hostError].
  - exists (Success text source), evs1, c1.
    rewrite (upscalePrompt_host_success _ _ _ _ _ _ _ H1). auto.
  - destruct (externalAttempt_run input e (advance s (EvCall HostModelClient :: evs1) c1))
      as (r2 & evs2 & c2 & H2 & Hfetch & Hc2).
    rewrite advance_advance in H2.
    rewrite (upscalePrompt_host_failure _ _ _ _ _ _ _ _ H1 H2).
    eexists _, (evs1 ++ EvCall ExternalClient :: evs2), c2.
    split; [reflexivity|]. split; [|split].
    + apply Forall_app. split; [exact Hprov|].
      constructor; [reflexivity|].
      eapply Forall_impl; [exact Hfetch|]. now intros [].
    + rewrite invocations_app, invocations_cons, Hinv. simpl.
      now apply invocations_fetch.
    + intros Hs. apply Hc2. simpl. auto.
Qed.

(* ===================================================================== *)
(** ** The history store *)
(* ===================================================================== *)

Lemma getHistorySize_run e s : getHistorySize e s = (Ok (configuredSize e), s).
Proof. reflexivity. Qed.

Lemma getHistory_run e s : getHistory e s = (Ok (list_history s), s).
Proof. reflexivity. Qed.

(** An insert under a non-negative size and a working store: the new
    entry goes in front and the log is cut to the size. *)
Lemma addToHistory_run o u e s :
  (0 <= configuredSize e)%Z -> updateRejects e = None ->
  let h' := take (Z.to_nat (configuredSize e))
                 (newEntry e (ticks s) o u :: list_history s) in
  addToHistory o u e s =
    (Ok tt, {| trace := trace s ++ [EvGlobalStateUpdate h'];
               tokenCancelled := tokenCancelled s;
               clipboard := clipboard s;
               globalState := Some h';
               ticks := S (ticks s) |}).
Proof.
  intros Hsize Hstore h'.
  unfold addToHistory, bind. rewrite getHistory_run, getHistorySize_run.
  unfold dateNow, globalState_update, mutated, set_length, bind, settle, ret,
    emit, modify, asks. simpl.
  fold (newEntry e (ticks s) o u).
  rewrite Z.gtb_ltb.
  destruct (Z.ltb_spec (configuredSize e) (Z.of_nat (S (length (list_history s)))))
    as [Hlt|Hge].
  - destruct (Z.ltb_spec (configuredSize e) 0) as [Hneg|_]; [lia|].
    simpl. now rewrite Hstore.
  - simpl. rewrite Hstore. subst h'.
    rewrite take_ge by (simpl; lia). reflexivity.
Qed.

(** An insert under a negative size: the length assignment throws, after
    the entry was put in front of the array; a stored log has it. *)
Lemma addToHistory_negative o u e s :
  (configuredSize e < 0)%Z ->
  addToHistory o u e s =
    (Throw (lit "Invalid array length"),
     {| trace := trace s; tokenCancelled := tokenCancelled s;
        clipboard := clipboard s;
        globalState := option_map (cons (newEntry e (ticks s) o u)) (globalState s);
        ticks := S (ticks s) |}).
Proof.
  intros Hsize.
  unfold addToHistory, bind. rewrite getHistory_run, getHistorySize_run.
  unfold dateNow, mutated, set_length, settle, bind, modify, ret. simpl.
  fold (newEntry e (ticks s) o u).
  rewrite Z.gtb_ltb.
  destruct (Z.ltb_spec (configuredSize e) (Z.of_nat (S (length (list_history s)))))
    as [_|Hge]; [|lia].
  destruct (Z.ltb_spec (configuredSize e) 0) as [_|Hpos]; [|lia].
  unfold list_history. now destruct (globalState s).
Qed.

Lemma take_app_take {A} (n : nat) (a b : list A) :
  take n (a ++ take n b) = take n (a ++ b).
Proof.
  rewrite !take_app, take_take. do 2 f_equal. lia.
Qed.

Lemma stamped_app e t a b :
  stamped e t (a ++ b) = stamped e t a ++ stamped e (t + length a) b.
Proof.
  revert t. induction a as [|[o u] a IH]; intros t; simpl.
  - now rewrite Nat.add_0_r.
  - rewrite IH. do 3 f_equal. lia.
Qed.

Lemma length_stamped e t entries : length (stamped e t entries) = length entries.
Proof.
  revert t. induction entries as [|[o u] r IH]; intros t; simpl; [|rewrite IH]; reflexivity.
Qed.

(** Successive inserts under a fixed non-negative size [n]: the log is the
    entries inserted, newest first, in front of the old log, cut to [n]. *)
Lemma inserts_run e (n : nat) entries :
  configuredSize e = Z.of_nat n -> updateRejects e = None ->
  forall s, exists s',
    inserts entries e s = (Ok tt, s')
    /\ list_history s' =
         match entries with
         | [] => list_history s
         | _ => take n (rev (stamped e (ticks s) entries) ++ list_history s)
         end
    /\ ticks s' = (ticks s + length entries)%nat
    /\ clipboard s' = clipboard s.
Proof.
  intros Hsize Hstore.
  induction entries as [|[o u] rest IH]; intros s.
  - exists s. simpl. repeat split; lia.
  - simpl inserts. unfold bind.
    rewrite addToHistory_run by (rewrite ?Hsize; auto; lia).
    rewrite Hsize, Nat2Z.id.
    match goal with |- context [inserts rest e ?s1] =>
      destruct (IH s1) as (s' & Hrun & Hlog & Hticks & Hclip)
    end.
    exists s'. rewrite Hrun. split; [reflexivity|].
    split; [|split].
    + rewrite Hlog. cbn [ticks list_history globalState].
      destruct rest as [|p rest']; [reflexivity|].
      remember (p :: rest') as later.
      rewrite take_app_take. cbn [stamped rev].
      now rewrite <- app_assoc.
    + rewrite Hticks. simpl. lia.
    + rewrite Hclip. reflexivity.
Qed.

(* ===================================================================== *)
(** ** The fallback chain *)
(* ===================================================================== *)

Lemma emitted_host_success input tok e s text source :
  fst (hostAttempt input tok e s) = Ok (Success text source) ->
  exists evs c,
    upscalePrompt input tok e s =
      (Ok (Success text vscode_lm), advance s (EvCall HostModelClient :: evs) c)
    /\ Forall (fun ev => is_lm_event ev = true) evs.
Proof.
  intros Hfst.
  destruct (hostAttempt_run input tok e s) as (r1 & evs & c & H1 & Hlm & _).
  rewrite H1 in Hfst. simpl in Hfst. injection Hfst as ->.
  assert (source = vscode_lm) as ->.
  { destruct (attempts_eq input tok e) as (sp & _ & Heq & _).
    rewrite Heq in H1. eapply tryVscodeLm_source, H1. }
  exists evs, c. split; [|exact Hlm].
  now apply upscalePrompt_host_success.
Qed.

Lemma emitted_host_failure input tok e s hostError :
  fst (hostAttempt input tok e s) = Ok (Failure hostError) ->
  exists evs1 c1 r2 evs2 c2,
    hostAttempt input tok e s =
      (Ok (Failure hostError), advance s (EvCall HostModelClient :: evs1) c1)
    /\ externalAttempt input e (advance s (EvCall HostModelClient :: evs1) c1) =
         (Ok r2, advance s (EvCall HostModelClient :: evs1
                            ++ EvCall ExternalClient :: evs2) c2)
    /\ upscalePrompt input tok e s =
         (Ok (match r2 with
              | Success _ _ => r2
              | Failure externalError => Failure (aggregate hostError externalError)
              end),
          advance s (EvCall HostModelClient :: evs1
                     ++ EvCall ExternalClient :: evs2) c2)
    /\ Forall (fun ev => is_lm_event ev = true) evs1
    /\ Forall (fun ev => is_fetch_event ev = true) evs2.
Proof.
  intros Hfst.
  destruct (hostAttempt_run input tok e s) as (r1 & evs1 & c1 & H1 & Hlm & _).
  rewrite H1 in Hfst. simpl in Hfst. injection Hfst as ->.
  destruct (externalAttempt_run input e (advance s (EvCall HostModelClient :: evs1) c1))
    as (r2 & evs2 & c2 & H2 & Hfetch & _).
  rewrite advance_advance in H2. simpl in H2.
  exists evs1, c1, r2, evs2, c2.
  repeat split; try assumption.
  now apply upscalePrompt_host_failure with (s1 := advance s (EvCall HostModelClient :: evs1) c1).
Qed.

(** C5.  Within one [upscalePrompt] invocation the host-model client is
    entered first (the first event of the run is its entry, and it is not
    entered again).  If the host attempt succeeds, [upscalePrompt] returns
    its text tagged [vscode_lm] and the external client is not entered.
    If the host attempt fails and the external attempt succeeds,
    [upscalePrompt] returns that success, tagged with the configured
    external provider, and the external client was entered exactly once. *)
Theorem upscalePrompt_priority (input : jsstring)
    (tok : option CancellationToken) (e : Env) (s : State) :
  (exists evs,
      emitted (upscalePrompt input tok) e s = EvCall HostModelClient :: evs
      /\ invocations HostModelClient evs = 0%nat)
  /\ (forall text source,
        fst (hostAttempt input tok e s) = Ok (Success text source) ->
        fst (upscalePrompt input tok e s) = Ok (Success text vscode_lm)
        /\ invocations ExternalClient (emitted (upscalePrompt input tok) e s) = 0%nat)
  /\ (forall hostError text source,
        fst (hostAttempt input tok e s) = Ok (Failure hostError) ->
        fst (externalAttempt input e (snd (hostAttempt input tok e s)))
          = Ok (Success text source) ->
        fst (upscalePrompt input tok e s) = Ok (Success text source)
        /\ source = configuredSource e
        /\ source <> vscode_lm
        /\ invocations ExternalClient (emitted (upscalePrompt input tok) e s) = 1%nat).
Proof.
  split; [|split].
  - destruct (upscalePrompt_run input tok e s) as (r & evs & c & Hrun & _ & Hinv & _).
    exists evs. split; [|exact Hinv]. eapply emitted_advance, Hrun.
  - intros text source Hhost.
    destruct (emitted_host_success _ _ _ _ _ _ Hhost) as (evs & c & Hrun & Hlm).
    rewrite (emitted_advance _ _ _ _ _ _ Hrun), Hrun. split; [reflexivity|].
    rewrite invocations_cons. simpl. now apply invocations_lm.
  - intros hostError text source Hhost Hext.
    destruct (emitted_host_failure _ _ _ _ _ Hhost)
      as (evs1 & c1 & r2 & evs2 & c2 & H1 & H2 & Hrun & Hlm & Hfetch).
    rewrite H1 in Hext. simpl in Hext. rewrite H2 in Hext. simpl in Hext.
    injection Hext as ->.
    rewrite (emitted_advance _ _ _ _ _ _ Hrun), Hrun.
    assert (Hsrc : source = configuredSource e).
    { destruct (attempts_eq input tok e) as (sp & _ & _ & Heq).
      rewrite Heq in H2. eapply tryExternalApi_source, H2. }
    repeat split; [exact Hsrc | |].
    + rewrite Hsrc. unfold configuredSource.
      now destruct (apiProvider (config e)) as [[]|].
    + rewrite invocations_cons, invocations_app, invocations_cons. simpl.
      rewrite (invocations_lm _ _ Hlm), (invocations_fetch _ _ Hfetch). reflexivity.
Qed.

(** C5, at a host model that answers (no external key), and at a missing
    host model with an answering OpenAI endpoint. *)
Lemma upscalePrompt_priority_witness :
  (fst (upscalePrompt (lit "yo fix this api") (Some progressToken)
          Scenario.hostEnv Scenario.emptyState)
     = Ok (Success (lit "Investigate and resolve the reported API issue.") vscode_lm)
   /\ invocations ExternalClient
        (emitted (upscalePrompt (lit "yo fix this api") (Some progressToken))
           Scenario.hostEnv Scenario.emptyState) = 0%nat)
  /\ (fst (upscalePrompt (lit "yo fix this api") (Some progressToken)
             Scenario.fallbackEnv Scenario.emptyState)
        = Ok (Success (lit "External gold") src_openai)
      /\ src_openai = configuredSource Scenario.fallbackEnv
      /\ src_openai <> vscode_lm
      /\ invocations ExternalClient
           (emitted (upscalePrompt (lit "yo fix this api") (Some progressToken))
              Scenario.fallbackEnv Scenario.emptyState) = 1%nat).
Proof.
  split.
  - apply (proj1 (proj2 (upscalePrompt_priority (lit "yo fix this api")
                           (Some progressToken) Scenario.hostEnv Scenario.emptyState))
             (lit "Investigate and resolve the reported API issue.") vscode_lm).
    vm_compute. reflexivity.
  - apply (proj2 (proj2 (upscalePrompt_priority (lit "yo fix this api")
                           (Some progressToken) Scenario.fallbackEnv Scenario.emptyState))
             (lit "vscode.lm API not available") (lit "External gold") src_openai).
    + vm_compute. reflexivity.
    + vm_compute. reflexivity.
Defined.

(** C6.  If the host attempt fails with reason [A] and the external
    attempt fails with reason [B], [upscalePrompt] returns one failure, whose
    text is ["vscode.lm: A\nExternal API: B"]: it contains [A] behind the
    label of the host model and [B] behind the label of the external API. *)
Theorem upscalePrompt_aggregates (input : jsstring)
    (tok : option CancellationToken) (e : Env) (s : State) (A B : jsstring) :
  fst (hostAttempt input tok e s) = Ok (Failure A) ->
  fst (externalAttempt input e (snd (hostAttempt input tok e s))) = Ok (Failure B) ->
  fst (upscalePrompt input tok e s)
    = Ok (Failure (lit "vscode.lm: " ++ A ++ nl ++ lit "External API: " ++ B))
  /\ includes (aggregate A B) (lit "vscode.lm: " ++ A)
  /\ includes (aggregate A B) (lit "External API: " ++ B)
  /\ includes (aggregate A B) A
  /\ includes (aggregate A B) B.
Proof.
  intros Hhost Hext.
  destruct (emitted_host_failure _ _ _ _ _ Hhost)
    as (evs1 & c1 & r2 & evs2 & c2 & H1 & H2 & Hrun & _ & _).
  rewrite H1 in Hext. simpl in Hext. rewrite H2 in Hext. simpl in Hext.
  injection Hext as ->. rewrite Hrun. cbn [fst].
  split; [reflexivity|]. unfold aggregate, includes.
  split; [|split; [|split]].
  - exists [], (nl ++ lit "External API: " ++ B).
    now rewrite <- !app_assoc.
  - exists (lit "vscode.lm: " ++ A ++ nl), [].
    now rewrite <- !app_assoc, app_nil_r.
  - exists (lit "vscode.lm: "), (nl ++ lit "External API: " ++ B). reflexivity.
  - exists (lit "vscode.lm: " ++ A ++ nl ++ lit "External API: "), [].
    now rewrite <- !app_assoc, app_nil_r.
Qed.

(** C6, with no host model ([A] is its absence) and no API key ([B]). *)
Lemma upscalePrompt_aggregates_witness :
  fst (upscalePrompt (lit "add auth") None Scenario.quietEnv Scenario.emptyState)
    = Ok (Failure (lit "vscode.lm: " ++ lit "vscode.lm API not available" ++ nl
                   ++ lit "External API: "
                   ++ lit "No API key configured. Set gigo.apiKey in settings."))
  /\ includes (aggregate (lit "vscode.lm API not available")
                 (lit "No API key configured. Set gigo.apiKey in settings."))
              (lit "vscode.lm: " ++ lit "vscode.lm API not available")
  /\ includes (aggregate (lit "vscode.lm API not available")
                 (lit "No API key configured. Set gigo.apiKey in settings."))
              (lit "External API: "
               ++ lit "No API key configured. Set gigo.apiKey in settings.")
  /\ includes (aggregate (lit "vscode.lm API not available")
                 (lit "No API key configured. Set gigo.apiKey in settings."))
              (lit "vscode.lm API not available")
  /\ includes (aggregate (lit "vscode.lm API not available")
                 (lit "No API key configured. Set gigo.apiKey in settings."))
              (lit "No API key configured. Set gigo.apiKey in settings.").
Proof.
  apply (upscalePrompt_aggregates (lit "add auth") None Scenario.quietEnv
           Scenario.emptyState (lit "vscode.lm API not available")
           (lit "No API key configured. Set gigo.apiKey in settings."));
    vm_compute; reflexivity.
Defined.

(** C1, as the source has it.  [upscalePrompt] does not read the
    cancellation signal: whenever the host attempt fails, cancellation
    requested or not, the external client is entered, exactly once, and
    [upscalePrompt] returns the external success or the aggregated
    failure; a cancellation requested before stays requested. *)
Theorem upscalePrompt_falls_back_when_cancelled (input : jsstring)
    (tok : option CancellationToken) (e : Env) (s : State) (hostError : jsstring) :
  fst (hostAttempt input tok e s) = Ok (Failure hostError) ->
  exists r2 s2,
    externalAttempt input e (snd (hostAttempt input tok e s)) = (Ok r2, s2)
    /\ upscalePrompt input tok e s =
         (Ok (match r2 with
              | Success _ _ => r2
              | Failure externalError => Failure (aggregate hostError externalError)
              end), s2)
    /\ invocations ExternalClient (emitted (upscalePrompt input tok) e s) = 1%nat
    /\ (tokenCancelled (snd (hostAttempt input tok e s)) = true ->
        tokenCancelled s2 = true).
Proof.
  intros Hhost.
  destruct (emitted_host_failure _ _ _ _ _ Hhost)
    as (evs1 & c1 & r2 & evs2 & c2 & H1 & H2 & Hrun & Hlm & Hfetch).
  rewrite H1. simpl. rewrite H2. eexists _, _. split; [reflexivity|].
  split; [exact Hrun|]. split.
  - rewrite (emitted_advance _ _ _ _ _ _ Hrun).
    rewrite invocations_cons, invocations_app, invocations_cons. simpl.
    now rewrite (invocations_lm _ _ Hlm), (invocations_fetch _ _ Hfetch).
  - intros Hc. simpl in Hc. subst c1.
    destruct (externalAttempt_run input e (advance s (EvCall HostModelClient :: evs1) true))
      as (r & evs & c & Hrun2 & _ & Hmono).
    rewrite H2 in Hrun2. injection Hrun2 as _ _ Hc2. simpl.
    rewrite Hc2. now apply Hmono.
Qed.

(** C1 as the source has it, at a user who cancels while the host-model
    request is pending. *)
Lemma upscalePrompt_falls_back_when_cancelled_witness :
  fst (hostAttempt (lit "yo fix this api") (Some progressToken)
         Scenario.cancelledHostEnv Scenario.emptyState)
    = Ok (Failure (lit "vscode.lm error: Canceled"))
  /\ exists r2 s2,
       externalAttempt (lit "yo fix this api") Scenario.cancelledHostEnv
         (snd (hostAttempt (lit "yo fix this api") (Some progressToken)
                 Scenario.cancelledHostEnv Scenario.emptyState)) = (Ok r2, s2)
       /\ upscalePrompt (lit "yo fix this api") (Some progressToken)
            Scenario.cancelledHostEnv Scenario.emptyState =
            (Ok (match r2 with
                 | Success _ _ => r2
                 | Failure externalError =>
                   Failure (aggregate (lit "vscode.lm error: Canceled") externalError)
                 end), s2)
       /\ invocations ExternalClient
            (emitted (upscalePrompt (lit "yo fix this api") (Some progressToken))
               Scenario.cancelledHostEnv Scenario.emptyState) = 1%nat
       /\ (tokenCancelled
             (snd (hostAttempt (lit "yo fix this api") (Some progressToken)
                     Scenario.cancelledHostEnv Scenario.emptyState)) = true ->
           tokenCancelled s2 = true).
Proof.
  split; [vm_compute; reflexivity|].
  apply (upscalePrompt_falls_back_when_cancelled (lit "yo fix this api")
           (Some progressToken) Scenario.cancelledHostEnv Scenario.emptyState
           (lit "vscode.lm error: Canceled")).
  vm_compute. reflexivity.
Defined.

(** C1 as stated fails: the user cancels while the host-model request is
    pending, the host attempt fails with the cancellation error and the
    token is cancelled, and yet the external client is entered, its
    request is sent, and [upscalePrompt] returns its success. *)
Lemma cancelled_upscale_still_calls_external :
  fst (hostAttempt (lit "yo fix this api") (Some progressToken)
         Scenario.cancelledHostEnv Scenario.emptyState)
    = Ok (Failure (lit "vscode.lm error: Canceled"))
  /\ tokenCancelled
       (snd (hostAttempt (lit "yo fix this api") (Some progressToken)
               Scenario.cancelledHostEnv Scenario.emptyState)) = true
  /\ fst (upscalePrompt (lit "yo fix this api") (Some progressToken)
            Scenario.cancelledHostEnv Scenario.emptyState)
       = Ok (Success (lit "External gold") src_openai)
  /\ invocations ExternalClient
       (emitted (upscalePrompt (lit "yo fix this api") (Some progressToken))
          Scenario.cancelledHostEnv Scenario.emptyState) = 1%nat
  /\ Exists (fun ev => is_fetch_event ev = true)
       (emitted (upscalePrompt (lit "yo fix this api") (Some progressToken))
          Scenario.cancelledHostEnv Scenario.emptyState).
Proof.
  repeat split; try (vm_compute; reflexivity).
  vm_compute. do 4 apply Exists_cons_tl. now apply Exists_cons_hd.
Qed.

(** C3, the source at a response of blanks.  An OpenAI answer whose
    content is three spaces, and an Anthropic answer whose text block is
    space, line feed, space, are each returned as a success carrying the
    empty text, also through [upscalePrompt]; the host-model client, given
    a stream of blanks, returns the failure. *)
Theorem external_clients_accept_blank_text :
  fst (callOpenAI (lit "sk-test") (lit "gpt-4o") (lit "fix teh bug") SYSTEM_PROMPT
         Scenario.blankOpenAIEnv Scenario.emptyState)
    = Ok (Success [] src_openai)
  /\ fst (callAnthropic (lit "sk-ant-test") (lit "claude-sonnet-4-20250514")
            (lit "fix teh bug") SYSTEM_PROMPT
            Scenario.blankAnthropicEnv Scenario.emptyState)
       = Ok (Success [] src_anthropic)
  /\ fst (upscalePrompt (lit "fix teh bug") None
            Scenario.blankOpenAIEnv Scenario.emptyState)
       = Ok (Success [] src_openai)
  /\ fst (upscalePrompt (lit "fix teh bug") None
            Scenario.blankAnthropicEnv Scenario.emptyState)
       = Ok (Success [] src_anthropic)
  /\ fst (tryVscodeLm (lit "fix teh bug") SYSTEM_PROMPT None
            Scenario.blankHostEnv Scenario.emptyState)
       = Ok (Failure (lit "Empty response from vscode.lm")).
Proof. repeat split; vm_compute; reflexivity. Qed.

(* ===================================================================== *)
(** ** The history store: bound, order, resizing, precondition *)
(* ===================================================================== *)

(** An insert whose store rejects the update: the rejection propagates,
    and the store has the new log in memory all the same. *)
Lemma addToHistory_rejected o u e s message :
  (0 <= configuredSize e)%Z -> updateRejects e = Some message ->
  fst (addToHistory o u e s) = Throw message
  /\ globalState (snd (addToHistory o u e s))
     = Some (take (Z.to_nat (configuredSize e))
                  (newEntry e (ticks s) o u :: list_history s)).
Proof.
  intros Hsize Hstore.
  unfold addToHistory, bind. rewrite getHistory_run, getHistorySize_run.
  unfold dateNow, globalState_update, mutated, set_length, bind, settle, ret,
    emit, modify, asks. simpl.
  fold (newEntry e (ticks s) o u).
  rewrite Z.gtb_ltb.
  destruct (Z.ltb_spec (configuredSize e) (Z.of_nat (S (length (list_history s)))))
    as [Hlt|Hge].
  - destruct (Z.ltb_spec (configuredSize e) 0) as [Hneg|_]; [lia|].
    simpl. now rewrite Hstore.
  - simpl. rewrite Hstore. simpl.
    rewrite take_ge by (simpl; lia). now split.
Qed.

(** C4, with its first-element clause kept to sizes of at least one.  For
    a configured maximum size [n] and a working store, every insert
    succeeds and leaves the log equal to the new entry in front of the old
    log, cut to its first [n] entries: its length is at most [n], only
    entries past index [n-1] are dropped, and when [n >= 1] the new entry
    is at index 0.  After [n+1] inserts the log has exactly [n] entries
    and, when [n >= 1], its first entry is the one inserted last. *)
Theorem history_bounded_newest_first (n : nat) (e : Env) :
  configuredSize e = Z.of_nat n -> updateRejects e = None ->
  (forall s o u,
      fst (addToHistory o u e s) = Ok tt
      /\ list_history (snd (addToHistory o u e s))
           = take n (newEntry e (ticks s) o u :: list_history s)
      /\ (length (list_history (snd (addToHistory o u e s))) <= n)%nat
      /\ ((1 <= n)%nat ->
          list_history (snd (addToHistory o u e s)) !! 0%nat
            = Some (newEntry e (ticks s) o u)))
  /\ (forall s earlier o u,
        length earlier = n ->
        fst (inserts (earlier ++ [(o, u)]) e s) = Ok tt
        /\ length (list_history (snd (inserts (earlier ++ [(o, u)]) e s))) = n
        /\ ((1 <= n)%nat ->
            head (list_history (snd (inserts (earlier ++ [(o, u)]) e s)))
              = Some (newEntry e (ticks s + n) o u))).
Proof.
  intros Hsize Hstore. split.
  - intros s o u.
    rewrite addToHistory_run by (rewrite ?Hsize; auto; lia).
    rewrite Hsize, Nat2Z.id. cbn [fst snd list_history globalState].
    repeat split.
    + rewrite length_take. lia.
    + intros Hn. destruct n as [|n]; [lia|]. reflexivity.
  - intros s earlier o u Hlen.
    destruct (inserts_run e n (earlier ++ [(o, u)]) Hsize Hstore s)
      as (s' & Hrun & Hlog & _ & _).
    rewrite Hrun. cbn [fst snd]. split; [reflexivity|].
    assert (Hlog' : list_history s'
                    = take n (newEntry e (ticks s + n) o u
                              :: rev (stamped e (ticks s) earlier) ++ list_history s)).
    { rewrite Hlog. destruct earlier as [|p earlier'] eqn:Hearlier.
      - simpl in Hlen. subst n. reflexivity.
      - rewrite <- Hearlier in *. clear Hearlier.
        destruct (earlier ++ [(o, u)]) as [|q l] eqn:Happ.
        + now destruct earlier.
        + rewrite <- Happ, stamped_app, rev_app_distr, Hlen. reflexivity. }
    rewrite Hlog'. split.
    + rewrite length_take. simpl.
      rewrite length_app, length_rev, length_stamped, Hlen. lia.
    + intros Hn. destruct n as [|n']; [lia|]. reflexivity.
Qed.

(** C4 at the installed size 5 and six inserts. *)
Lemma history_bounded_newest_first_witness :
  length (list_history
            (snd (inserts (Scenario.threePrompts ++ [(lit "a", lit "A"); (lit "b", lit "B")]
                           ++ [(lit "yo fix this api", lit "Investigate.")])
                    Scenario.quietEnv Scenario.emptyState))) = 5%nat
  /\ head (list_history
             (snd (inserts (Scenario.threePrompts ++ [(lit "a", lit "A"); (lit "b", lit "B")]
                            ++ [(lit "yo fix this api", lit "Investigate.")])
                     Scenario.quietEnv Scenario.emptyState)))
       = Some (newEntry Scenario.quietEnv 5 (lit "yo fix this api") (lit "Investigate.")).
Proof.
  pose proof (proj2 (history_bounded_newest_first 5 Scenario.quietEnv
                       eq_refl eq_refl)
                Scenario.emptyState
                (Scenario.threePrompts ++ [(lit "a", lit "A"); (lit "b", lit "B")])
                (lit "yo fix this api") (lit "Investigate.") eq_refl) as H.
  rewrite <- app_assoc in H.
  destruct H as (_ & Hlen & Hhead). split; [exact Hlen|].
  apply Hhead. lia.
Defined.

(** C4 as stated fails at size 0: the one insert succeeds and the log is
    empty, so it has no first element. *)
Lemma history_of_size_zero_has_no_first :
  configuredSize Scenario.noHistoryEnv = 0%Z
  /\ fst (inserts [(lit "yo fix this api", lit "Investigate.")]
            Scenario.noHistoryEnv Scenario.emptyState) = Ok tt
  /\ list_history (snd (inserts [(lit "yo fix this api", lit "Investigate.")]
                          Scenario.noHistoryEnv Scenario.emptyState)) = []
  /\ head (list_history (snd (inserts [(lit "yo fix this api", lit "Investigate.")]
                                Scenario.noHistoryEnv Scenario.emptyState)))
       <> Some (newEntry Scenario.noHistoryEnv 0 (lit "yo fix this api")
                  (lit "Investigate.")).
Proof. repeat split; vm_compute; congruence. Qed.

(** C8.  The log was built under any earlier settings [e1]; the size is
    then set to [M], below the length of the log, and one more insert is
    run under the new settings [e2]: it reads [M] and leaves exactly [M]
    entries, the new one in front of the first [M-1] of the old log. *)
Theorem history_resize_on_next_insert (e1 e2 : Env)
    (before : list (jsstring * jsstring)) (s0 : State) (o u : jsstring) (M : Z) :
  historySize (config e2) = Some M ->
  (0 <= M < Z.of_nat (length (list_history (snd (inserts before e1 s0)))))%Z ->
  updateRejects e2 = None ->
  fst (getHistorySize e2 (snd (inserts before e1 s0))) = Ok M
  /\ fst (addToHistory o u e2 (snd (inserts before e1 s0))) = Ok tt
  /\ Z.of_nat (length (list_history
                         (snd (addToHistory o u e2 (snd (inserts before e1 s0))))))
       = M
  /\ list_history (snd (addToHistory o u e2 (snd (inserts before e1 s0))))
       = take (Z.to_nat M)
              (newEntry e2 (ticks (snd (inserts before e1 s0))) o u
               :: list_history (snd (inserts before e1 s0))).
Proof.
  intros Hcfg HM Hstore.
  assert (Hsize : configuredSize e2 = M) by (unfold configuredSize; now rewrite Hcfg).
  set (s := snd (inserts before e1 s0)) in *.
  rewrite getHistorySize_run, addToHistory_run by (rewrite ?Hsize; auto; lia).
  rewrite Hsize. cbn [fst snd list_history globalState].
  repeat split.
  rewrite length_take. simpl. lia.
Qed.

(** C8: three inserts under the installed size 5, then the size is set to
    2 and a fourth insert leaves two entries. *)
Lemma history_resize_on_next_insert_witness :
  length (list_history (snd (inserts Scenario.threePrompts Scenario.quietEnv
                               Scenario.emptyState))) = 3%nat
  /\ Z.of_nat (length (list_history
                         (snd (addToHistory (lit "yo fix this api") (lit "Investigate.")
                                 Scenario.smallHistoryEnv
                                 (snd (inserts Scenario.threePrompts Scenario.quietEnv
                                         Scenario.emptyState)))))) = 2%Z.
Proof.
  split; [reflexivity|].
  apply (history_resize_on_next_insert Scenario.quietEnv Scenario.smallHistoryEnv
           Scenario.threePrompts Scenario.emptyState
           (lit "yo fix this api") (lit "Investigate.") 2 eq_refl).
  - vm_compute. split; [discriminate | reflexivity].
  - reflexivity.
Defined.

(** C10.  The size setting is returned as it is configured, unchecked.
    When it is non-negative the length assignment of the truncation
    succeeds and [addToHistory] raises no fault of its own: it returns,
    or the store's rejection propagates.  When it is negative the
    comparison with the length holds, the length assignment throws the
    range error, and [addToHistory] ends in that fault, before any call
    of the store's update.  The entry was put in front of the array
    before that: a stored log, which is that array, holds it after the
    fault, and an empty store stays empty. *)
Theorem addToHistory_needs_nonnegative_size (e : Env) (s : State) (o u : jsstring) :
  fst (getHistorySize e s) = Ok (configuredSize e)
  /\ ((0 <= configuredSize e)%Z ->
      set_length (newEntry e (ticks s) o u :: list_history s) (configuredSize e)
        = Ok (take (Z.to_nat (configuredSize e))
                   (newEntry e (ticks s) o u :: list_history s))
      /\ fst (addToHistory o u e s)
           = match updateRejects e with
             | Some message => Throw message
             | None => Ok tt
             end)
  /\ ((configuredSize e < 0)%Z ->
      set_length (newEntry e (ticks s) o u :: list_history s) (configuredSize e)
        = Throw (lit "Invalid array length")
      /\ fst (addToHistory o u e s) = Throw (lit "Invalid array length")
      /\ globalState (snd (addToHistory o u e s))
         = option_map (cons (newEntry e (ticks s) o u)) (globalState s)
      /\ emitted (addToHistory o u) e s = []).
Proof.
  split; [reflexivity|]. split.
  - intros Hsize. split.
    + unfold set_length.
      now destruct (Z.ltb_spec (configuredSize e) 0) as [Hneg|_]; [lia|].
    + destruct (updateRejects e) as [message|] eqn:Hstore.
      * now apply addToHistory_rejected.
      * now rewrite addToHistory_run.
  - intros Hsize. split.
    + unfold set_length.
      now destruct (Z.ltb_spec (configuredSize e) 0) as [_|Hpos]; [|lia].
    + unfold emitted. rewrite addToHistory_negative by exact Hsize.
      cbn [fst snd trace globalState]. repeat split.
      now rewrite drop_all.
Qed.

(** C10 at the installed size 5 and at a size set to -1, the latter
    also over a stored log of two entries, which has three after the
    fault. *)
Lemma addToHistory_needs_nonnegative_size_witness :
  fst (addToHistory (lit "add auth") (lit "Implement authentication.")
         Scenario.quietEnv Scenario.emptyState) = Ok tt
  /\ fst (addToHistory (lit "add auth") (lit "Implement authentication.")
            Scenario.negativeSizeEnv Scenario.emptyState)
       = Throw (lit "Invalid array length")
  /\ fst (addToHistory (lit "refactor this") (lit "Restructure the module.")
            Scenario.negativeSizeEnv
            (MoreScenarios.withHistory MoreScenarios.twoEntries Scenario.emptyState))
       = Throw (lit "Invalid array length")
  /\ option_map (map original)
       (globalState
          (snd (addToHistory (lit "refactor this") (lit "Restructure the module.")
                  Scenario.negativeSizeEnv
                  (MoreScenarios.withHistory MoreScenarios.twoEntries
                     Scenario.emptyState))))
     = Some [lit "refactor this"; lit "fix teh bug"; lit "add auth"].
Proof.
  split; [|split].
  - apply (proj1 (proj2 (addToHistory_needs_nonnegative_size Scenario.quietEnv
                           Scenario.emptyState (lit "add auth")
                           (lit "Implement authentication.")))).
    vm_compute. discriminate.
  - apply (proj2 (proj2 (addToHistory_needs_nonnegative_size Scenario.negativeSizeEnv
                           Scenario.emptyState (lit "add auth")
                           (lit "Implement authentication.")))).
    vm_compute. reflexivity.
  - destruct (proj2 (proj2 (addToHistory_needs_nonnegative_size
                              Scenario.negativeSizeEnv
                              (MoreScenarios.withHistory MoreScenarios.twoEntries
                                 Scenario.emptyState)
                              (lit "refactor this") (lit "Restructure the module.")))
                ltac:(vm_compute; reflexivity))
      as (_ & Hthrow & Hstate & _).
    split; [exact Hthrow|]. rewrite Hstate. reflexivity.
Defined.

(* ===================================================================== *)
(** ** What a computation may add to the trace *)
(* ===================================================================== *)

Section Traces.

Variable P : Event -> bool.

Lemma traces_ret {A} (a : A) : traces P (ret a).
Proof. intros e s. exists []. simpl. now rewrite app_nil_r. Qed.

Lemma traces_throw {A} message : traces P (@throw A message).
Proof. intros e s. exists []. simpl. now rewrite app_nil_r. Qed.

Lemma traces_settle {A} (r : js_result A) : traces P (settle r).
Proof. intros e s. exists []. simpl. now rewrite app_nil_r. Qed.

Lemma traces_asks {A} (f : Env -> A) : traces P (asks f).
Proof. intros e s. exists []. simpl. now rewrite app_nil_r. Qed.

Lemma traces_gets {A} (f : State -> A) : traces P (gets f).
Proof. intros e s. exists []. simpl. now rewrite app_nil_r. Qed.

Lemma traces_modify (f : State -> State) :
  (forall s, trace (f s) = trace s) -> traces P (modify f).
Proof. intros Hf e s. exists []. simpl. now rewrite Hf, app_nil_r. Qed.

Lemma traces_pending p : traces P (pending p).
Proof. intros e s. exists []. simpl. now rewrite app_nil_r. Qed.

Lemma traces_dateNow : traces P dateNow.
Proof. intros e s. exists []. simpl. now rewrite app_nil_r. Qed.

Lemma traces_emit ev : P ev = true -> traces P (emit ev).
Proof. intros Hev e s. exists [ev]. simpl. split; [reflexivity|]. now constructor. Qed.

Lemma traces_bind {A B} (m : M A) (k : A -> M B) :
  traces P m -> (forall a, traces P (k a)) -> traces P (bind m k).
Proof.
  intros Hm Hk e s. unfold bind.
  destruct (Hm e s) as (evs & Htrace & Hevs).
  destruct (m e s) as [[a|message] s1]; simpl in *.
  - destruct (Hk a e s1) as (evs' & Htrace' & Hevs').
    exists (evs ++ evs'). rewrite Htrace', Htrace, app_assoc.
    split; [reflexivity|]. now apply Forall_app.
  - now exists evs.
Qed.

Lemma traces_try_catch {A} (m : M A) (h : jsstring -> M A) :
  traces P m -> (forall message, traces P (h message)) -> traces P (try_catch m h).
Proof.
  intros Hm Hh e s. unfold try_catch.
  destruct (Hm e s) as (evs & Htrace & Hevs).
  destruct (m e s) as [[a|message] s1]; simpl in *.
  - now exists evs.
  - destruct (Hh message e s1) as (evs' & Htrace' & Hevs').
    exists (evs ++ evs'). rewrite Htrace', Htrace, app_assoc.
    split; [reflexivity|]. now apply Forall_app.
Qed.

End Traces.

Lemma traces_weaken {A} (P Q : Event -> bool) (m : M A) :
  (forall ev, P ev = true -> Q ev = true) -> traces P m -> traces Q m.
Proof.
  intros HPQ Hm e s. destruct (Hm e s) as (evs & Htrace & Hevs).
  exists evs. split; [exact Htrace|].
  eapply Forall_impl; [exact Hevs|]. exact HPQ.
Qed.

Lemma traces_emitted {A} (P : Event -> bool) (m : M A) e s :
  traces P m -> Forall (fun ev => P ev = true) (emitted m e s).
Proof.
  intros Hm. destruct (Hm e s) as (evs & Htrace & Hevs).
  unfold emitted. now rewrite Htrace, drop_app_length.
Qed.

Lemma traces_upscalePrompt input tok :
  traces is_provider_event (upscalePrompt input tok).
Proof.
  intros e s.
  destruct (upscalePrompt_run input tok e s) as (r & evs & c & Hrun & Hevs & _).
  exists (EvCall HostModelClient :: evs). rewrite Hrun. simpl.
  split; [reflexivity|]. now constructor.
Qed.

(** One step of a trace argument, along the syntax of the computation. *)
Ltac traces_step :=
  match goal with
  | |- traces _ (bind _ _) => apply traces_bind; [|intros]
  | |- traces _ (try_catch _ _) => apply traces_try_catch; [|intros]
  | |- traces _ (ret _) => apply traces_ret
  | |- traces _ (throw _) => apply traces_throw
  | |- traces _ (settle _) => apply traces_settle
  | |- traces _ (asks _) => apply traces_asks
  | |- traces _ (gets _) => apply traces_gets
  | |- traces _ (pending _) => apply traces_pending
  | |- traces _ dateNow => apply traces_dateNow
  | |- traces _ (emit _) => apply traces_emit; reflexivity
  | |- traces _ (modify _) => apply traces_modify; intros; reflexivity
  | |- traces _ (match ?x with _ => _ end) => destruct x
  end.

Lemma traces_addToHistory (P : Event -> bool) o u :
  (forall h, P (EvGlobalStateUpdate h) = true) -> traces P (addToHistory o u).
Proof.
  intros HP.
  unfold addToHistory, getHistory, getHistorySize, getConfiguration,
    globalState_update, mutated.
  repeat first [ traces_step | apply traces_emit, HP ].
Qed.

(** The upscale pipeline never reads the clipboard. *)
Lemma traces_performUpscale inputText editorContext isClipboardMode :
  traces not_clipboard_read (performUpscale inputText editorContext isClipboardMode).
Proof.
  unfold performUpscale, withProgress_token, showErrorMessage,
    showInformationMessage, answer, openSettings, openTextDocument,
    editor_replace, clipboard_writeText.
  repeat first
    [ apply (traces_weaken is_provider_event); [now intros []|];
      apply traces_upscalePrompt
    | apply traces_addToHistory; reflexivity
    | traces_step ].
Qed.

Lemma traces_executeUpscale : traces not_clipboard_read executeUpscale.
Proof.
  unfold executeUpscale, showInputBox.
  repeat first [ apply traces_performUpscale | traces_step ].
Qed.

(* ===================================================================== *)
(** ** performUpscale and the commands *)
(* ===================================================================== *)

Ltac enter_performUpscale :=
  cbv beta iota delta [performUpscale withProgress_token bind modify ret gets];
  match goal with
  | |- context [upscalePrompt _ _ _ ?s0] =>
    match s0 with
    | {| trace := trace ?s |} => change s0 with (freshToken s)
    end
  end.

(** A cancelled invocation ends where [upscalePrompt] left the state. *)
Lemma performUpscale_cancelled_run inputText editorContext isClipboardMode e s r s1 :
  upscalePrompt inputText (Some progressToken) e (freshToken s) = (Ok r, s1) ->
  tokenCancelled s1 = true ->
  performUpscale inputText editorContext isClipboardMode e s = (Ok tt, s1).
Proof.
  intros Hup Hc. enter_performUpscale. now rewrite Hup, Hc.
Qed.

(** A successful invocation that is not cancelled: the history insertion
    comes first, then the write to the destination, and neither a further
    insertion nor a provider call follows. *)
Lemma performUpscale_success_run inputText editorContext isClipboardMode e s
      text source s1 :
  upscalePrompt inputText (Some progressToken) e (freshToken s)
    = (Ok (Success text source), s1) ->
  tokenCancelled s1 = false ->
  (0 <= configuredSize e)%Z -> updateRejects e = None ->
  exists evs s',
    performUpscale inputText editorContext isClipboardMode e s = (Ok tt, s')
    /\ trace s' =
         trace s1
         ++ EvGlobalStateUpdate
              (take (Z.to_nat (configuredSize e))
                    (newEntry e (ticks s1) inputText text :: list_history s1))
         :: destinationWrite editorContext text :: evs
    /\ globalState s' =
         Some (take (Z.to_nat (configuredSize e))
                    (newEntry e (ticks s1) inputText text :: list_history s1))
    /\ Forall (fun ev => is_provider_event ev = false /\ is_update ev = false) evs.
Proof.
  intros Hup Hc Hsize Hstore. enter_performUpscale. rewrite Hup, Hc.
  rewrite addToHistory_run by assumption.
  destruct editorContext as [editor|]; [|destruct isClipboardMode];
    cbv beta iota delta [editor_replace clipboard_writeText showInformationMessage
                         answer openTextDocument emit bind modify ret asks];
    cbn [trace tokenCancelled clipboard globalState ticks destinationWrite];
    try (destruct (messageAnswer e) as [[]|]; cbn);
    rewrite <- ?app_assoc; cbn [app];
    (eexists _, _; split; [reflexivity|]; cbn [trace globalState];
     split; [reflexivity|]; split; [reflexivity|]; repeat constructor).
Qed.

(** C7.  When the token is cancelled by the time [upscalePrompt] resolves,
    [performUpscale] returns at once: the persisted history and the
    clipboard are as before, and the events of the invocation are those of
    the provider clients only, none of them a history insertion, an editor
    edit or a clipboard write. *)
Theorem cancelled_upscale_writes_nothing (inputText : jsstring)
    (editorContext : option Editor) (isClipboardMode : bool) (e : Env) (s : State) :
  tokenCancelled
    (snd (upscalePrompt inputText (Some progressToken) e (freshToken s))) = true ->
  fst (performUpscale inputText editorContext isClipboardMode e s) = Ok tt
  /\ globalState (snd (performUpscale inputText editorContext isClipboardMode e s))
       = globalState s
  /\ clipboard (snd (performUpscale inputText editorContext isClipboardMode e s))
       = clipboard s
  /\ Forall (fun ev => is_provider_event ev = true)
       (emitted (performUpscale inputText editorContext isClipboardMode) e s)
  /\ Forall (fun ev => is_write ev = false)
       (emitted (performUpscale inputText editorContext isClipboardMode) e s).
Proof.
  intros Hc.
  destruct (upscalePrompt_run inputText (Some progressToken) e (freshToken s))
    as (r & evs & c & Hrun & Hevs & _ & _).
  rewrite Hrun in Hc. cbn [snd advance tokenCancelled] in Hc. subst c.
  unfold emitted.
  rewrite (performUpscale_cancelled_run inputText editorContext isClipboardMode
             e s r _ Hrun eq_refl).
  cbn [fst snd advance freshToken trace globalState clipboard].
  rewrite drop_app_length.
  assert (Hall : Forall (fun ev => is_provider_event ev = true)
                        (EvCall HostModelClient :: evs)) by now constructor.
  repeat split; [exact Hall|].
  eapply Forall_impl; [exact Hall|]. now intros [].
Qed.

(** C7 at a user who cancels while the host-model request is pending. *)
Lemma cancelled_upscale_writes_nothing_witness :
  tokenCancelled
    (snd (upscalePrompt (lit "yo fix this api") (Some progressToken)
            Scenario.cancelledHostEnv (freshToken Scenario.clipboardState))) = true
  /\ globalState (snd (performUpscale (lit "yo fix this api") None true
                         Scenario.cancelledHostEnv Scenario.clipboardState)) = None
  /\ clipboard (snd (performUpscale (lit "yo fix this api") None true
                       Scenario.cancelledHostEnv Scenario.clipboardState))
       = lit "refactor this".
Proof.
  split; [vm_compute; reflexivity|].
  pose proof (cancelled_upscale_writes_nothing (lit "yo fix this api") None true
                Scenario.cancelledHostEnv Scenario.clipboardState) as H.
  destruct H as (_ & Hhistory & Hclipboard & _).
  - vm_compute. reflexivity.
  - split; [exact Hhistory | exact Hclipboard].
Defined.

Lemma emitted_of_trace {A} (m : M A) e s evs :
  trace (snd (m e s)) = trace s ++ evs -> emitted m e s = evs.
Proof. intros H. unfold emitted. now rewrite H, drop_app_length. Qed.

(** The whole of a successful, not cancelled invocation, from the state
    the command was entered in. *)
Lemma performUpscale_success_emitted inputText editorContext isClipboardMode e s
      text source :
  fst (upscalePrompt inputText (Some progressToken) e (freshToken s))
    = Ok (Success text source) ->
  tokenCancelled
    (snd (upscalePrompt inputText (Some progressToken) e (freshToken s))) = false ->
  (0 <= configuredSize e)%Z -> updateRejects e = None ->
  exists before after,
    fst (performUpscale inputText editorContext isClipboardMode e s) = Ok tt
    /\ emitted (performUpscale inputText editorContext isClipboardMode) e s =
         (EvCall HostModelClient :: before)
         ++ EvGlobalStateUpdate
              (take (Z.to_nat (configuredSize e))
                    (newEntry e (ticks s) inputText text :: list_history s))
         :: destinationWrite editorContext text :: after
    /\ globalState (snd (performUpscale inputText editorContext isClipboardMode e s)) =
         Some (take (Z.to_nat (configuredSize e))
                    (newEntry e (ticks s) inputText text :: list_history s))
    /\ Forall (fun ev => is_provider_event ev = true) before
    /\ Forall (fun ev => is_provider_event ev = false /\ is_update ev = false) after.
Proof.
  intros Hfst Hc Hsize Hstore.
  destruct (upscalePrompt_run inputText (Some progressToken) e (freshToken s))
    as (r & before & c & Hrun & Hbefore & _ & _).
  rewrite Hrun in Hfst, Hc. cbn [fst snd advance tokenCancelled] in Hfst, Hc.
  injection Hfst as ->. subst c.
  destruct (performUpscale_success_run inputText editorContext isClipboardMode
              e s text source _ Hrun eq_refl Hsize Hstore)
    as (after & s' & Hperform & Htrace & Hstate & Hafter).
  exists before, after.
  cbn [advance freshToken trace ticks list_history globalState] in Htrace, Hstate.
  fold (list_history s) in Htrace, Hstate.
  rewrite (emitted_of_trace _ e s
             ((EvCall HostModelClient :: before)
              ++ EvGlobalStateUpdate
                   (take (Z.to_nat (configuredSize e))
                         (newEntry e (ticks s) inputText text :: list_history s))
              :: destinationWrite editorContext text :: after)).
  - rewrite Hperform. cbn [fst snd]. auto.
  - rewrite Hperform. cbn [snd]. rewrite Htrace. now rewrite <- app_assoc.
Qed.

Lemma executeUpscale_selection_run e s editor :
  activeTextEditor e = Some editor ->
  hasText (Some (selectedText editor)) = true ->
  executeUpscale e s = performUpscale (selectedText editor) (Some editor) false e s.
Proof.
  intros Heditor Htext.
  cbv beta iota delta [executeUpscale bind asks].
  rewrite Heditor. cbn [option_map]. now rewrite Htext.
Qed.

Lemma executeUpscale_input_run e s :
  hasText (option_map selectedText (activeTextEditor e)) = false ->
  executeUpscale e s =
    match inputBoxAnswer e with
    | Some t =>
      if hasText (Some t)
      then performUpscale t None false e (advance s [EvShowInputBox] (tokenCancelled s))
      else (Ok tt, advance s [EvShowInputBox] (tokenCancelled s))
    | None => (Ok tt, advance s [EvShowInputBox] (tokenCancelled s))
    end.
Proof.
  intros Htext.
  cbv beta iota zeta delta [executeUpscale showInputBox emit modify bind asks ret].
  rewrite Htext. fold (advance s [EvShowInputBox] (tokenCancelled s)).
  destruct (inputBoxAnswer e) as [t|]; [|reflexivity].
  now destruct (hasText (Some t)).
Qed.

Lemma executeUpscaleClipboard_run e s :
  hasText (Some (clipboard s)) = true ->
  executeUpscaleClipboard e s =
    performUpscale (clipboard s) None true e
      (advance s [EvClipboardRead] (tokenCancelled s)).
Proof.
  intros Htext.
  cbv beta iota delta [executeUpscaleClipboard clipboard_readText emit modify
                       bind gets ret].
  fold (advance s [EvClipboardRead] (tokenCancelled s)).
  cbn [advance clipboard]. now rewrite Htext.
Qed.

(** Restoring the entry picked: its original text goes, unchanged, to the
    destination of the restore. *)
Lemma executeRestoreOriginal_run e s i entry :
  list_history s !! i = Some entry -> quickPickAnswer e = Some i ->
  fst (executeRestoreOriginal e s) = Ok tt
  /\ exists after,
       emitted executeRestoreOriginal e s =
         EvShowQuickPick (length (list_history s))
         :: restoreWrite e (original entry) :: after.
Proof.
  intros Hentry Hpick.
  assert (Hlt : (i < length (list_history s))%nat) by (eapply lookup_lt_Some, Hentry).
  unfold emitted.
  cbv beta iota delta [executeRestoreOriginal bind]. rewrite getHistory_run.
  destruct (Nat.eqb_spec (length (list_history s)) 0) as [Hzero|_]; [lia|].
  cbv beta iota delta [showQuickPick emit modify bind asks ret].
  rewrite Hpick.
  destruct (Nat.ltb_spec i (length (list_history s))) as [_|Hge]; [|lia].
  rewrite Hentry. unfold restoreWrite.
  cbv beta iota delta [editor_replace editor_insert clipboard_writeText
                       showInformationMessage answer openTextDocument
                       emit modify bind asks ret].
  destruct (activeTextEditor e) as [editor|].
  - destruct (truthy (selectedText editor));
      cbn [fst snd trace]; rewrite <- ?app_assoc; cbn [app];
      rewrite drop_app_length; eauto.
  - destruct (messageAnswer e) as [[]|];
      cbn [fst snd trace existsb action_eqb orb];
      rewrite <- ?app_assoc; cbn [app];
      rewrite drop_app_length; eauto.
Qed.

Lemma emitted_trace {A} (P : Event -> bool) (m : M A) e s :
  traces P m -> trace (snd (m e s)) = trace s ++ emitted m e s.
Proof.
  intros Hm. destruct (Hm e s) as (evs & Htrace & _).
  now rewrite (emitted_of_trace m e s evs Htrace).
Qed.

(** A success of [upscalePrompt] carries the trimmed text of what the
    provider of its source tag delivered. *)
Lemma upscalePrompt_text input tok e s text source :
  fst (upscalePrompt input tok e s) = Ok (Success text source) ->
  exists raw, providerText e source raw /\ text = trim raw.
Proof.
  intros Hfst.
  destruct (attempts_eq input tok e) as (sp & _ & Hhost & Hext).
  destruct (hostAttempt_run input tok e s) as (r1 & evs1 & c1 & H1 & _ & _).
  destruct r1 as [text1 source1|hostError].
  - rewrite (upscalePrompt_host_success _ _ _ _ _ _ _ H1) in Hfst.
    injection Hfst as -> ->. rewrite Hhost in H1.
    pose proof (tryVscodeLm_source _ _ _ _ _ _ _ _ H1) as ->.
    destruct (tryVscodeLm_text _ _ _ _ _ _ _ _ H1) as (raw & Hraw & Htrim & _).
    now exists raw.
  - destruct (externalAttempt_run input e (advance s (EvCall HostModelClient :: evs1) c1))
      as (r2 & evs2 & c2 & H2 & _ & _).
    rewrite (upscalePrompt_host_failure _ _ _ _ _ _ _ _ H1 H2) in Hfst.
    destruct r2 as [text2 source2|externalError]; [|discriminate].
    injection Hfst as -> ->. rewrite Hext in H2.
    destruct (tryExternalApi_text _ _ _ _ _ _ _ H2) as (raw & Hraw & Htrim & _).
    now exists raw.
Qed.

(** C2, as the source has it.  The upscale command never reads the
    clipboard.  When no selection holds non-blank text it shows the input
    box, first thing and whatever the clipboard holds, and upscales the
    text typed, if any, towards the clipboard.  The clipboard round trip
    is the other command: when the clipboard is not blank it upscales the
    clipboard text, without an input box, and a successful upscale that is
    not cancelled writes the result to the clipboard. *)
Theorem upscale_command_routing (e : Env) (s : State) :
  Forall (fun ev => ev <> EvClipboardRead) (emitted executeUpscale e s)
  /\ (hasText (option_map selectedText (activeTextEditor e)) = false ->
      head (emitted executeUpscale e s) = Some EvShowInputBox
      /\ executeUpscale e s =
           match inputBoxAnswer e with
           | Some t =>
             if hasText (Some t)
             then performUpscale t None false e
                    (advance s [EvShowInputBox] (tokenCancelled s))
             else (Ok tt, advance s [EvShowInputBox] (tokenCancelled s))
           | None => (Ok tt, advance s [EvShowInputBox] (tokenCancelled s))
           end)
  /\ (hasText (Some (clipboard s)) = true ->
      executeUpscaleClipboard e s =
        performUpscale (clipboard s) None true e
          (advance s [EvClipboardRead] (tokenCancelled s))
      /\ Forall (fun ev => ev <> EvShowInputBox) (emitted executeUpscaleClipboard e s)
      /\ forall text source,
           fst (upscalePrompt (clipboard s) (Some progressToken) e
                  (freshToken (advance s [EvClipboardRead] (tokenCancelled s))))
             = Ok (Success text source) ->
           tokenCancelled
             (snd (upscalePrompt (clipboard s) (Some progressToken) e
                     (freshToken (advance s [EvClipboardRead] (tokenCancelled s)))))
             = false ->
           (0 <= configuredSize e)%Z -> updateRejects e = None ->
           In (EvClipboardWrite text) (emitted executeUpscaleClipboard e s)).
Proof.
  split; [|split].
  - eapply Forall_impl; [apply (traces_emitted not_clipboard_read), traces_executeUpscale|].
    intros ev Hev ->. discriminate.
  - intros Hsel. split; [|now apply executeUpscale_input_run].
    unfold emitted. rewrite (executeUpscale_input_run e s Hsel).
    destruct (inputBoxAnswer e) as [t|]; [destruct (hasText (Some t))|];
      try (cbn [snd advance trace]; now rewrite drop_app_length).
    rewrite (emitted_trace not_clipboard_read _ e _ (traces_performUpscale t None false)).
    cbn [advance trace]. now rewrite <- app_assoc, drop_app_length.
  - intros Hclip. split; [now apply executeUpscaleClipboard_run|]. split.
    + assert (Hquiet : traces (fun ev => match ev with EvShowInputBox => false | _ => true end)
                              executeUpscaleClipboard).
      { unfold executeUpscaleClipboard, clipboard_readText, showWarningMessage,
          performUpscale, withProgress_token, showErrorMessage,
          showInformationMessage, answer, openSettings, openTextDocument,
          editor_replace, clipboard_writeText.
        repeat first
          [ apply (traces_weaken is_provider_event); [now intros []|];
            apply traces_upscalePrompt
          | apply traces_addToHistory; reflexivity
          | traces_step ]. }
      eapply Forall_impl; [apply (traces_emitted _ _ e s Hquiet)|].
      intros ev Hev ->. discriminate.
    + intros text source Hfst Hc Hsize Hstore.
      destruct (performUpscale_success_emitted (clipboard s) None true e
                  (advance s [EvClipboardRead] (tokenCancelled s))
                  text source Hfst Hc Hsize Hstore)
        as (before & after & _ & Hemitted & _).
      unfold emitted at 1. rewrite (executeUpscaleClipboard_run e s Hclip).
      rewrite (emitted_trace not_clipboard_read _ e _
                 (traces_performUpscale (clipboard s) None true)).
      rewrite Hemitted. cbn [advance trace destinationWrite].
      rewrite <- !app_assoc, drop_app_length.
      apply in_or_app. right. apply in_or_app. right. right. now left.
Qed.

(** C2 as the source has it: no editor, a clipboard holding a prompt. *)
Lemma upscale_command_routing_witness :
  head (emitted executeUpscale Scenario.typingEnv Scenario.clipboardState)
    = Some EvShowInputBox
  /\ In (EvClipboardWrite (lit "Investigate and resolve the reported API issue."))
        (emitted executeUpscaleClipboard Scenario.hostEnv Scenario.clipboardState).
Proof.
  split.
  - apply (proj1 (proj2 (upscale_command_routing Scenario.typingEnv
                           Scenario.clipboardState))).
    vm_compute. reflexivity.
  - apply (proj2 (proj2 (upscale_command_routing Scenario.hostEnv
                           Scenario.clipboardState)))
      with (source := vscode_lm).
    + vm_compute. reflexivity.
    + vm_compute. reflexivity.
    + vm_compute. reflexivity.
    + vm_compute. discriminate.
    + reflexivity.
Defined.

(** C2 as stated fails: no editor is open and the clipboard holds
    "refactor this", yet the upscale command shows the input box, does not
    read the clipboard, and the text it upscales and records is the text
    typed, "add tests". *)
Lemma upscale_command_ignores_clipboard :
  hasText (option_map selectedText (activeTextEditor Scenario.typingEnv)) = false
  /\ hasText (Some (clipboard Scenario.clipboardState)) = true
  /\ clipboard Scenario.clipboardState = lit "refactor this"
  /\ emitted executeUpscale Scenario.typingEnv Scenario.clipboardState
       <> []
  /\ head (emitted executeUpscale Scenario.typingEnv Scenario.clipboardState)
       = Some EvShowInputBox
  /\ Forall (fun ev => is_clipboard_read ev = false)
       (emitted executeUpscale Scenario.typingEnv Scenario.clipboardState)
  /\ option_map original
       (head (list_history
                (snd (executeUpscale Scenario.typingEnv Scenario.clipboardState))))
       = Some (lit "add tests").
Proof.
  repeat split; try (vm_compute; reflexivity).
  - vm_compute. discriminate.
  - vm_compute. repeat constructor.
Qed.

(** C9.  After a successful upscale that is not cancelled, under a
    non-negative history size and a working store, the history is the new
    entry in front of the old log, cut to the size, and the new entry has
    the input text exactly as [performUpscale] received it in [original]
    and in [upscaled] the text of the result, which is the trimmed text the
    provider delivered.  When the size is at least one that entry is the
    first of the history, and restoring it writes [inputText] itself to
    the destination of the restore.  And each command hands
    [performUpscale] its text as obtained: the selected text, the text
    typed, the clipboard text. *)
Theorem history_records_raw_input (inputText : jsstring)
    (editorContext : option Editor) (isClipboardMode : bool)
    (e : Env) (s : State) (text : jsstring) (source : Source) :
  fst (upscalePrompt inputText (Some progressToken) e (freshToken s))
    = Ok (Success text source) ->
  tokenCancelled
    (snd (upscalePrompt inputText (Some progressToken) e (freshToken s))) = false ->
  (0 <= configuredSize e)%Z -> updateRejects e = None ->
  list_history (snd (performUpscale inputText editorContext isClipboardMode e s))
    = take (Z.to_nat (configuredSize e))
           ({| original := inputText; upscaled := text;
               timestamp := clock e (ticks s) |} :: list_history s)
  /\ (exists raw, providerText e source raw /\ text = trim raw)
  /\ ((1 <= configuredSize e)%Z ->
      head (list_history
              (snd (performUpscale inputText editorContext isClipboardMode e s)))
        = Some {| original := inputText; upscaled := text;
                  timestamp := clock e (ticks s) |}
      /\ forall e',
           quickPickAnswer e' = Some 0%nat ->
           fst (executeRestoreOriginal e'
                  (snd (performUpscale inputText editorContext isClipboardMode e s)))
             = Ok tt
           /\ exists n after,
                emitted executeRestoreOriginal e'
                  (snd (performUpscale inputText editorContext isClipboardMode e s))
                = EvShowQuickPick n :: restoreWrite e' inputText :: after)
  /\ (forall e0 s0,
        (forall editor,
            activeTextEditor e0 = Some editor ->
            hasText (Some (selectedText editor)) = true ->
            executeUpscale e0 s0
              = performUpscale (selectedText editor) (Some editor) false e0 s0)
        /\ (forall typed,
              hasText (option_map selectedText (activeTextEditor e0)) = false ->
              inputBoxAnswer e0 = Some typed -> hasText (Some typed) = true ->
              executeUpscale e0 s0
                = performUpscale typed None false e0
                    (advance s0 [EvShowInputBox] (tokenCancelled s0)))
        /\ (hasText (Some (clipboard s0)) = true ->
            executeUpscaleClipboard e0 s0
              = performUpscale (clipboard s0) None true e0
                  (advance s0 [EvClipboardRead] (tokenCancelled s0)))).
Proof.
  intros Hfst Hc Hsize Hstore.
  destruct (performUpscale_success_emitted inputText editorContext isClipboardMode
              e s text source Hfst Hc Hsize Hstore)
    as (before & after & _ & _ & Hstate & _).
  assert (Hlog : list_history
                   (snd (performUpscale inputText editorContext isClipboardMode e s))
                 = take (Z.to_nat (configuredSize e))
                        (newEntry e (ticks s) inputText text :: list_history s)).
  { unfold list_history at 1. now rewrite Hstate. }
  split; [exact Hlog|]. split; [eapply upscalePrompt_text, Hfst|]. split.
  - intros Hone.
    assert (Hhead : list_history
                      (snd (performUpscale inputText editorContext isClipboardMode e s))
                    !! 0%nat = Some (newEntry e (ticks s) inputText text)).
    { rewrite Hlog.
      destruct (Z.to_nat (configuredSize e)) as [|n] eqn:Hn; [lia|]. reflexivity. }
    split; [now rewrite head_lookup|].
    intros e' Hpick.
    destruct (executeRestoreOriginal_run e' _ 0 _ Hhead Hpick)
      as (Hok & after' & Hemitted).
    split; [exact Hok|]. eexists _, after'. exact Hemitted.
  - intros e0 s0. split; [|split].
    + intros editor. apply executeUpscale_selection_run.
    + intros typed Hsel Htyped Htext.
      rewrite (executeUpscale_input_run e0 s0 Hsel), Htyped. now rewrite Htext.
    + apply executeUpscaleClipboard_run.
Qed.

(** C9 at a selection with blanks around the prompt and a host model that
    answers with blanks around its text. *)
Lemma history_records_raw_input_witness :
  head (list_history
          (snd (performUpscale (lit "  yo fix this api ")
                  (Some {| selectedText := lit "  yo fix this api " |}) false
                  Scenario.selectionEnv Scenario.emptyState)))
    = Some {| original := lit "  yo fix this api ";
              upscaled := lit "Investigate and resolve the reported API issue.";
              timestamp := clock Scenario.selectionEnv 0 |}
  /\ exists n after,
       emitted executeRestoreOriginal (Scenario.withPick 0 Scenario.selectionEnv)
         (snd (performUpscale (lit "  yo fix this api ")
                 (Some {| selectedText := lit "  yo fix this api " |}) false
                 Scenario.selectionEnv Scenario.emptyState))
       = EvShowQuickPick n :: EvEditorReplace (lit "  yo fix this api ") :: after.
Proof.
  pose proof (history_records_raw_input (lit "  yo fix this api ")
                (Some {| selectedText := lit "  yo fix this api " |}) false
                Scenario.selectionEnv Scenario.emptyState
                (lit "Investigate and resolve the reported API issue.") vscode_lm) as H.
  destruct H as (_ & _ & Hfirst & _).
  - vm_compute. reflexivity.
  - vm_compute. reflexivity.
  - vm_compute. discriminate.
  - reflexivity.
  - destruct Hfirst as (Hhead & Hrestore); [vm_compute; discriminate|].
    split; [exact Hhead|].
    exact (proj2 (Hrestore (Scenario.withPick 0 Scenario.selectionEnv) eq_refl)).
Defined.

(* ===================================================================== *)
(** ** Trimming *)
(* ===================================================================== *)

Lemma trimStart_split s :
  exists ws, s = ws ++ trimStart s /\ Forall (fun c => isWhiteSpace c = true) ws.
Proof.
  induction s as [|c r (ws & Hr & Hws)]; [now exists []|].
  cbn [trimStart]. destruct (isWhiteSpace c) eqn:Hc.
  - exists (c :: ws). cbn [app]. split; [now f_equal|]. now constructor.
  - now exists [].
Qed.

Lemma trimStart_startsClean s : startsClean (trimStart s).
Proof.
  induction s as [|c r IH]; [exact I|].
  cbn [trimStart]. destruct (isWhiteSpace c) eqn:Hc; [exact IH | exact Hc].
Qed.

Lemma trimStart_fixed s : startsClean s -> trimStart s = s.
Proof. destruct s as [|c r]; [reflexivity|]. cbn. now intros ->. Qed.

Lemma trimEnd_split s :
  exists ws, s = trimEnd s ++ ws /\ Forall (fun c => isWhiteSpace c = true) ws.
Proof.
  destruct (trimStart_split (rev s)) as (ws & Hs & Hws).
  exists (rev ws). split.
  - unfold trimEnd. rewrite <- rev_app_distr, <- Hs. now rewrite rev_involutive.
  - apply Forall_forall. intros c Hc.
    rewrite Forall_forall in Hws. apply Hws.
    apply list_elem_of_In. apply list_elem_of_In in Hc. now apply in_rev.
Qed.

Lemma trimEnd_endsClean s : endsClean (trimEnd s).
Proof.
  unfold endsClean, trimEnd. rewrite rev_involutive. apply trimStart_startsClean.
Qed.

Lemma trimEnd_fixed s : endsClean s -> trimEnd s = s.
Proof.
  intros H. unfold trimEnd. rewrite trimStart_fixed by exact H.
  apply rev_involutive.
Qed.

Lemma trimEnd_startsClean s : startsClean s -> startsClean (trimEnd s).
Proof.
  intros Hs. destruct (trimEnd_split s) as (ws & Heq & Hws).
  destruct (trimEnd s) as [|c r]; [exact I|].
  rewrite Heq in Hs. exact Hs.
Qed.

Lemma trim_clean s : startsClean (trim s) /\ endsClean (trim s).
Proof.
  unfold trim. split.
  - apply trimEnd_startsClean, trimStart_startsClean.
  - apply trimEnd_endsClean.
Qed.

Lemma trim_idempotent s : trim (trim s) = trim s.
Proof.
  destruct (trim_clean s) as (Hstart & Hend).
  unfold trim at 1. rewrite (trimStart_fixed _ Hstart). now apply trimEnd_fixed.
Qed.

Lemma SYSTEM_PROMPT_clean : SYSTEM_PROMPT <> [] /\ trim SYSTEM_PROMPT = SYSTEM_PROMPT.
Proof. split; [vm_compute; discriminate | vm_compute; reflexivity]. Qed.

(* ===================================================================== *)
(** ** llmService.ts: further properties *)
(* ===================================================================== *)

(** X1.  The effective system prompt is the trimmed setting when the
    setting holds more than whitespace, and the built-in prompt otherwise
    (setting absent, empty or blank); either way it is not empty and has no
    whitespace around it, and resolving it changes nothing. *)
Theorem effective_prompt_is_clean (e : Env) (s : State) :
  getEffectiveSystemPrompt e s = (Ok (effectivePrompt (config e)), s)
  /\ effectivePrompt (config e) <> []
  /\ trim (effectivePrompt (config e)) = effectivePrompt (config e)
  /\ (forall p, systemPrompt (config e) = Some p -> trim p <> [] ->
                effectivePrompt (config e) = trim p)
  /\ (forall p, systemPrompt (config e) = Some p -> trim p = [] ->
                effectivePrompt (config e) = SYSTEM_PROMPT)
  /\ (systemPrompt (config e) = None -> effectivePrompt (config e) = SYSTEM_PROMPT).
Proof.
  destruct SYSTEM_PROMPT_clean as (Hne & Htrim).
  unfold effectivePrompt, getEffectiveSystemPrompt, getConfiguration, bind, asks, ret.
  destruct (systemPrompt (config e)) as [p|].
  - assert (Hp : truthy p && truthy (trim p) = truthy (trim p)).
    { destruct p as [|c r]; [reflexivity|]. reflexivity. }
    rewrite Hp. destruct (trim p) as [|c r] eqn:Hpt; cbn [truthy].
    + repeat split; auto. intros q [= <-] Hq. now rewrite Hpt in Hq.
    + repeat split; try discriminate.
      * rewrite <- Hpt. apply trim_idempotent.
      * intros q [= <-] _. now rewrite Hpt.
      * intros q [= <-] Hq. rewrite Hpt in Hq. discriminate.
  - repeat split; auto; discriminate.
Qed.

(** X1 at a setting with blanks around it and at a blank setting. *)
Lemma effective_prompt_is_clean_witness :
  effectivePrompt (config MoreScenarios.anthropicEnv) = lit "Be terse."
  /\ effectivePrompt
       (MoreScenarios.withSystemPrompt (lit "   ") Scenario.defaultConfig)
     = SYSTEM_PROMPT.
Proof.
  split.
  - apply (proj1 (proj2 (proj2 (proj2
             (effective_prompt_is_clean MoreScenarios.anthropicEnv Scenario.emptyState))))
             (lit "  Be terse. ")).
    + reflexivity.
    + vm_compute. discriminate.
  - apply (proj1 (proj2 (proj2 (proj2 (proj2
             (effective_prompt_is_clean
                (Scenario.withConfig
                   (MoreScenarios.withSystemPrompt (lit "   ") Scenario.defaultConfig)
                   Scenario.quietEnv)
                Scenario.emptyState)))))
             (lit "   ")).
    + reflexivity.
    + vm_compute. reflexivity.
Defined.

(** X2.  A success of [upscalePrompt], from whichever client, carries a
    text with no whitespace around it; a success of the host-model client
    is moreover not empty. *)
Theorem upscale_success_text_is_trimmed (input : jsstring)
    (tok : option CancellationToken) (e : Env) (s : State)
    (text : jsstring) (source : Source) :
  fst (upscalePrompt input tok e s) = Ok (Success text source) ->
  trim text = text /\ (source = vscode_lm -> text <> []).
Proof.
  intros Hfst. split.
  - destruct (upscalePrompt_text _ _ _ _ _ _ Hfst) as (raw & _ & ->).
    apply trim_idempotent.
  - intros ->.
    destruct (attempts_eq input tok e) as (sp & _ & Hhost & Hext).
    destruct (hostAttempt_run input tok e s) as (r1 & evs1 & c1 & H1 & _ & _).
    destruct r1 as [text1 source1|hostError].
    + rewrite (upscalePrompt_host_success _ _ _ _ _ _ _ H1) in Hfst.
      injection Hfst as -> _. rewrite Hhost in H1.
      now destruct (tryVscodeLm_text _ _ _ _ _ _ _ _ H1) as (raw & _ & _ & Hne).
    + destruct (externalAttempt_run input e (advance s (EvCall HostModelClient :: evs1) c1))
        as (r2 & evs2 & c2 & H2 & _ & _).
      rewrite (upscalePrompt_host_failure _ _ _ _ _ _ _ _ H1 H2) in Hfst.
      destruct r2 as [text2 source2|externalError]; [|discriminate].
      injection Hfst as -> ->. rewrite Hext in H2.
      pose proof (tryExternalApi_source _ _ _ _ _ _ _ H2) as Hsrc.
      unfold configuredSource in Hsrc.
      now destruct (apiProvider (config e)) as [[]|].
Qed.

(** X2 at an Anthropic answer with blanks around its text. *)
Lemma upscale_success_text_is_trimmed_witness :
  trim (lit "Use OAuth.") = lit "Use OAuth."
  /\ (src_anthropic = vscode_lm -> lit "Use OAuth." <> []).
Proof.
  apply (upscale_success_text_is_trimmed (lit "add auth") None
           MoreScenarios.anthropicEnv Scenario.emptyState).
  vm_compute. reflexivity.
Defined.

(** X3.  The provider clients and [upscalePrompt] never throw: a fault of
    the host model, of the network or of the response parsing comes back
    as a result.  A run of [upscalePrompt] leaves the clipboard, the
    persisted history and the clock reads as they were. *)
Theorem upscale_never_throws (input prompt : jsstring)
    (tok : option CancellationToken) (e : Env) (s : State) :
  (exists r, fst (tryVscodeLm input prompt tok e s) = Ok r)
  /\ (exists r, fst (tryExternalApi input prompt e s) = Ok r)
  /\ (exists r, fst (upscalePrompt input tok e s) = Ok r)
  /\ clipboard (snd (upscalePrompt input tok e s)) = clipboard s
  /\ globalState (snd (upscalePrompt input tok e s)) = globalState s
  /\ ticks (snd (upscalePrompt input tok e s)) = ticks s.
Proof.
  destruct (tryVscodeLm_run input prompt tok e s) as (r1 & ? & ? & -> & _).
  destruct (tryExternalApi_run input prompt e s) as (r2 & ? & ? & -> & _).
  destruct (upscalePrompt_run input tok e s) as (r & ? & ? & -> & _).
  repeat split; eauto.
Qed.

Ltac enter_client :=
  cbv beta iota zeta delta
    [tryVscodeLm tryExternalApi callOpenAI callAnthropic lm_selectChatModels
     lm_sendRequest fetchOpenAI fetchAnthropic getConfiguration try_catch bind
     emit pending modify asks gets settle ret throw].

(** X4.  Without an API key (setting absent or empty) the external client
    fails with the missing-key message and sends no request; no run of
    [upscalePrompt] under such settings makes an HTTP request. *)
Theorem no_key_no_request (input prompt : jsstring)
    (tok : option CancellationToken) (e : Env) (s : State) :
  configuredKey (config e) = [] ->
  tryExternalApi input prompt e s =
    (Ok (Failure (lit "No API key configured. Set gigo.apiKey in settings.")),
     advance s [EvCall ExternalClient] (tokenCancelled s))
  /\ countEvents is_fetch_event (emitted (upscalePrompt input tok) e s) = 0%nat.
Proof.
  intros Hkey.
  assert (Hext : forall p s0,
             tryExternalApi input p e s0 =
             (Ok (Failure (lit "No API key configured. Set gigo.apiKey in settings.")),
              advance s0 [EvCall ExternalClient] (tokenCancelled s0))).
  { intros p s0. unfold configuredKey in Hkey. enter_client.
    destruct (apiKey (config e)) as [k|]; [subst k|]; reflexivity. }
  split; [apply Hext|].
  assert (Hlm : forall evs, Forall (fun ev => is_lm_event ev = true) evs ->
                            countEvents is_fetch_event evs = 0%nat).
  { unfold countEvents. induction 1 as [|ev l Hev _ IH]; [reflexivity|].
    destruct ev; try discriminate; exact IH. }
  destruct (hostAttempt_run input tok e s) as (r1 & evs1 & c1 & H1 & Hevs1 & _).
  destruct r1 as [text source|hostError].
  - rewrite (emitted_advance _ _ _ _ _ _
               (upscalePrompt_host_success _ _ _ _ _ _ _ H1)).
    apply (Hlm evs1 Hevs1).
  - destruct (attempts_eq input tok e) as (sp & _ & _ & Heq).
    pose proof (Hext sp (advance s (EvCall HostModelClient :: evs1) c1)) as H2.
    rewrite <- Heq, advance_advance in H2.
    rewrite (emitted_advance _ _ _ _ _ _
               (upscalePrompt_host_failure _ _ _ _ _ _ _ _ H1 H2)).
    unfold countEvents in *. cbn [List.filter is_fetch_event app].
    rewrite List.filter_app, length_app. cbn. rewrite (Hlm evs1 Hevs1). reflexivity.
Qed.

(** X4 at the installed settings, where the key is empty. *)
Lemma no_key_no_request_witness :
  countEvents is_fetch_event
    (emitted (upscalePrompt (lit "add auth") None) Scenario.hostEnv Scenario.emptyState)
  = 0%nat.
Proof.
  apply (no_key_no_request (lit "add auth") SYSTEM_PROMPT None
           Scenario.hostEnv Scenario.emptyState).
  reflexivity.
Defined.

(** X5.  With an API key the external client sends exactly one request,
    whatever comes back: to the endpoint of the configured provider
    (OpenAI when none is set), with the key, with the model of the
    settings or, when that is absent or empty, the default model of the
    provider, and with the system prompt and the input it was given. *)
Theorem external_request_as_configured (input prompt : jsstring)
    (e : Env) (s : State) :
  configuredKey (config e) <> [] ->
  emitted (tryExternalApi input prompt) e s =
    [ EvCall ExternalClient;
      EvFetch (configuredProvider (config e))
              (externalRequest (config e) input prompt) ].
Proof.
  intros Hkey.
  apply emitted_of_trace. revert Hkey.
  unfold externalRequest, configuredModel, configuredProvider, configuredKey.
  enter_client.
  destruct (apiKey (config e)) as [[|k0 k]|]; try (intros Hkey; now elim Hkey).
  intros _. cbn [truthy negb].
  destruct (apiProvider (config e)) as [[]|].
  - destruct (fetch_openai e _) as [response|msg]; [|cbn; now rewrite <- app_assoc].
    destruct (resp_ok response); cbn [negb].
    + destruct (resp_json response) as [data|msg]; [|cbn; now rewrite <- app_assoc].
      destruct (openai_content data) as [content|]; [|cbn; now rewrite <- app_assoc].
      destruct (truthy content); cbn; now rewrite <- app_assoc.
    + destruct (resp_text response); cbn; now rewrite <- app_assoc.
  - destruct (fetch_anthropic e _) as [response|msg]; [|cbn; now rewrite <- app_assoc].
    destruct (resp_ok response); cbn [negb].
    + destruct (resp_json response) as [data|msg]; [|cbn; now rewrite <- app_assoc].
      destruct (anthropic_textBlock data) as [block|]; [|cbn; now rewrite <- app_assoc].
      destruct (block_text block) as [content|]; [|cbn; now rewrite <- app_assoc].
      destruct (truthy content); cbn; now rewrite <- app_assoc.
    + destruct (resp_text response); cbn; now rewrite <- app_assoc.
  - destruct (fetch_openai e _) as [response|msg]; [|cbn; now rewrite <- app_assoc].
    destruct (resp_ok response); cbn [negb].
    + destruct (resp_json response) as [data|msg]; [|cbn; now rewrite <- app_assoc].
      destruct (openai_content data) as [content|]; [|cbn; now rewrite <- app_assoc].
      destruct (truthy content); cbn; now rewrite <- app_assoc.
    + destruct (resp_text response); cbn; now rewrite <- app_assoc.
Qed.

(** X5 at Anthropic with a model of the user's. *)
Lemma external_request_as_configured_witness :
  emitted (tryExternalApi (lit "add auth") (lit "Be terse."))
    MoreScenarios.anthropicEnv Scenario.emptyState =
  [ EvCall ExternalClient;
    EvFetch anthropic
      {| req_url := lit "https://api.anthropic.com/v1/messages";
         req_key := lit "sk-ant-test";
         req_model := lit "claude-3-haiku";
         req_system := lit "Be terse.";
         req_user := lit "add auth" |} ].
Proof.
  apply (external_request_as_configured (lit "add auth") (lit "Be terse.")
           MoreScenarios.anthropicEnv Scenario.emptyState).
  vm_compute. discriminate.
Defined.

(** X6.  Transport failures of the external client come back as data,
    behind the name of the configured provider: a fault of [fetch] with its
    message, and a response that is not ok with its status code and its
    body text. *)
Theorem transport_errors_are_reported (input prompt : jsstring)
    (e : Env) (s : State) :
  configuredKey (config e) <> [] ->
  (forall message,
      responseHead e (configuredProvider (config e))
        (externalRequest (config e) input prompt) = Throw message ->
      fst (tryExternalApi input prompt e s) =
        Ok (Failure (provider_name (configuredProvider (config e))
                     ++ lit " API error: " ++ message)))
  /\ (forall status body,
        responseHead e (configuredProvider (config e))
          (externalRequest (config e) input prompt) = Ok (false, status, Ok body) ->
        fst (tryExternalApi input prompt e s) =
          Ok (Failure (provider_name (configuredProvider (config e))
                       ++ lit " API error: " ++ lit "HTTP " ++ ofN status
                       ++ lit ": " ++ body))).
Proof.
  unfold responseHead, externalRequest, configuredModel, configuredProvider,
    configuredKey, http_error.
  enter_client. unfold http_error.
  destruct (apiKey (config e)) as [[|k0 k]|]; try (intros Hkey; now elim Hkey).
  intros _. cbn [truthy negb].
  destruct (apiProvider (config e)) as [[]|].
  - destruct (fetch_openai e _) as [response|msg]; split.
    + discriminate.
    + intros status body [= Hok Hstatus Htext].
      rewrite Hok, Htext, Hstatus. reflexivity.
    + now intros message [= ->].
    + discriminate.
  - destruct (fetch_anthropic e _) as [response|msg]; split.
    + discriminate.
    + intros status body [= Hok Hstatus Htext].
      rewrite Hok, Htext, Hstatus. reflexivity.
    + now intros message [= ->].
    + discriminate.
  - destruct (fetch_openai e _) as [response|msg]; split.
    + discriminate.
    + intros status body [= Hok Hstatus Htext].
      rewrite Hok, Htext, Hstatus. reflexivity.
    + now intros message [= ->].
    + discriminate.
Qed.

(** X6 at a refused key (401) and at an unreachable endpoint. *)
Lemma transport_errors_are_reported_witness :
  fst (tryExternalApi (lit "add auth") SYSTEM_PROMPT
         Scenario.refusedKeyEnv Scenario.emptyState)
    = Ok (Failure (lit "openai" ++ lit " API error: " ++ lit "HTTP " ++ ofN 401
                   ++ lit ": " ++ lit "Unauthorized"))
  /\ fst (tryExternalApi (lit "add auth") SYSTEM_PROMPT
            (Scenario.withConfig (Scenario.withKey (lit "sk-test") Scenario.defaultConfig)
               Scenario.quietEnv)
            Scenario.emptyState)
       = Ok (Failure (lit "openai" ++ lit " API error: " ++ lit "fetch failed")).
Proof.
  split.
  - apply (proj2 (transport_errors_are_reported (lit "add auth") SYSTEM_PROMPT
                    Scenario.refusedKeyEnv Scenario.emptyState
                    ltac:(vm_compute; discriminate))
             401 (lit "Unauthorized")).
    reflexivity.
  - apply (proj1 (transport_errors_are_reported (lit "add auth") SYSTEM_PROMPT
                    (Scenario.withConfig
                       (Scenario.withKey (lit "sk-test") Scenario.defaultConfig)
                       Scenario.quietEnv)
                    Scenario.emptyState
                    ltac:(vm_compute; discriminate))
             (lit "fetch failed")).
    reflexivity.
Defined.

Ltac close_emitted :=
  cbn [fst snd trace negb]; split; [reflexivity|];
  rewrite <- ?app_assoc; cbn [app]; now rewrite drop_app_length.

(** X7.  The host-model client asks for the models of family gpt-4o
    first and for all models only when that list is empty; it sends its one
    request, the system prompt and the input under one user message, to
    the first model of the list it got, and what that model answers decides
    the result.  Without the API, or with both lists empty, it fails
    without sending a request. *)
Theorem host_model_selection (input prompt : jsstring)
    (tok : option CancellationToken) (e : Env) (s : State) :
  (lm e = None ->
   fst (tryVscodeLm input prompt tok e s)
     = Ok (Failure (lit "vscode.lm API not available"))
   /\ emitted (tryVscodeLm input prompt tok) e s = [EvCall HostModelClient])
  /\ (forall api,
        lm e = Some api ->
        selectChatModels api (Some (lit "gpt-4o")) = Ok [] ->
        selectChatModels api None = Ok [] ->
        fst (tryVscodeLm input prompt tok e s)
          = Ok (Failure (lit "No language models available via vscode.lm"))
        /\ emitted (tryVscodeLm input prompt tok) e s
           = [EvCall HostModelClient; EvSelectChatModels (Some (lit "gpt-4o"));
              EvSelectChatModels None])
  /\ (forall api m rest,
        lm e = Some api ->
        selectChatModels api (Some (lit "gpt-4o")) = Ok (m :: rest) ->
        fst (tryVscodeLm input prompt tok e s)
          = Ok (hostOutcome (sendRequest m (lm_prompt prompt input)
                               (observedCancel tok e s)))
        /\ emitted (tryVscodeLm input prompt tok) e s
           = [EvCall HostModelClient; EvSelectChatModels (Some (lit "gpt-4o"));
              EvSendRequest (lm_prompt prompt input)])
  /\ (forall api m rest,
        lm e = Some api ->
        selectChatModels api (Some (lit "gpt-4o")) = Ok [] ->
        selectChatModels api None = Ok (m :: rest) ->
        fst (tryVscodeLm input prompt tok e s)
          = Ok (hostOutcome (sendRequest m (lm_prompt prompt input)
                               (observedCancel tok e s)))
        /\ emitted (tryVscodeLm input prompt tok) e s
           = [EvCall HostModelClient; EvSelectChatModels (Some (lit "gpt-4o"));
              EvSelectChatModels None; EvSendRequest (lm_prompt prompt input)]).
Proof.
  split; [|split; [|split]].
  - intros Hlm. unfold emitted. enter_client. rewrite Hlm. close_emitted.
  - intros api Hlm Hfamily Hany. unfold emitted. enter_client.
    rewrite Hlm, Hfamily. cbn [length Nat.eqb]. rewrite Hany. close_emitted.
  - intros api m rest Hlm Hfamily.
    unfold emitted, hostOutcome, observedCancel. enter_client.
    rewrite Hlm, Hfamily. cbn [length Nat.eqb].
    destruct tok as [[]|]; cbn [tokenCancelled];
      (destruct (sendRequest m _ _) as [stream|msg];
       [destruct (collect stream []) as [result|msg];
        [destruct (truthy (trim result))|]|]); close_emitted.
  - intros api m rest Hlm Hfamily Hany.
    unfold emitted, hostOutcome, observedCancel. enter_client.
    rewrite Hlm, Hfamily. cbn [length Nat.eqb]. rewrite Hany.
    destruct tok as [[]|]; cbn [tokenCancelled];
      (destruct (sendRequest m _ _) as [stream|msg];
       [destruct (collect stream []) as [result|msg];
        [destruct (truthy (trim result))|]|]); close_emitted.
Qed.

(** X7 at a host with one model, and at a host with none. *)
Lemma host_model_selection_witness :
  (fst (tryVscodeLm (lit "yo fix this api") SYSTEM_PROMPT None
          Scenario.hostEnv Scenario.emptyState)
     = Ok (Success (lit "Investigate and resolve the reported API issue.") vscode_lm)
   /\ emitted (tryVscodeLm (lit "yo fix this api") SYSTEM_PROMPT None)
        Scenario.hostEnv Scenario.emptyState
      = [EvCall HostModelClient; EvSelectChatModels (Some (lit "gpt-4o"));
         EvSendRequest (lm_prompt SYSTEM_PROMPT (lit "yo fix this api"))])
  /\ (fst (tryVscodeLm (lit "yo fix this api") SYSTEM_PROMPT None
             MoreScenarios.noModelEnv Scenario.emptyState)
        = Ok (Failure (lit "No language models available via vscode.lm"))
      /\ emitted (tryVscodeLm (lit "yo fix this api") SYSTEM_PROMPT None)
           MoreScenarios.noModelEnv Scenario.emptyState
         = [EvCall HostModelClient; EvSelectChatModels (Some (lit "gpt-4o"));
            EvSelectChatModels None]).
Proof.
  split.
  - exact (proj1 (proj2 (proj2
             (host_model_selection (lit "yo fix this api") SYSTEM_PROMPT None
                Scenario.hostEnv Scenario.emptyState)))
             _ _ [] eq_refl eq_refl).
  - exact (proj1 (proj2
             (host_model_selection (lit "yo fix this api") SYSTEM_PROMPT None
                MoreScenarios.noModelEnv Scenario.emptyState))
             _ eq_refl eq_refl eq_refl).
Defined.

Lemma collect_chunks stream acc :
  endsWell stream = true -> collect stream acc = Ok (acc ++ concat (chunksOf stream)).
Proof.
  revert acc. induction stream as [|chunk rest IH|message]; intros acc Hend.
  - cbn. now rewrite app_nil_r.
  - cbn in *. rewrite IH by exact Hend. now rewrite <- app_assoc.
  - discriminate.
Qed.

Lemma collect_fault stream acc :
  endsWell stream = false -> exists message, collect stream acc = Throw message.
Proof.
  revert acc. induction stream as [|chunk rest IH|message]; intros acc Hend.
  - discriminate.
  - cbn in *. now apply IH.
  - now exists message.
Qed.

(** X8.  The text of the host-model client is the concatenation of all
    the chunks of the stream, in order, trimmed; when that is empty the
    client fails with the empty-response reason.  When the stream breaks,
    the chunks received so far are dropped and the client fails with the
    fault of the stream. *)
Theorem host_stream_accumulation (input prompt : jsstring)
    (tok : option CancellationToken) (e : Env) (s : State)
    (api : LmApi) (m : ChatModel) (rest : list ChatModel) (stream : LmStream) :
  lm e = Some api ->
  selectChatModels api (Some (lit "gpt-4o")) = Ok (m :: rest) ->
  sendRequest m (lm_prompt prompt input) (observedCancel tok e s) = Ok stream ->
  (endsWell stream = true ->
   fst (tryVscodeLm input prompt tok e s) =
     Ok (if truthy (trim (concat (chunksOf stream)))
         then Success (trim (concat (chunksOf stream))) vscode_lm
         else Failure (lit "Empty response from vscode.lm")))
  /\ (endsWell stream = false ->
      exists message,
        collect stream [] = Throw message
        /\ fst (tryVscodeLm input prompt tok e s) =
             Ok (Failure (lit "vscode.lm error: " ++ message))).
Proof.
  intros Hlm Hfamily Hsend.
  assert (Hrun : fst (tryVscodeLm input prompt tok e s) = Ok (hostOutcome (Ok stream))).
  { unfold hostOutcome, observedCancel in *. enter_client.
    rewrite Hlm, Hfamily. cbn [length Nat.eqb].
    destruct tok as [[]|]; cbn [tokenCancelled]; rewrite Hsend;
      (destruct (collect stream []) as [result|msg];
       [destruct (truthy (trim result))|]); reflexivity. }
  rewrite Hrun. unfold hostOutcome. split.
  - intros Hend. rewrite (collect_chunks stream [] Hend). cbn [app].
    now destruct (truthy (trim (concat (chunksOf stream)))).
  - intros Hend. destruct (collect_fault stream [] Hend) as (message & Hfault).
    exists message. now rewrite Hfault.
Qed.

(** X8 at a stream of two chunks and at a stream that breaks after one. *)
Lemma host_stream_accumulation_witness :
  fst (tryVscodeLm (lit "yo fix this api") SYSTEM_PROMPT None
         Scenario.hostEnv Scenario.emptyState)
    = Ok (if truthy (trim (concat [lit " Investigate and resolve ";
                                   lit "the reported API issue. "]))
          then Success (trim (concat [lit " Investigate and resolve ";
                                      lit "the reported API issue. "])) vscode_lm
          else Failure (lit "Empty response from vscode.lm"))
  /\ exists message,
       collect (StreamChunk (lit "Investig") (StreamThrow (lit "socket hang up"))) []
         = Throw message
       /\ fst (tryVscodeLm (lit "yo fix this api") SYSTEM_PROMPT None
                 MoreScenarios.brokenStreamEnv Scenario.emptyState)
            = Ok (Failure (lit "vscode.lm error: " ++ message)).
Proof.
  split.
  - exact (proj1 (host_stream_accumulation (lit "yo fix this api") SYSTEM_PROMPT None
                    Scenario.hostEnv Scenario.emptyState _ _ [] _
                    eq_refl eq_refl eq_refl) eq_refl).
  - exact (proj2 (host_stream_accumulation (lit "yo fix this api") SYSTEM_PROMPT None
                    MoreScenarios.brokenStreamEnv Scenario.emptyState _ _ [] _
                    eq_refl eq_refl eq_refl) eq_refl).
Defined.

(* ===================================================================== *)
(** ** extension.ts: further properties *)
(* ===================================================================== *)

Lemma countEvents_app P evs evs' :
  countEvents P (evs ++ evs') = (countEvents P evs + countEvents P evs')%nat.
Proof. unfold countEvents. now rewrite List.filter_app, length_app. Qed.

Lemma countEvents_none P evs :
  Forall (fun ev => P ev = false) evs -> countEvents P evs = 0%nat.
Proof.
  unfold countEvents. induction 1 as [|ev l Hev _ IH]; [reflexivity|].
  cbn. now rewrite Hev.
Qed.

(** X9.  When the upscale fails and the invocation is not cancelled,
    [performUpscale] shows one error message, the reason behind "GIGO: ",
    opens the settings exactly when the user chooses that button, and
    leaves the history and the clipboard as they were. *)
Theorem failed_upscale_reports_error (inputText : jsstring)
    (editorContext : option Editor) (isClipboardMode : bool)
    (e : Env) (s : State) (error : jsstring) :
  fst (upscalePrompt inputText (Some progressToken) e (freshToken s))
    = Ok (Failure error) ->
  tokenCancelled
    (snd (upscalePrompt inputText (Some progressToken) e (freshToken s))) = false ->
  fst (performUpscale inputText editorContext isClipboardMode e s) = Ok tt
  /\ (exists before,
        emitted (performUpscale inputText editorContext isClipboardMode) e s =
          (EvCall HostModelClient :: before)
          ++ EvShowErrorMessage (lit "GIGO: " ++ error)
          :: match messageAnswer e with
             | Some OpenSettings => [EvOpenSettings]
             | _ => []
             end
        /\ Forall (fun ev => is_provider_event ev = true) before)
  /\ globalState (snd (performUpscale inputText editorContext isClipboardMode e s))
       = globalState s
  /\ clipboard (snd (performUpscale inputText editorContext isClipboardMode e s))
       = clipboard s.
Proof.
  intros Hfst Hc.
  destruct (upscalePrompt_run inputText (Some progressToken) e (freshToken s))
    as (r & before & c & Hrun & Hbefore & _ & _).
  rewrite Hrun in Hfst, Hc. cbn [fst snd advance tokenCancelled] in Hfst, Hc.
  injection Hfst as ->. subst c.
  assert (Hperform :
            performUpscale inputText editorContext isClipboardMode e s =
            (Ok tt,
             advance (freshToken s)
               ((EvCall HostModelClient :: before)
                ++ EvShowErrorMessage (lit "GIGO: " ++ error)
                :: match messageAnswer e with
                   | Some OpenSettings => [EvOpenSettings]
                   | _ => []
                   end) false)).
  { enter_performUpscale. rewrite Hrun. cbn [advance tokenCancelled].
    cbv beta iota delta [showErrorMessage answer openSettings emit bind modify
                         ret asks].
    unfold advance.
    destruct (messageAnswer e) as [[]|]; cbn; rewrite <- ?app_assoc; reflexivity. }
  rewrite (emitted_of_trace _ e s _ (f_equal (fun x => trace (snd x)) Hperform)).
  rewrite Hperform. cbn [fst snd advance freshToken globalState clipboard].
  repeat split. exists before. now split.
Qed.

(** X9 with neither a host model nor an API key, the user choosing
    'Open Settings'. *)
Lemma failed_upscale_reports_error_witness :
  fst (performUpscale (lit "add auth") None false
         (MoreScenarios.withAnswer OpenSettings Scenario.quietEnv) Scenario.emptyState)
    = Ok tt
  /\ exists before,
       emitted (performUpscale (lit "add auth") None false)
         (MoreScenarios.withAnswer OpenSettings Scenario.quietEnv) Scenario.emptyState
       = (EvCall HostModelClient :: before)
         ++ [ EvShowErrorMessage
                (lit "GIGO: "
                 ++ aggregate (lit "vscode.lm API not available")
                      (lit "No API key configured. Set gigo.apiKey in settings."));
              EvOpenSettings ]
       /\ Forall (fun ev => is_provider_event ev = true) before.
Proof.
  destruct (failed_upscale_reports_error (lit "add auth") None false
              (MoreScenarios.withAnswer OpenSettings Scenario.quietEnv)
              Scenario.emptyState
              (aggregate (lit "vscode.lm API not available")
                 (lit "No API key configured. Set gigo.apiKey in settings.")))
    as (Hok & Hevents & _).
  - vm_compute. reflexivity.
  - vm_compute. reflexivity.
  - split; [exact Hok | exact Hevents].
Defined.

(** X10.  In a successful [performUpscale] that is not cancelled, under
    a non-negative size and a working store, the history is updated
    exactly once, and the events of the invocation are in this order:
    first the calls of the provider clients, at least one and nothing
    but them (so no write of any kind); then the one history update;
    immediately after it the write to the destination, the editor
    replacement or the clipboard write; and after that neither a
    provider call nor a history update. *)
Theorem history_insert_precedes_write (inputText : jsstring)
    (editorContext : option Editor) (isClipboardMode : bool)
    (e : Env) (s : State) (text : jsstring) (source : Source) :
  fst (upscalePrompt inputText (Some progressToken) e (freshToken s))
    = Ok (Success text source) ->
  tokenCancelled
    (snd (upscalePrompt inputText (Some progressToken) e (freshToken s))) = false ->
  (0 <= configuredSize e)%Z -> updateRejects e = None ->
  countEvents is_update
    (emitted (performUpscale inputText editorContext isClipboardMode) e s) = 1%nat
  /\ exists before h after,
       emitted (performUpscale inputText editorContext isClipboardMode) e s =
         before ++ EvGlobalStateUpdate h :: destinationWrite editorContext text :: after
       /\ before <> []
       /\ Forall (fun ev => is_provider_event ev = true) before
       /\ Forall (fun ev => is_write ev = false) before
       /\ Forall (fun ev => is_provider_event ev = false) after
       /\ Forall (fun ev => is_update ev = false) after.
Proof.
  intros Hfst Hc Hsize Hstore.
  destruct (performUpscale_success_emitted inputText editorContext isClipboardMode
              e s text source Hfst Hc Hsize Hstore)
    as (before & after & _ & Hemitted & _ & Hbefore & Hafter).
  assert (Hp : Forall (fun ev => is_provider_event ev = true)
                      (EvCall HostModelClient :: before)) by now constructor.
  assert (Hb : Forall (fun ev => is_write ev = false) (EvCall HostModelClient :: before)).
  { eapply Forall_impl; [exact Hp|]. now intros []. }
  assert (Hquiet : Forall (fun ev => is_provider_event ev = false) after).
  { eapply Forall_impl; [exact Hafter|]. now intros ev [? _]. }
  assert (Ha : Forall (fun ev => is_update ev = false) after).
  { eapply Forall_impl; [exact Hafter|]. now intros ev [_ ?]. }
  rewrite Hemitted. split.
  - rewrite countEvents_app, (countEvents_none is_update (EvCall HostModelClient :: before)).
    + change (S (countEvents is_update (destinationWrite editorContext text :: after)) = 1%nat).
      f_equal. change (destinationWrite editorContext text :: after)
        with ([destinationWrite editorContext text] ++ after).
      rewrite countEvents_app, (countEvents_none _ _ Ha).
      now destruct editorContext.
    + eapply Forall_impl; [exact Hb|]. now intros [].
  - eexists _, _, after. split; [reflexivity|].
    split; [discriminate|]. now repeat split.
Qed.

(** X10 at a selection the host model upscales. *)
Lemma history_insert_precedes_write_witness :
  countEvents is_update
    (emitted (performUpscale (lit "  yo fix this api ")
                (Some {| selectedText := lit "  yo fix this api " |}) false)
       Scenario.selectionEnv Scenario.emptyState) = 1%nat.
Proof.
  apply (history_insert_precedes_write (lit "  yo fix this api ")
           (Some {| selectedText := lit "  yo fix this api " |}) false
           Scenario.selectionEnv Scenario.emptyState
           (lit "Investigate and resolve the reported API issue.") vscode_lm).
  - vm_compute. reflexivity.
  - vm_compute. reflexivity.
  - vm_compute. discriminate.
  - reflexivity.
Defined.

Ltac finish_performUpscale :=
  cbv beta iota delta [editor_replace clipboard_writeText showInformationMessage
                       showErrorMessage answer openTextDocument openSettings
                       emit bind modify ret asks];
  cbn [trace tokenCancelled clipboard globalState ticks].

(** X11.  Where the clipboard ends after a successful upscale that is not
    cancelled: in selection mode it is left alone; in input-box mode it
    holds the upscaled text; in clipboard mode it holds the upscaled text,
    unless the user chooses 'View Original', which writes the input text
    back over it. *)
Theorem clipboard_after_upscale (inputText : jsstring) (e : Env) (s : State)
    (text : jsstring) (source : Source) :
  fst (upscalePrompt inputText (Some progressToken) e (freshToken s))
    = Ok (Success text source) ->
  tokenCancelled
    (snd (upscalePrompt inputText (Some progressToken) e (freshToken s))) = false ->
  (0 <= configuredSize e)%Z -> updateRejects e = None ->
  (forall editor isClipboardMode,
      clipboard (snd (performUpscale inputText (Some editor) isClipboardMode e s))
        = clipboard s)
  /\ clipboard (snd (performUpscale inputText None false e s)) = text
  /\ clipboard (snd (performUpscale inputText None true e s))
       = match messageAnswer e with
         | Some ViewOriginal => inputText
         | _ => text
         end
  /\ (messageAnswer e = Some ViewOriginal ->
      countEvents (fun ev => match ev with EvClipboardWrite _ => true | _ => false end)
        (emitted (performUpscale inputText None true) e s) = 2%nat).
Proof.
  intros Hfst Hc Hsize Hstore.
  destruct (upscalePrompt_run inputText (Some progressToken) e (freshToken s))
    as (r & before & c & Hrun & Hbefore & _ & _).
  rewrite Hrun in Hfst, Hc. cbn [fst snd advance tokenCancelled] in Hfst, Hc.
  injection Hfst as ->. subst c.
  split; [|split; [|split]].
  - intros editor isClipboardMode. enter_performUpscale. rewrite Hrun.
    cbn [advance tokenCancelled]. rewrite addToHistory_run by assumption.
    finish_performUpscale. reflexivity.
  - enter_performUpscale. rewrite Hrun.
    cbn [advance tokenCancelled]. rewrite addToHistory_run by assumption.
    finish_performUpscale. now destruct (messageAnswer e) as [[]|].
  - enter_performUpscale. rewrite Hrun.
    cbn [advance tokenCancelled]. rewrite addToHistory_run by assumption.
    finish_performUpscale. now destruct (messageAnswer e) as [[]|].
  - intros Hanswer. unfold emitted. enter_performUpscale. rewrite Hrun.
    cbn [advance tokenCancelled]. rewrite addToHistory_run by assumption.
    finish_performUpscale. rewrite Hanswer.
    cbn [existsb action_eqb orb snd trace freshToken advance].
    rewrite <- !app_assoc, drop_app_length.
    change (EvCall HostModelClient :: before)
      with ([EvCall HostModelClient] ++ before).
    rewrite <- !app_assoc, !countEvents_app.
    rewrite (countEvents_none _ before).
    + reflexivity.
    + eapply Forall_impl; [exact Hbefore|]. now intros [].
Qed.

(** X11 in clipboard mode, the user choosing 'View Original'. *)
Lemma clipboard_after_upscale_witness :
  clipboard (snd (performUpscale (lit "refactor this") None true
                    (MoreScenarios.withAnswer ViewOriginal Scenario.hostEnv)
                    Scenario.clipboardState))
  = lit "refactor this"
  /\ countEvents (fun ev => match ev with EvClipboardWrite _ => true | _ => false end)
       (emitted (performUpscale (lit "refactor this") None true)
          (MoreScenarios.withAnswer ViewOriginal Scenario.hostEnv)
          Scenario.clipboardState) = 2%nat.
Proof.
  destruct (clipboard_after_upscale (lit "refactor this")
              (MoreScenarios.withAnswer ViewOriginal Scenario.hostEnv)
              Scenario.clipboardState
              (lit "Investigate and resolve the reported API issue.") vscode_lm)
    as (_ & _ & Hclip & Hcount).
  - vm_compute. reflexivity.
  - vm_compute. reflexivity.
  - vm_compute. discriminate.
  - reflexivity.
  - split; [exact Hclip | exact (Hcount eq_refl)].
Defined.

Lemma addToHistory_clipboard o u e s :
  clipboard (snd (addToHistory o u e s)) = clipboard s.
Proof.
  unfold addToHistory, bind. rewrite getHistory_run, getHistorySize_run.
  unfold dateNow, globalState_update, mutated, set_length, bind, settle, ret,
    emit, modify, asks.
  cbn [fst snd length].
  destruct (Z.of_nat _ >? _)%Z; [destruct (_ <? 0)%Z|];
    cbn [fst snd clipboard]; try reflexivity;
    destruct (updateRejects e); reflexivity.
Qed.

(** X12.  When the history insertion faults after a successful upscale,
    because the size setting is negative or because the store rejects the
    update, [performUpscale] ends in that fault and the upscaled text
    reaches no destination: no editor edit, no clipboard write, and the
    clipboard is as before.  The history is not as before.  Under a
    negative size no update of the store is called, but the entry was
    already put in front of the array, which is the stored log when there
    is one: the store holds the log with the new entry in front, uncut,
    and stays empty when it was empty.  Under a rejected update the store
    has the new log, entry in front and cut to the size, as its value in
    memory. *)
Theorem insertion_fault_loses_the_result (inputText : jsstring)
    (editorContext : option Editor) (isClipboardMode : bool)
    (e : Env) (s : State) (text : jsstring) (source : Source) :
  fst (upscalePrompt inputText (Some progressToken) e (freshToken s))
    = Ok (Success text source) ->
  tokenCancelled
    (snd (upscalePrompt inputText (Some progressToken) e (freshToken s))) = false ->
  ((configuredSize e < 0)%Z ->
   fst (performUpscale inputText editorContext isClipboardMode e s)
     = Throw (lit "Invalid array length")
   /\ Forall (fun ev => is_write ev = false)
        (emitted (performUpscale inputText editorContext isClipboardMode) e s)
   /\ globalState (snd (performUpscale inputText editorContext isClipboardMode e s))
        = option_map (cons (newEntry e (ticks s) inputText text)) (globalState s)
   /\ clipboard (snd (performUpscale inputText editorContext isClipboardMode e s))
        = clipboard s)
  /\ (forall message,
        (0 <= configuredSize e)%Z -> updateRejects e = Some message ->
        fst (performUpscale inputText editorContext isClipboardMode e s)
          = Throw message
        /\ Forall (fun ev => match ev with
                             | EvClipboardWrite _ | EvEditorReplace _
                             | EvEditorInsert _ => False
                             | _ => True
                             end)
             (emitted (performUpscale inputText editorContext isClipboardMode) e s)
        /\ globalState (snd (performUpscale inputText editorContext isClipboardMode e s))
             = Some (take (Z.to_nat (configuredSize e))
                          (newEntry e (ticks s) inputText text :: list_history s))
        /\ clipboard (snd (performUpscale inputText editorContext isClipboardMode e s))
             = clipboard s).
Proof.
  intros Hfst Hc.
  destruct (upscalePrompt_run inputText (Some progressToken) e (freshToken s))
    as (r & before & c & Hrun & Hbefore & _ & _).
  rewrite Hrun in Hfst, Hc. cbn [fst snd advance tokenCancelled] in Hfst, Hc.
  injection Hfst as ->. subst c.
  split.
  - intros Hsize. unfold emitted. enter_performUpscale. rewrite Hrun.
    cbn [advance tokenCancelled]. rewrite addToHistory_negative by assumption.
    cbn [fst snd trace globalState clipboard freshToken advance].
    rewrite drop_app_length. repeat split.
    constructor; [reflexivity|].
    eapply Forall_impl; [exact Hbefore|]. now intros [].
  - intros message Hsize Hstore. unfold emitted. enter_performUpscale. rewrite Hrun.
    cbn [advance tokenCancelled].
    match goal with
    | |- context [addToHistory inputText text e ?s1] =>
      pose proof (addToHistory_rejected inputText text e s1 message Hsize Hstore)
        as (Hthrow & Hstate);
      pose proof (addToHistory_clipboard inputText text e s1) as Hclip;
      pose proof (traces_addToHistory is_update inputText text
                    ltac:(reflexivity) e s1) as (evs & Htrace & Hevs);
      destruct (addToHistory inputText text e s1) as [[[]|msg] s2] eqn:Hadd
    end; cbn [fst snd] in *; [discriminate|].
    injection Hthrow as ->.
    cbn [trace globalState clipboard freshToken advance] in *.
    rewrite Htrace, Hstate, <- app_assoc, drop_app_length.
    repeat split.
    + constructor; [exact I|]. apply Forall_app. split.
      * eapply Forall_impl; [exact Hbefore|]. now intros [].
      * eapply Forall_impl; [exact Hevs|]. now intros [].
    + exact Hclip.
Qed.

(** X12 over a stored log of two entries, at a size set to -1 and at a
    store that rejects the update: the clipboard keeps the input, and the
    store has three entries after either fault. *)
Lemma insertion_fault_loses_the_result_witness :
  fst (performUpscale (lit "refactor this") None true
         (Scenario.withConfig (Scenario.withHistorySize (-1) Scenario.defaultConfig)
            Scenario.hostEnv)
         (MoreScenarios.withHistory MoreScenarios.twoEntries Scenario.clipboardState))
    = Throw (lit "Invalid array length")
  /\ clipboard (snd (performUpscale (lit "refactor this") None true
                       (Scenario.withConfig
                          (Scenario.withHistorySize (-1) Scenario.defaultConfig)
                          Scenario.hostEnv)
                       (MoreScenarios.withHistory MoreScenarios.twoEntries
                          Scenario.clipboardState)))
     = lit "refactor this"
  /\ option_map (map original)
       (globalState
          (snd (performUpscale (lit "refactor this") None true
                  (Scenario.withConfig
                     (Scenario.withHistorySize (-1) Scenario.defaultConfig)
                     Scenario.hostEnv)
                  (MoreScenarios.withHistory MoreScenarios.twoEntries
                     Scenario.clipboardState))))
     = Some [lit "refactor this"; lit "fix teh bug"; lit "add auth"]
  /\ fst (performUpscale (lit "refactor this") None true
            (MoreScenarios.withRejectingStore (lit "disk full") Scenario.hostEnv)
            (MoreScenarios.withHistory MoreScenarios.twoEntries Scenario.clipboardState))
     = Throw (lit "disk full")
  /\ option_map (map original)
       (globalState
          (snd (performUpscale (lit "refactor this") None true
                  (MoreScenarios.withRejectingStore (lit "disk full") Scenario.hostEnv)
                  (MoreScenarios.withHistory MoreScenarios.twoEntries
                     Scenario.clipboardState))))
     = Some [lit "refactor this"; lit "fix teh bug"; lit "add auth"].
Proof.
  pose proof (insertion_fault_loses_the_result (lit "refactor this") None true
                (Scenario.withConfig
                   (Scenario.withHistorySize (-1) Scenario.defaultConfig)
                   Scenario.hostEnv)
                (MoreScenarios.withHistory MoreScenarios.twoEntries
                   Scenario.clipboardState)
                (lit "Investigate and resolve the reported API issue.") vscode_lm
                ltac:(vm_compute; reflexivity) ltac:(vm_compute; reflexivity)) as H1.
  pose proof (insertion_fault_loses_the_result (lit "refactor this") None true
                (MoreScenarios.withRejectingStore (lit "disk full") Scenario.hostEnv)
                (MoreScenarios.withHistory MoreScenarios.twoEntries
                   Scenario.clipboardState)
                (lit "Investigate and resolve the reported API issue.") vscode_lm
                ltac:(vm_compute; reflexivity) ltac:(vm_compute; reflexivity)) as H2.
  destruct (proj1 H1 ltac:(vm_compute; reflexivity))
    as (Hthrow & _ & Hkept & Hclip).
  destruct (proj2 H2 (lit "disk full") ltac:(vm_compute; discriminate) eq_refl)
    as (Hreject & _ & Hmemory & _).
  split; [exact Hthrow|]. split; [exact Hclip|].
  split; [rewrite Hkept; reflexivity|].
  split; [exact Hreject|]. rewrite Hmemory. reflexivity.
Defined.

Ltac enter_restore :=
  cbv beta iota zeta delta
    [executeRestoreOriginal getHistory showQuickPick editor_replace editor_insert
     clipboard_writeText showInformationMessage answer openTextDocument
     emit bind modify ret asks gets throw].

(** X13.  Restoring never changes the persisted history and never calls
    a provider, and it writes at most once, to one destination.  With an
    empty history it only says so; when the picker is dismissed it writes
    nothing. *)
Theorem restore_only_reads_history (e : Env) (s : State) :
  globalState (snd (executeRestoreOriginal e s)) = globalState s
  /\ Forall (fun ev => is_provider_event ev = false /\ is_update ev = false)
       (emitted executeRestoreOriginal e s)
  /\ (countEvents is_write (emitted executeRestoreOriginal e s) <= 1)%nat
  /\ (list_history s = [] ->
      executeRestoreOriginal e s =
        (Ok tt, advance s [EvShowInformationMessage (lit "GIGO: No history available")]
                        (tokenCancelled s)))
  /\ (list_history s <> [] -> quickPickAnswer e = None ->
      executeRestoreOriginal e s =
        (Ok tt, advance s [EvShowQuickPick (length (list_history s))]
                        (tokenCancelled s))).
Proof.
  unfold emitted, list_history, countEvents, advance. enter_restore.
  destruct (globalState s) as [[|x h]|] eqn:Hstate; cbn [length Nat.eqb];
    try (cbn [snd fst trace globalState]; rewrite drop_app_length;
         repeat split; try (repeat constructor; fail); try (cbn; lia);
         try congruence; fail).
  all: destruct (quickPickAnswer e) as [i|];
    [ destruct (i <? S (length h))%nat;
      [ destruct ((x :: h) !! i) as [entry|];
        [ destruct (activeTextEditor e) as [editor|];
          [ destruct (truthy (selectedText editor))
          | destruct (messageAnswer e) as [[]|] ]
        | ]
      | ]
    | ];
    cbn [snd fst trace globalState existsb action_eqb orb];
    rewrite <- ?app_assoc; cbn [app]; rewrite drop_app_length;
    repeat split; try (repeat constructor; fail); try (cbn; lia);
    try congruence; try discriminate.
Qed.

(** X13 at an empty history and at a dismissed picker. *)
Lemma restore_only_reads_history_witness :
  executeRestoreOriginal Scenario.quietEnv Scenario.emptyState =
    (Ok tt, advance Scenario.emptyState
              [EvShowInformationMessage (lit "GIGO: No history available")] false)
  /\ executeRestoreOriginal Scenario.quietEnv
       (MoreScenarios.withHistory MoreScenarios.twoEntries Scenario.emptyState) =
     (Ok tt, advance (MoreScenarios.withHistory MoreScenarios.twoEntries
                        Scenario.emptyState)
               [EvShowQuickPick 2] false).
Proof.
  split.
  - exact (proj1 (proj2 (proj2 (proj2
             (restore_only_reads_history Scenario.quietEnv Scenario.emptyState))))
             eq_refl).
  - exact (proj2 (proj2 (proj2 (proj2
             (restore_only_reads_history Scenario.quietEnv
                (MoreScenarios.withHistory MoreScenarios.twoEntries
                   Scenario.emptyState)))))
             ltac:(discriminate) eq_refl).
Defined.

(** X14.  Picking the item of index [i] restores the original text of the
    entry at index [i] of the history, unchanged and exactly once: over
    the selection when the editor has one, at the cursor when it has none,
    and to the clipboard when no editor is open.  Nothing but
    notifications follows the write. *)
Theorem restore_writes_picked_original (e : Env) (s : State) (i : nat)
    (entry : HistoryEntry) :
  list_history s !! i = Some entry -> quickPickAnswer e = Some i ->
  fst (executeRestoreOriginal e s) = Ok tt
  /\ (exists after,
        emitted executeRestoreOriginal e s =
          EvShowQuickPick (length (list_history s))
          :: restoreWrite e (original entry) :: after
        /\ Forall (fun ev => is_restore_ui ev = true) after)
  /\ countEvents is_write (emitted executeRestoreOriginal e s) = 1%nat
  /\ (activeTextEditor e = None ->
      clipboard (snd (executeRestoreOriginal e s)) = original entry)
  /\ (forall editor, activeTextEditor e = Some editor ->
      clipboard (snd (executeRestoreOriginal e s)) = clipboard s).
Proof.
  intros Hentry Hpick.
  assert (Hlt : (i < length (list_history s))%nat) by (eapply lookup_lt_Some, Hentry).
  revert Hentry Hlt.
  unfold emitted, list_history, countEvents, restoreWrite. enter_restore.
  destruct (globalState s) as [[|x h]|]; cbn [length Nat.eqb];
    try (intros _ Hlt; cbn in Hlt; lia).
  intros Hentry Hlt. rewrite Hpick.
  destruct (Nat.ltb_spec i (S (length h))) as [_|Hge]; [|cbn in Hlt; lia].
  rewrite Hentry.
  destruct (activeTextEditor e) as [editor|];
    [ destruct (truthy (selectedText editor))
    | destruct (messageAnswer e) as [[]|] ];
    cbn [snd fst trace clipboard existsb action_eqb orb];
    rewrite <- ?app_assoc; cbn [app]; rewrite drop_app_length;
    (split; [reflexivity|]);
    (split; [eexists; split; [reflexivity | repeat constructor]|]);
    (split; [reflexivity|]);
    (split; [try reflexivity; discriminate | try reflexivity; try discriminate]).
Qed.

(** X14 at the second of two entries, no editor open. *)
Lemma restore_writes_picked_original_witness :
  clipboard (snd (executeRestoreOriginal (Scenario.withPick 1 Scenario.quietEnv)
                    (MoreScenarios.withHistory MoreScenarios.twoEntries
                       Scenario.emptyState)))
  = lit "add auth".
Proof.
  apply (restore_writes_picked_original (Scenario.withPick 1 Scenario.quietEnv)
           (MoreScenarios.withHistory MoreScenarios.twoEntries Scenario.emptyState)
           1 {| original := lit "add auth"; upscaled := lit "Implement authentication.";
                timestamp := 1700000000001 |} eq_refl eq_refl).
  reflexivity.
Defined.

(* ===================================================================== *)
(** ** extension.ts: the preview of the restore picker *)
(* ===================================================================== *)

Lemma replaceRuns_spaces inRun text :
  Forall (fun c => isWhiteSpace c = true -> c = 32) (replaceRuns inRun text).
Proof.
  revert inRun. induction text as [|c rest IH]; intros inRun; cbn [replaceRuns].
  - constructor.
  - destruct (isWhiteSpace c) eqn:Hc.
    + destruct inRun; [apply IH|]. constructor; [reflexivity | apply IH].
    + constructor; [|apply IH]. intros Hw. rewrite Hw in Hc. discriminate.
Qed.

Lemma Forall_trim (P : N -> Prop) s : Forall P s -> Forall P (trim s).
Proof.
  intros Hs. unfold trim.
  destruct (trimStart_split s) as (ws & Heq & _).
  assert (Hstart : Forall P (trimStart s)).
  { rewrite Heq in Hs. now apply Forall_app in Hs. }
  destruct (trimEnd_split (trimStart s)) as (ws' & Heq' & _).
  rewrite Heq' in Hstart. now apply Forall_app in Hstart.
Qed.

Lemma length_slice0 s finish :
  (0 <= finish)%Z -> (Z.of_nat (length (slice0 s finish)) <= finish)%Z.
Proof.
  intros Hpos. unfold slice0.
  destruct (Z.ltb_spec finish 0) as [Hneg|_]; [lia|].
  rewrite length_take. lia.
Qed.

Lemma startsClean_take n s : startsClean s -> startsClean (take n s ++ lit "...").
Proof.
  intros Hs. destruct n as [|n]; [reflexivity|].
  destruct s as [|c r]; [reflexivity|]. exact Hs.
Qed.

(** X15.  A preview is one line: its only whitespace is the plain space,
    and it does not start with one.  For a limit of at least three it is
    at most the limit long.  So the label of a quick-pick item has at most
    60 code units and its detail at most 93. *)
Theorem preview_is_short_one_liner (text : jsstring) (maxLength : Z) :
  (3 <= maxLength)%Z ->
  (Z.of_nat (length (preview text maxLength)) <= maxLength)%Z
  /\ Forall (fun c => isWhiteSpace c = true -> c = 32) (preview text maxLength)
  /\ startsClean (preview text maxLength)
  /\ (forall entry,
        (length (itemLabel entry) <= 60)%nat
        /\ (length (itemDetail entry) <= 93)%nat).
Proof.
  assert (Hbound : forall t n, (3 <= n)%Z ->
                     (Z.of_nat (length (preview t n)) <= n)%Z).
  { intros t n Hn. unfold preview. cbv zeta.
    destruct (Z.leb_spec (Z.of_nat (length (trim (replaceRuns false t)))) n)
      as [Hfits|Hlong]; [exact Hfits|].
    rewrite length_app.
    pose proof (length_slice0 (trim (replaceRuns false t)) (n - 3) ltac:(lia)).
    change (length (lit "...")) with 3%nat. lia. }
  intros Hmax. split; [now apply Hbound|]. split; [|split].
  - unfold preview. cbv zeta.
    assert (Hline : Forall (fun c => isWhiteSpace c = true -> c = 32)
                           (trim (replaceRuns false text)))
      by apply Forall_trim, replaceRuns_spaces.
    destruct (Z.of_nat _ <=? maxLength)%Z; [exact Hline|].
    apply Forall_app. split.
    + unfold slice0. cbv zeta. now apply Forall_take.
    + repeat constructor; intros Hw; vm_compute in Hw; discriminate.
  - unfold preview. cbv zeta.
    destruct (Z.of_nat _ <=? maxLength)%Z; [apply trim_clean|].
    unfold slice0. cbv zeta. apply startsClean_take, trim_clean.
  - intros entry. unfold itemLabel, itemDetail. split.
    + pose proof (Hbound (original entry) 60%Z ltac:(lia)). lia.
    + rewrite length_app. change (length (lit "Upscaled to: ")) with 13%nat.
      pose proof (Hbound (upscaled entry) 80%Z ltac:(lia)). lia.
Qed.

(** X15 at a prompt of three lines and a limit of 20. *)
Lemma preview_is_short_one_liner_witness :
  (3 <= 20)%Z
  /\ (Z.of_nat (length (preview (lit "add auth" ++ nl ++ [9%N] ++ lit "to the   api" ++ nl
                                 ++ lit "and write tests ") 20)) <= 20)%Z.
Proof.
  split; [discriminate|].
  exact (proj1 (preview_is_short_one_liner
                  (lit "add auth" ++ nl ++ [9%N] ++ lit "to the   api" ++ nl
                   ++ lit "and write tests ") 20 ltac:(discriminate))).
Defined.

Example preview_of_three_lines :
  preview (lit "add auth" ++ nl ++ [9] ++ lit "to the   api" ++ nl
           ++ lit "and write tests ") 20
  = lit "add auth to the a...".
Proof. vm_compute. reflexivity. Qed.

(* ===================================================================== *)
(** ** Blank input, single requests, the order of the history *)
(* ===================================================================== *)

Lemma trimStart_nil_iff s :
  trimStart s = [] <-> Forall (fun c => isWhiteSpace c = true) s.
Proof.
  induction s as [|c r IH]; cbn [trimStart].
  - split; [constructor | reflexivity].
  - destruct (isWhiteSpace c) eqn:Hc.
    + rewrite IH. split; [now constructor | now inversion 1].
    + split; [discriminate|]. inversion 1; congruence.
Qed.

Lemma trim_nil_iff s : trim s = [] <-> Forall (fun c => isWhiteSpace c = true) s.
Proof.
  rewrite <- trimStart_nil_iff. unfold trim. split.
  - intros Hnil.
    destruct (trimEnd_split (trimStart s)) as (ws & Heq & Hws).
    rewrite Hnil in Heq. cbn in Heq. subst ws.
    pose proof (trimStart_startsClean s) as Hclean.
    destruct (trimStart s) as [|c r]; [reflexivity|].
    inversion Hws; subst. cbn in Hclean. congruence.
  - now intros ->.
Qed.

Lemma hasText_false_iff t :
  hasText (Some t) = false <-> Forall (fun c => isWhiteSpace c = true) t.
Proof.
  rewrite <- trim_nil_iff. unfold hasText.
  destruct t as [|c r]; [now split|]. cbn [truthy andb].
  destruct (trim (c :: r)) as [|c' r']; cbn; split; congruence.
Qed.

(** X16.  A text counts as input exactly when it holds a code unit that
    is not whitespace.  A clipboard of whitespace only gets the
    empty-clipboard warning and nothing else; without a selection that
    holds text, an input box that is dismissed or answered with whitespace
    only ends the command; in both cases no provider is called and nothing
    is recorded or written. *)
Theorem blank_input_stops_the_command (e : Env) (s : State) :
  (forall t, hasText (Some t) = false <-> Forall (fun c => isWhiteSpace c = true) t)
  /\ (Forall (fun c => isWhiteSpace c = true) (clipboard s) ->
      executeUpscaleClipboard e s =
        (Ok tt, advance s [EvClipboardRead;
                           EvShowWarningMessage (lit "GIGO: Clipboard is empty")]
                        (tokenCancelled s)))
  /\ (hasText (option_map selectedText (activeTextEditor e)) = false ->
      match inputBoxAnswer e with
      | Some t => Forall (fun c => isWhiteSpace c = true) t
      | None => True
      end ->
      executeUpscale e s = (Ok tt, advance s [EvShowInputBox] (tokenCancelled s))).
Proof.
  split; [exact hasText_false_iff|]. split.
  - intros Hblank. apply hasText_false_iff in Hblank.
    cbv beta iota delta [executeUpscaleClipboard clipboard_readText showWarningMessage
                         emit modify bind gets ret].
    cbn [clipboard]. rewrite Hblank. cbn [negb]. unfold advance.
    cbn [trace tokenCancelled clipboard globalState ticks].
    now rewrite <- app_assoc.
  - intros Hsel Hanswer. rewrite (executeUpscale_input_run e s Hsel).
    destruct (inputBoxAnswer e) as [t|]; [|reflexivity].
    apply hasText_false_iff in Hanswer. now rewrite Hanswer.
Qed.

(** X16 at a clipboard of a space, a tab and a line feed. *)
Lemma blank_input_stops_the_command_witness :
  executeUpscaleClipboard Scenario.hostEnv
    (Scenario.withClipboard [32; 9; 10] Scenario.emptyState) =
  (Ok tt, advance (Scenario.withClipboard [32; 9; 10] Scenario.emptyState)
            [EvClipboardRead; EvShowWarningMessage (lit "GIGO: Clipboard is empty")]
            false).
Proof.
  apply (proj1 (proj2 (blank_input_stops_the_command Scenario.hostEnv
                         (Scenario.withClipboard [32; 9; 10] Scenario.emptyState)))).
  repeat constructor.
Defined.

Ltac close_count :=
  cbn [fst snd trace negb]; rewrite <- ?app_assoc; cbn [app];
  rewrite drop_app_length; cbn; lia.

Lemma tryVscodeLm_one_request input prompt tok e s :
  (countEvents is_fetch_or_request (emitted (tryVscodeLm input prompt tok) e s) <= 1)%nat.
Proof.
  unfold emitted, countEvents. enter_client.
  destruct (lm e) as [api|]; [|close_count].
  destruct (selectChatModels api (Some _)) as [[|m rest]|msg]; cbn [length Nat.eqb];
    [ destruct (selectChatModels api None) as [[|m rest]|msg] | | ];
    try close_count.
  all: destruct tok as [[]|]; cbn [tokenCancelled];
    (destruct (sendRequest m _ _) as [stream|msg];
     [destruct (collect stream []) as [result|msg];
      [destruct (truthy (trim result))|]|]); close_count.
Qed.

Lemma tryExternalApi_one_request input prompt e s :
  (countEvents is_fetch_or_request (emitted (tryExternalApi input prompt) e s) <= 1)%nat.
Proof.
  unfold emitted, countEvents. enter_client.
  destruct (apiKey (config e)) as [[|k0 k]|]; cbn [truthy negb]; try close_count.
  destruct (apiProvider (config e)) as [[]|].
  - destruct (fetch_openai e _) as [response|msg]; [|close_count].
    destruct (resp_ok response); cbn [negb];
      [ destruct (resp_json response) as [data|msg];
        [ destruct (openai_content data) as [content|];
          [ destruct (truthy content) | ] | ]
      | destruct (resp_text response) ]; close_count.
  - destruct (fetch_anthropic e _) as [response|msg]; [|close_count].
    destruct (resp_ok response); cbn [negb];
      [ destruct (resp_json response) as [data|msg];
        [ destruct (anthropic_textBlock data) as [block|];
          [ destruct (block_text block) as [content|];
            [ destruct (truthy content) | ] | ] | ]
      | destruct (resp_text response) ]; close_count.
  - destruct (fetch_openai e _) as [response|msg]; [|close_count].
    destruct (resp_ok response); cbn [negb];
      [ destruct (resp_json response) as [data|msg];
        [ destruct (openai_content data) as [content|];
          [ destruct (truthy content) | ] | ]
      | destruct (resp_text response) ]; close_count.
Qed.

(** X17.  No retries: one run of [upscalePrompt] sends at most one request
    to a language model of the host and at most one HTTP request, the
    HTTP request only after the host-model client has failed. *)
Theorem upscale_sends_each_request_once (input : jsstring)
    (tok : option CancellationToken) (e : Env) (s : State) :
  (countEvents (fun ev => match ev with EvSendRequest _ => true | _ => false end)
     (emitted (upscalePrompt input tok) e s) <= 1)%nat
  /\ (countEvents is_fetch_event (emitted (upscalePrompt input tok) e s) <= 1)%nat
  /\ (forall text source,
        fst (hostAttempt input tok e s) = Ok (Success text source) ->
        countEvents is_fetch_event (emitted (upscalePrompt input tok) e s) = 0%nat).
Proof.
  assert (Hsplit : forall evs,
             (countEvents (fun ev => match ev with EvSendRequest _ => true | _ => false end) evs
              <= countEvents is_fetch_or_request evs)%nat
             /\ (countEvents is_fetch_event evs <= countEvents is_fetch_or_request evs)%nat).
  { unfold countEvents. induction evs as [|ev l (IH1 & IH2)]; [split; reflexivity|].
    destruct ev; cbn; split; lia. }
  assert (Hlm0 : forall evs, Forall (fun ev => is_lm_event ev = true) evs ->
                             countEvents is_fetch_event evs = 0%nat).
  { intros evs Hevs. apply countEvents_none.
    eapply Forall_impl; [exact Hevs|]. now intros []. }
  assert (Hfetch0 : forall evs, Forall (fun ev => is_fetch_event ev = true) evs ->
                      countEvents (fun ev => match ev with EvSendRequest _ => true
                                                      | _ => false end) evs = 0%nat).
  { intros evs Hevs. apply countEvents_none.
    eapply Forall_impl; [exact Hevs|]. now intros []. }
  destruct (attempts_eq input tok e) as (sp & _ & Hhost & Hext).
  destruct (hostAttempt_run input tok e s) as (r1 & evs1 & c1 & H1 & Hevs1 & _).
  pose proof (tryVscodeLm_one_request input sp tok e s) as Hone.
  unfold emitted in Hone. rewrite <- Hhost, H1 in Hone.
  cbn [snd advance trace] in Hone. rewrite drop_app_length in Hone.
  destruct r1 as [text1 source1|hostError].
  - rewrite (emitted_advance _ _ _ _ _ _
               (upscalePrompt_host_success _ _ _ _ _ _ _ H1)).
    assert (Hzero : countEvents is_fetch_event (EvCall HostModelClient :: evs1) = 0%nat)
      by apply (Hlm0 evs1 Hevs1).
    split; [|split].
    + pose proof (proj1 (Hsplit (EvCall HostModelClient :: evs1))). lia.
    + lia.
    + intros _ _ _. exact Hzero.
  - destruct (externalAttempt_run input e (advance s (EvCall HostModelClient :: evs1) c1))
      as (r2 & evs2 & c2 & H2 & Hevs2 & _).
    pose proof (tryExternalApi_one_request input sp e
                  (advance s (EvCall HostModelClient :: evs1) c1)) as Htwo.
    unfold emitted in Htwo. rewrite <- Hext, H2 in Htwo.
    cbn [snd advance trace] in Htwo. rewrite drop_app_length in Htwo.
    rewrite advance_advance in H2.
    rewrite (emitted_advance _ _ _ _ _ _
               (upscalePrompt_host_failure _ _ _ _ _ _ _ _ H1 H2)).
    change (EvCall HostModelClient :: evs1 ++ EvCall ExternalClient :: evs2)
      with ((EvCall HostModelClient :: evs1) ++ (EvCall ExternalClient :: evs2)).
    rewrite !countEvents_app.
    pose proof (Hsplit (EvCall HostModelClient :: evs1)) as (Ha & _).
    pose proof (Hsplit (EvCall ExternalClient :: evs2)) as (_ & Hb).
    pose proof (Hlm0 evs1 Hevs1) as Hz1.
    pose proof (Hfetch0 evs2 Hevs2) as Hz2.
    change (countEvents is_fetch_event (EvCall HostModelClient :: evs1))
      with (countEvents is_fetch_event evs1).
    change (countEvents (fun ev => match ev with EvSendRequest _ => true | _ => false end)
              (EvCall ExternalClient :: evs2))
      with (countEvents (fun ev => match ev with EvSendRequest _ => true | _ => false end)
              evs2).
    split; [lia|]. split; [lia|]. intros text source Hsucc.
    rewrite H1 in Hsucc. discriminate.
Qed.

(** X17 at a host model that answers: no HTTP request at all. *)
Lemma upscale_sends_each_request_once_witness :
  countEvents is_fetch_event
    (emitted (upscalePrompt (lit "yo fix this api") None)
       Scenario.hostEnv Scenario.emptyState) = 0%nat.
Proof.
  apply (proj2 (proj2 (upscale_sends_each_request_once (lit "yo fix this api") None
                         Scenario.hostEnv Scenario.emptyState))
           (lit "Investigate and resolve the reported API issue.") vscode_lm).
  vm_compute. reflexivity.
Defined.

Lemma map_original_stamped e t entries :
  map original (stamped e t entries) = map fst entries.
Proof.
  revert t. induction entries as [|[o u] rest IH]; intros t; [reflexivity|].
  cbn. now rewrite IH.
Qed.

(** X18.  The history lists the inserted prompts newest first: after a
    run of inserts under a size [n] it is the entries inserted, in reverse
    order of insertion, in front of the old log, cut to [n]; so the
    original texts read, in order, as the inserted ones reversed and then
    the old ones, and starting from an empty history with at most [n]
    inserts nothing is lost. *)
Theorem history_is_newest_first (n : nat) (e : Env) (s : State)
    (entries : list (jsstring * jsstring)) :
  configuredSize e = Z.of_nat n -> updateRejects e = None -> entries <> [] ->
  list_history (snd (inserts entries e s))
    = take n (rev (stamped e (ticks s) entries) ++ list_history s)
  /\ map original (list_history (snd (inserts entries e s)))
     = take n (rev (map fst entries) ++ map original (list_history s))
  /\ (list_history s = [] -> (length entries <= n)%nat ->
      map original (list_history (snd (inserts entries e s))) = rev (map fst entries)).
Proof.
  intros Hsize Hstore Hne.
  destruct (inserts_run e n entries Hsize Hstore s) as (s' & Hrun & Hlog & _).
  rewrite Hrun. cbn [snd].
  assert (Hlog' : list_history s'
                  = take n (rev (stamped e (ticks s) entries) ++ list_history s))
    by (destruct entries; [now elim Hne | exact Hlog]).
  assert (Horig : map original (list_history s')
                  = take n (rev (map fst entries) ++ map original (list_history s))).
  { rewrite Hlog', <- firstn_map, map_app, map_rev, map_original_stamped.
    reflexivity. }
  split; [exact Hlog'|]. split; [exact Horig|].
  intros Hempty Hlen. rewrite Horig, Hempty. cbn [map]. rewrite app_nil_r.
  apply take_ge. rewrite length_rev, length_map. exact Hlen.
Qed.

(** X18 at three inserts under the installed size 5. *)
Lemma history_is_newest_first_witness :
  map original (list_history (snd (inserts Scenario.threePrompts Scenario.quietEnv
                                     Scenario.emptyState)))
  = [lit "fix teh bug"; lit "make it faster"; lit "add auth"].
Proof.
  apply (proj2 (proj2 (history_is_newest_first 5 Scenario.quietEnv Scenario.emptyState
                         Scenario.threePrompts eq_refl eq_refl ltac:(discriminate)))
           eq_refl).
  cbn. repeat constructor.
Defined.
